(** * Verification of the bulletin-board harvesters

    Shallow embedding of [edeska_jmk.py] (Jihomoravsky kraj) and
    [magistrat_mesta_brna.py] (Magistrat mesta Brna): the filename
    resolver, the resilient fetcher, the list parser's date handling, the
    date-bounded page walk and the exit status.

    Conventions of the embedding
    - A Python [str] is the list of its Unicode code points ([list N]);
      [bytes] is the list of its octets.
    - The Unicode character database consulted by [unicodedata] is a
      parameter ([UCD]); evaluations use the excerpt [ucd_excerpt].
    - Module-level mutable state ([LOG_LINES], [HAS_ERROR]), the download
      directory and the counters are threaded explicitly ([State]); an
      uncaught Python exception is the outcome [Raise].
    - The network is an oracle: every request is answered by a scripted
      [Reply], indexed by the attempt number of the retry loop. *)

From Stdlib Require Import String Ascii.
From stdpp Require Import base numbers list gmap pretty.
From Equations Require Import Equations.

Set Default Proof Using "Type".
Local Open Scope N_scope.

(** ** Python strings *)

Abbreviation str := (list N).

(** A literal of the source, as code points. *)
Definition lit (s : string) : str := map N_of_ascii (list_ascii_of_string s).
Arguments lit : simpl never.

(** [s.startswith(p)]. *)
Fixpoint starts_with (p s : str) : bool :=
  match p, s with
  | [], _ => true
  | a :: p', b :: s' => (a =? b) && starts_with p' s'
  | _ :: _, [] => false
  end.

(** [needle in hay] on [str] and on [bytes]: substring test. *)
Fixpoint contains (needle hay : str) : bool :=
  starts_with needle hay ||
  match hay with
  | [] => false
  | _ :: hay' => contains needle hay'
  end.

(** [s.rsplit(sep, 1)] for a one-character separator: [Some (head, tail)]
    splits at the last occurrence, [None] stands for the one-element list
    returned when the separator does not occur. *)
Fixpoint rsplit1 (sep : N) (s : str) : option (str * str) :=
  match s with
  | [] => None
  | c :: s' =>
      match rsplit1 sep s' with
      | Some (head, tail) => Some (c :: head, tail)
      | None => if c =? sep then Some ([], s') else None
      end
  end.

(** [s.replace(old, new)] for a one-character [old]. *)
Definition replace_char (old : N) (new : str) (s : str) : str :=
  flat_map (λ c, if c =? old then new else [c]) s.

(** [str(n)] / [f"{n}"] for a non-negative integer. *)
Definition str_of_nat (n : nat) : str := lit (pretty n).
Arguments str_of_nat : simpl never.

Definition DOT : N := 46.
Definition SPACE : N := 32.
Definition APOSTROPHE : N := 39.

(** [c.isspace()]: the code points Python's [str.strip()] removes. *)
Definition is_space (c : N) : bool :=
  ((9 <=? c) && (c <=? 13)) || ((28 <=? c) && (c <=? 32)) ||
  (c =? 133) || (c =? 160) || (c =? 5760) ||
  ((8192 <=? c) && (c <=? 8202)) || (c =? 8232) || (c =? 8233) ||
  (c =? 8239) || (c =? 8287) || (c =? 12288).

Fixpoint lstrip (s : str) : str :=
  match s with
  | c :: s' => if is_space c then lstrip s' else s
  | [] => []
  end.

Definition strip (s : str) : str := rev (lstrip (rev (lstrip s))).

(** [bytes.lower()]: only the ASCII letters A-Z are mapped. *)
Definition lower_byte (c : N) : N :=
  if (65 <=? c) && (c <=? 90) then c + 32 else c.

Definition bytes_lower (s : str) : str := map lower_byte s.

(** ** Unicode normalisation ([unicodedata]) *)

(** The properties of the Unicode character database that
    [unicodedata.normalize('NFD', _)], [unicodedata.category], the regular
    expression class [\d] with [int()], and [str.upper()] read. *)
Record UCD := {
  (** full canonical decomposition of a code point ([[c]] when it has none) *)
  decomposition : N → list N;
  (** canonical combining class *)
  combining : N → N;
  (** general category is [Mn] *)
  category_Mn : N → bool;
  (** decimal digit value of a code point of category [Nd] *)
  decimal : N → option N;
  (** full uppercase mapping *)
  uppercase : N → list N;
}.

Section Unicode.
Context (ucd : UCD).

(** Canonical ordering, as CPython's [nfd_nfkd] does it: every code point
    is moved back over the preceding ones of a strictly larger, non-zero
    combining class. [rev_prefix] is the ordered prefix, last code point
    first. *)
Fixpoint reorder_insert (c : N) (rev_prefix : list N) : list N :=
  match rev_prefix with
  | p :: rest =>
      if (0 <? combining ucd c) && (combining ucd c <? combining ucd p)
      then p :: reorder_insert c rest
      else c :: rev_prefix
  | [] => [c]
  end.

Definition canonical_order (s : str) : str :=
  rev (foldl (λ acc c, reorder_insert c acc) [] s).

Definition normalize_NFD (text : str) : str :=
  canonical_order (flat_map (decomposition ucd) text).

(** [remove_diacritics(text)] *)
Definition remove_diacritics (text : str) : str :=
  match text with
  | [] => text
  | _ => filter (λ c, category_Mn ucd c = false) (normalize_NFD text)
  end.

(** The character class [[a-zA-Z0-9_\-]]. *)
Definition allowed_name_char (c : N) : bool :=
  ((97 <=? c) && (c <=? 122)) || ((65 <=? c) && (c <=? 90)) ||
  ((48 <=? c) && (c <=? 57)) || (c =? 95) || (c =? 45).

(** [re.sub(r'[^a-zA-Z0-9_\-]', '', name)] *)
Definition re_sub_disallowed (name : str) : str :=
  filter (λ c, allowed_name_char c = true) name.

(** [sanitize_filename(filename)] *)
Definition sanitize_filename (filename : str) : str :=
  match filename with
  | [] => filename
  | _ =>
      let '(name, ext) :=
        if contains [DOT] filename then
          match rsplit1 DOT filename with
          | Some (name, ext) => (name, DOT :: ext)
          | None => (filename, [])
          end
        else (filename, []) in
      let name := remove_diacritics name in
      let ext := remove_diacritics ext in
      let name := replace_char SPACE (lit "_") name in
      let name := replace_char APOSTROPHE [] name in
      let name := re_sub_disallowed name in
      name ++ ext
  end.
End Unicode.

(** Excerpt of UnicodeData.txt (Unicode 14.0): the accented letters of the
    Czech alphabet, the combining diacritical marks block, and three
    further combining characters.
    - U+0300..U+036F: category Mn; class 230 for the marks used below
    - U+0941 DEVANAGARI VOWEL SIGN U: Mn, class 0
    - U+302E HANGUL SINGLE DOT TONE MARK: Mc, class 224
    - U+1D165 MUSICAL SYMBOL COMBINING STEM: Mc, class 216
    - U+0030..U+0039 and U+FF10..U+FF19 (fullwidth): decimal digits
    Every other code point is taken as a starter without decomposition,
    without digit value, and (the ASCII letters apart) as its own
    uppercase. *)
Definition czech_decomposition : list (N * list N) :=
  [ (0xC1, [0x41; 0x301]); (0xE1, [0x61; 0x301]);   (* A acute *)
    (0x10C, [0x43; 0x30C]); (0x10D, [0x63; 0x30C]); (* C caron *)
    (0x10E, [0x44; 0x30C]); (0x10F, [0x64; 0x30C]); (* D caron *)
    (0xC9, [0x45; 0x301]); (0xE9, [0x65; 0x301]);   (* E acute *)
    (0x11A, [0x45; 0x30C]); (0x11B, [0x65; 0x30C]); (* E caron *)
    (0xCD, [0x49; 0x301]); (0xED, [0x69; 0x301]);   (* I acute *)
    (0x147, [0x4E; 0x30C]); (0x148, [0x6E; 0x30C]); (* N caron *)
    (0xD3, [0x4F; 0x301]); (0xF3, [0x6F; 0x301]);   (* O acute *)
    (0x158, [0x52; 0x30C]); (0x159, [0x72; 0x30C]); (* R caron *)
    (0x160, [0x53; 0x30C]); (0x161, [0x73; 0x30C]); (* S caron *)
    (0x164, [0x54; 0x30C]); (0x165, [0x74; 0x30C]); (* T caron *)
    (0xDA, [0x55; 0x301]); (0xFA, [0x75; 0x301]);   (* U acute *)
    (0x16E, [0x55; 0x30A]); (0x16F, [0x75; 0x30A]); (* U ring *)
    (0xDD, [0x59; 0x301]); (0xFD, [0x79; 0x301]);   (* Y acute *)
    (0x17D, [0x5A; 0x30C]); (0x17E, [0x7A; 0x30C])  (* Z caron *) ].

Definition ucd_excerpt : UCD := {|
  decomposition c :=
    match list_find (λ e, e.1 = c) czech_decomposition with
    | Some (_, (_, d)) => d
    | None => [c]
    end;
  combining c :=
    if (c =? 0x301) || (c =? 0x30A) || (c =? 0x30C) then 230
    else if c =? 0x302E then 224
    else if c =? 0x1D165 then 216
    else 0;
  category_Mn c := ((0x300 <=? c) && (c <=? 0x36F)) || (c =? 0x941);
  decimal c :=
    if (0x30 <=? c) && (c <=? 0x39) then Some (c - 0x30)
    else if (0xFF10 <=? c) && (c <=? 0xFF19) then Some (c - 0xFF10)
    else None;
  uppercase c := if (0x61 <=? c) && (c <=? 0x7A) then [c - 32] else [c];
|}.

(** ** Filename resolver *)

(** What a call of [get_available_filename] ends in: the name it
    returns, or the [OSError] that [Path.exists()] lets through, raised
    while testing [candidate]. *)
Inductive Resolved :=
| Free (name : str)
| StatError (candidate : str).

(** The length in bytes of a name in UTF-8, the encoding of file names. *)
Definition utf8_length (name : str) : N :=
  foldr (λ c n, (if c <? 0x80 then 1 else if c <? 0x800 then 2
                 else if c <? 0x10000 then 3 else 4) + n) 0 name.

(** On Linux [os.stat] fails with [ENAMETOOLONG] on a file name of more
    than [NAME_MAX] bytes, and [Path.exists()] does not catch this error. *)
Definition NAME_MAX : N := 255.
Definition name_too_long (name : str) : bool := NAME_MAX <? utf8_length name.

(** [get_available_filename(directory, filename)]. [(directory /
    n).exists()] calls [os.stat]: it raises on the names [n] with
    [stat_fails n] (the errors other than [ENOENT], [ENOTDIR], [EBADF] and
    [ELOOP], which [pathlib] lets through), and otherwise tells whether [n]
    is in [directory], the set of names present. The [while] loop is run
    with [fuel] tests; [None] means the fuel ran out. *)
Fixpoint while_exists (fuel : nat) (stat_fails : str → bool)
    (directory : gset str) (base ext new_name : str) (counter : nat)
    : option Resolved :=
  match fuel with
  | O => None
  | S fuel' =>
      if stat_fails new_name then Some (StatError new_name)
      else if bool_decide (new_name ∈ directory)
      then while_exists fuel' stat_fails directory base ext
             (base ++ lit "_" ++ str_of_nat counter ++ ext) (S counter)
      else Some (Free new_name)
  end.

Definition split_ext (filename : str) : str * str :=
  if contains [DOT] filename then
    match rsplit1 DOT filename with
    | Some (base, ext) => (base, DOT :: ext)
    | None => (filename, [])
    end
  else (filename, []).

Definition get_available_filename (stat_fails : str → bool)
    (directory : gset str) (filename : str) : option Resolved :=
  let '(base, ext) := split_ext filename in
  while_exists (S (size directory)) stat_fails directory base ext filename 1.

(** ** Calendar dates ([datetime]) *)

(** A [datetime] at midnight, as [strptime] builds it from a date. *)
Record datetime := { year : N; month : N; day : N }.

Definition is_leap (y : N) : bool :=
  ((y mod 4 =? 0) && negb (y mod 100 =? 0)) || (y mod 400 =? 0).

Definition days_in_month (y m : N) : N :=
  if m =? 2 then (if is_leap y then 29 else 28)
  else if (m =? 4) || (m =? 6) || (m =? 9) || (m =? 11) then 30
  else 31.

(** The constructor [datetime(year, month, day)]; [None] is its
    [ValueError]. *)
Definition make_datetime (y m d : N) : option datetime :=
  if (1 <=? y) && (y <=? 9999) && (1 <=? m) && (m <=? 12) &&
     (1 <=? d) && (d <=? days_in_month y m)
  then Some {| year := y; month := m; day := d |}
  else None.

(** Comparison of two [datetime] values: [a < b] and [a > b]. *)
Definition dt_ltb (a b : datetime) : bool :=
  (year a <? year b) ||
  ((year a =? year b) &&
   ((month a <? month b) || ((month a =? month b) && (day a <? day b)))).

Definition dt_gtb (a b : datetime) : bool := dt_ltb b a.

(** Two decimal digits, zero padded ([%m], [%d] of [strftime]). *)
Definition pad2 (n : N) : str :=
  if n <? 10 then lit "0" ++ str_of_nat (N.to_nat n) else str_of_nat (N.to_nat n).

(** [dt.strftime("%Y-%m-%d")]; glibc's [%Y] does not pad the year. *)
Definition strftime_iso (dt : datetime) : str :=
  str_of_nat (N.to_nat (year dt)) ++ lit "-" ++ pad2 (month dt) ++ lit "-" ++
  pad2 (day dt).

Section Dates.
Context (ucd : UCD).

(** An ASCII digit between [lo] and [hi] (a class such as [[1-9]]). *)
Definition digit_in (lo hi : N) (c : N) : option N :=
  if (48 + lo <=? c) && (c <=? 48 + hi) then Some (c - 48) else None.

(** The alternatives of [_strptime]'s pattern for [%d],
    [3[0-1]|[1-2]\d|0[1-9]|[1-9]| [1-9]], in order: every way the pattern
    matches a prefix of [s], with the value and the rest. *)
Definition match_d (s : str) : list (N * str) :=
  match s with
  | a :: b :: r =>
      (if a =? 51 then
         match digit_in 0 1 b with Some v => [(30 + v, r)] | None => [] end
       else []) ++
      match digit_in 1 2 a, decimal ucd b with
      | Some u, Some v => [(10 * u + v, r)]
      | _, _ => []
      end ++
      (if a =? 48 then
         match digit_in 1 9 b with Some v => [(v, r)] | None => [] end
       else []) ++
      match digit_in 1 9 a with Some v => [(v, b :: r)] | None => [] end ++
      (if a =? 32 then
         match digit_in 1 9 b with Some v => [(v, r)] | None => [] end
       else [])
  | [a] => match digit_in 1 9 a with Some v => [(v, [])] | None => [] end
  | [] => []
  end.

(** The alternatives for [%m], [1[0-2]|0[1-9]|[1-9]]. *)
Definition match_m (s : str) : list (N * str) :=
  match s with
  | a :: b :: r =>
      (if a =? 49 then
         match digit_in 0 2 b with Some v => [(10 + v, r)] | None => [] end
       else []) ++
      (if a =? 48 then
         match digit_in 1 9 b with Some v => [(v, r)] | None => [] end
       else []) ++
      match digit_in 1 9 a with Some v => [(v, b :: r)] | None => [] end
  | [a] => match digit_in 1 9 a with Some v => [(v, [])] | None => [] end
  | [] => []
  end.

(** [%Y] is [\d\d\d\d], read by [int()]. *)
Definition match_Y (s : str) : list (N * str) :=
  match s with
  | a :: b :: c :: d :: r =>
      match decimal ucd a, decimal ucd b, decimal ucd c, decimal ucd d with
      | Some x, Some y, Some z, Some w =>
          [(1000 * x + 100 * y + 10 * z + w, r)]
      | _, _, _, _ => []
      end
  | _ => []
  end.

(** A literal [.] of the format. *)
Definition match_dot (s : str) : list str :=
  match s with
  | c :: r => if c =? DOT then [r] else []
  | [] => []
  end.

(** All matches of the format [%d.%m.%Y] at the start of [s], in the
    order a backtracking matcher finds them. *)
Definition match_dmY (s : str) : list (N * N * N * str) :=
  '(d, s1) ← match_d s;
  s2 ← match_dot s1;
  '(m, s3) ← match_m s2;
  s4 ← match_dot s3;
  '(y, s5) ← match_Y s4;
  [(d, m, y, s5)].

(** [datetime.strptime(date_str, "%d.%m.%Y")]; [None] is [ValueError]
    (no match, unconverted data, or a date that does not exist). *)
Definition strptime_dmY (date_str : str) : option datetime :=
  match match_dmY date_str with
  | (d, m, y, []) :: _ => make_datetime y m d
  | _ => None
  end.

(** The pattern [\d{2}\.\d{2}\.\d{4}] against a whole string. *)
Definition date_shape (s : str) : bool :=
  match s with
  | [d1; d2; p1; m1; m2; p2; y1; y2; y3; y4] =>
      forallb (λ c, bool_decide (is_Some (decimal ucd c)))
        [d1; d2; m1; m2; y1; y2; y3; y4] &&
      (p1 =? DOT) && (p2 =? DOT)
  | _ => false
  end.

(** [text[0].upper() + text[1:]] *)
Definition capitalize_first (text : str) : str :=
  match text with
  | [] => text
  | c :: rest => uppercase ucd c ++ rest
  end.
End Dates.

(** ** Run state and effects *)

Inductive Level := INFO | WARN | ERROR.

Global Instance Level_eq_dec : EqDecision Level.
Proof. solve_decision. Defined.

(** One line of the log; the time stamp is left out. *)
Record LogLine := { level : Level; msg : str }.

(** What the process does to the outside world, in order. *)
Inductive Effect :=
| Print (line : LogLine)              (* [print(line)] and the append to LOG_FILE *)
| Sleep (secs : N)                    (* [time.sleep(secs)] *)
| RandomSleep (min_sec max_sec : N)   (* [random_pause(min_sec, max_sec)] *)
| HttpGet (url : str)
| HttpPost (url : str) (data : list (str * str))
| WriteFile (name : str)              (* a file written into SAVE_DIR *)
| FtpStor (remote_path remote_filename : str)
| WriteSql (file : str) (records : nat).

Record Stats := {
  pages_processed : nat;
  items_processed : nat;
  files_downloaded : nat;
  files_uploaded : nat;
  files_failed : nat;
}.

Record State := {
  LOG_LINES : list LogLine;
  HAS_ERROR : bool;
  effects : list Effect;
  (** names present in SAVE_DIR *)
  disk : gset str;
  stats : Stats;
  (** [sql_import.statements]: the arguments of each [add_file] *)
  statements : list (list str);
  (** [scraper.viewstate], [scraper.viewstate_generator] *)
  viewstate : str;
  viewstate_generator : str;
}.

Definition initial_state (directory : gset str) : State := {|
  LOG_LINES := [];
  HAS_ERROR := false;
  effects := [];
  disk := directory;
  stats := {| pages_processed := 0; items_processed := 0; files_downloaded := 0;
              files_uploaded := 0; files_failed := 0 |};
  statements := [];
  viewstate := [];
  viewstate_generator := [];
|}.

(** Python exceptions that the scripts do not catch. *)
Inductive Exn := ValueError | OSError.

(** The result of running a piece of the script: a value, an exception on
    its way up, or the end of the model's fuel. *)
Inductive Outcome (A : Type) :=
| Ok (a : A)
| Raise (e : Exn)
| OutOfFuel.
Arguments Ok {A} a.
Arguments Raise {A} e.
Arguments OutOfFuel {A}.

Definition M (A : Type) : Type := State → Outcome A * State.

Global Instance M_ret : MRet M := λ A a st, (Ok a, st).

Global Instance M_bind : MBind M := λ A B f m st,
  match m st with
  | (Ok a, st') => f a st'
  | (Raise e, st') => (Raise e, st')
  | (OutOfFuel, st') => (OutOfFuel, st')
  end.

Definition raise {A} (e : Exn) : M A := λ st, (Raise e, st).
Definition out_of_fuel {A} : M A := λ st, (OutOfFuel, st).

(** A value that may be the [ValueError] of [strptime]. *)
Definition or_raise {A} (o : option A) : M A :=
  match o with
  | Some a => mret a
  | None => raise ValueError
  end.

Definition modify (f : State → State) : M () := λ st, (Ok (), f st).
Definition gets {A} (f : State → A) : M A := λ st, (Ok (f st), st).

Definition perform (e : Effect) : M () :=
  modify (λ st,
    {| LOG_LINES := LOG_LINES st; HAS_ERROR := HAS_ERROR st;
       effects := effects st ++ [e]; disk := disk st; stats := stats st;
       statements := statements st; viewstate := viewstate st;
       viewstate_generator := viewstate_generator st |}).

(** [log(msg, level)] *)
Definition log (msg : str) (level : Level) : M () :=
  let line := {| level := level; msg := msg |} in
  modify (λ st,
    {| LOG_LINES := LOG_LINES st ++ [line];
       HAS_ERROR := if decide (level = ERROR) then true else HAS_ERROR st;
       effects := effects st ++ [Print line]; disk := disk st;
       stats := stats st; statements := statements st;
       viewstate := viewstate st;
       viewstate_generator := viewstate_generator st |}).

Definition PAUSE_MIN : N := 2.
Definition PAUSE_MAX : N := 4.
Definition PAUSE_ON_ERROR : N := 30.
Definition MAX_RETRIES : nat := 3.

(** [random_pause(min_sec, max_sec)] *)
Definition random_pause (min_sec max_sec : N) : M () :=
  perform (RandomSleep min_sec max_sec).

(** [time.sleep(secs)] *)
Definition time_sleep (secs : N) : M () := perform (Sleep secs).

Definition set_stats (f : Stats → Stats) : M () :=
  modify (λ st,
    {| LOG_LINES := LOG_LINES st; HAS_ERROR := HAS_ERROR st;
       effects := effects st; disk := disk st; stats := f (stats st);
       statements := statements st; viewstate := viewstate st;
       viewstate_generator := viewstate_generator st |}).

(** ** The network and the publishing sink *)

Record Response (B : Type) := {
  status_code : N;
  (** [response.headers], a case-insensitive dictionary *)
  headers : list (str * str);
  (** [response.text] or [response.content] *)
  body : B;
}.
Arguments status_code {B} _.
Arguments headers {B} _.
Arguments body {B} _.

(** The answer to one request: [session.get]/[session.post] raises an
    exception with message [e], or returns a response. *)
Inductive Reply (B : Type) :=
| Fault (e : str)
| Resp (r : Response B).
Arguments Fault {B} e.
Arguments Resp {B} r.

(** [response.headers.get(name)] *)
Definition header_get (name : str) (hs : list (str * str)) : option str :=
  snd <$> head (filter (λ kv, bytes_lower kv.1 = bytes_lower name) hs).

(** The two maintenance banners: ["Service Unavailable" in text or
    "docasne nedostupna" in text]. *)
Definition maintenance_page (text : str) : bool :=
  contains (lit "Service Unavailable") text ||
  contains (lit "docasne nedostupna") text.

(** [f"HTTP {response.status_code}"] *)
Definition http_error (status : N) : str :=
  lit "HTTP " ++ str_of_nat (N.to_nat status).

(** Configuration of a run: the date bounds parsed from FROM_DATE and
    TO_DATE, the FTP settings read from the environment, the answer of
    the FTP server to a [STOR] ([None]: stored; [Some e]: an exception),
    and the names in the download folder on which [os.stat] fails. *)
Record Config := {
  from_date : datetime;
  to_date : datetime;
  FTP_HOST : str;
  FTP_USER : str;
  FTP_PASS : str;
  FTP_PATH : str;
  FTP_LOGS_PATH : str;
  ftp_server : str → str → option str;
  stat_fails : str → bool;
}.

Definition FROM_DATE (cfg : Config) : str := strftime_iso (from_date cfg).
Definition TO_DATE (cfg : Config) : str := strftime_iso (to_date cfg).

Definition SLASH : N := 47.

(** [path.rsplit('/', 2)[0]] *)
Definition rsplit2_head (path : str) : str :=
  match rsplit1 SLASH path with
  | Some (h, _) =>
      match rsplit1 SLASH h with
      | Some (h', _) => h'
      | None => h
      end
  | None => path
  end.

Definition write_file (name : str) : M () :=
  modify (λ st,
    {| LOG_LINES := LOG_LINES st; HAS_ERROR := HAS_ERROR st;
       effects := effects st ++ [WriteFile name]; disk := {[ name ]} ∪ disk st;
       stats := stats st; statements := statements st;
       viewstate := viewstate st;
       viewstate_generator := viewstate_generator st |}).

(** [sql_import.add_file(...)], the record as the list of its fields. *)
Definition add_file (record : list str) : M () :=
  modify (λ st,
    {| LOG_LINES := LOG_LINES st; HAS_ERROR := HAS_ERROR st;
       effects := effects st; disk := disk st; stats := stats st;
       statements := statements st ++ [record]; viewstate := viewstate st;
       viewstate_generator := viewstate_generator st |}).

Section Publishing.
Context (cfg : Config).

(** [upload_to_ftp(local_path, remote_path, remote_filename)] *)
Definition upload_to_ftp (remote_path remote_filename : str) : M bool :=
  if bool_decide (FTP_HOST cfg = []) || bool_decide (FTP_USER cfg = []) ||
     bool_decide (FTP_PASS cfg = []) || bool_decide (remote_path = [])
  then
    log (lit "FTP neni nakonfigurovano, preskakuji upload") WARN;;
    mret false
  else
    perform (FtpStor remote_path remote_filename);;
    match ftp_server cfg remote_path remote_filename with
    | None => mret true
    | Some e => log (lit "FTP chyba: " ++ e) ERROR;; mret false
    end.

(** [upload_file_to_ftp(local_path, remote_filename)] *)
Definition upload_file_to_ftp (remote_filename : str) : M bool :=
  upload_to_ftp (FTP_PATH cfg) remote_filename.

(** [upload_log_to_ftp(local_path, remote_filename)]; [site] is the
    folder name of the script. *)
Definition upload_log_to_ftp (site remote_filename : str) : M bool :=
  let logs_path :=
    match FTP_LOGS_PATH cfg with
    | [] =>
        match FTP_PATH cfg with
        | [] => []
        | _ => rsplit2_head (FTP_PATH cfg) ++ lit "/logs/" ++ site
        end
    | _ => FTP_LOGS_PATH cfg
    end in
  upload_to_ftp logs_path remote_filename.

(** [upload_sql_to_ftp(local_path, remote_filename)] *)
Definition upload_sql_to_ftp (remote_filename : str) : M bool :=
  let base_path :=
    match FTP_PATH cfg with
    | [] => []
    | _ => rsplit2_head (FTP_PATH cfg)
    end in
  upload_to_ftp base_path remote_filename.

(** [sql_import.save()] *)
Definition sql_import_save (file : str) : M bool :=
  n ← gets (λ st, length (statements st));
  perform (WriteSql file n);;
  log (lit "SQL import soubor vytvoren: " ++ file ++ lit " (" ++
       str_of_nat n ++ lit " zaznamu)") INFO;;
  mret true.

(** [sql_logy.save(log_text, has_error, marker_today)] *)
Definition sql_logy_save (file : str) : M () :=
  perform (WriteSql file 1);;
  log (lit "SQL logy soubor vytvoren: " ++ file) INFO.
End Publishing.

(** The last statements of [main]: the argument of [sys.exit], chosen by
    [HAS_ERROR]. *)
Definition exit_code : M N :=
  has_error ← gets HAS_ERROR;
  if has_error : bool then
    log (lit "Skript skoncil s chybami.") ERROR;;
    mret 1
  else
    log (lit "Skript skoncil uspesne.") INFO;;
    mret 0.

(** ** edeska_jmk.py *)

Module JMK.

(** One row found by [<tr>\s*<td class="Priloha">.*?</tr>], seen through
    the two patterns [parse_list_page] applies to it. *)
Record Row := {
  (** the contents of the row's [VyveseniDneTdL]/[VyveseniDneTdS] cells,
      in document order *)
  VyveseniDneTd : list str;
  (** groups 1 and 2 of the title-link pattern, if it matches *)
  NazevTd : option (str * str);
}.

(** A page of the site: its text, and what the regular expressions of the
    script find in it. *)
Record Html := {
  text : str;
  VIEWSTATE : option str;
  VIEWSTATEGENERATOR : option str;
  rows : list Row;
  (** [(href, text)] of the anchors of class [soubor_odkaz] *)
  soubor_odkaz : list (str * str);
}.

(** The site during one run: the answers to the successive list-page
    requests, to the detail requests and to the downloads, each indexed
    by the attempt number [retry]. *)
Record World := {
  list_pages : list (nat → Reply Html);
  detail_pages : str → nat → Reply Html;
  files : str → nat → Reply str;
}.

Record Item := {
  date : str;
  date_iso : str;
  detail_url : str;
  name : str;
}.

Definition SAVE_DIR : str := lit "stazene_soubory/jihomoravsky_kraj".
Definition SQL_IMPORT_FILE : str := lit "jmk_import.sql".
Definition SQL_LOGY_FILE : str := lit "jmk_logy.sql".
Definition LOG_FILE : str := lit "edeska_jmk.log".
Definition LIST_URL : str := lit "Seznam.aspx?a=0".

Section Scraper.
Context (ucd : UCD) (cfg : Config) (w : World).

(** [parse_date_cz(date_str)] *)
Definition parse_date_cz (date_str : str) : M datetime :=
  or_raise (strptime_dmY ucd date_str).

(** [format_date_iso(date_str)] *)
Definition format_date_iso (date_str : str) : M str :=
  dt ← parse_date_cz date_str;
  mret (strftime_iso dt).

(** [JMKScraper._extract_viewstate(html)] *)
Definition _extract_viewstate (html : Html) : M () :=
  modify (λ st,
    {| LOG_LINES := LOG_LINES st; HAS_ERROR := HAS_ERROR st;
       effects := effects st; disk := disk st; stats := stats st;
       statements := statements st;
       viewstate := default (viewstate st) (VIEWSTATE html);
       viewstate_generator :=
         default (viewstate_generator st) (VIEWSTATEGENERATOR html) |}).

(** The [try] block of [get_page] and [post_page] at the reply [r]: the
    text returned, or the message of the exception raised. *)
Definition page_try (r : Reply Html) : str + Html :=
  match r with
  | Fault e => inl e
  | Resp response =>
      if status_code response =? 200 then
        let html := body response in
        if maintenance_page (text html)
        then inl (lit "Server vratil chybovou stranku (503)")
        else inr html
      else inl (http_error (status_code response))
  end.

(** [JMKScraper.get_page(url, retry)] *)
Equations get_page (script : nat → Reply Html) (url : str) (retry : nat)
    : M (option Html) by wf (MAX_RETRIES - retry)%nat lt :=
  get_page script url retry :=
    perform (HttpGet url);;
    match page_try (script retry) with
    | inr html => mret (Some html)
    | inl e =>
        match decide (retry < MAX_RETRIES)%nat with
        | left _ =>
            log (lit "Chyba: " ++ e ++ lit ", cekam 30s a zkousim znovu...")
              WARN;;
            time_sleep PAUSE_ON_ERROR;;
            get_page script url (S retry)
        | right _ =>
            log (lit "Chyba po 3 pokusech: " ++ e) ERROR;;
            mret None
        end
    end.
Next Obligation. unfold MAX_RETRIES in *. lia. Qed.

(** [JMKScraper.post_page(url, data, retry)] *)
Equations post_page (script : nat → Reply Html) (url : str)
    (data : list (str * str)) (retry : nat)
    : M (option Html) by wf (MAX_RETRIES - retry)%nat lt :=
  post_page script url data retry :=
    perform (HttpPost url data);;
    match page_try (script retry) with
    | inr html => mret (Some html)
    | inl e =>
        match decide (retry < MAX_RETRIES)%nat with
        | left _ =>
            log (lit "Chyba: " ++ e ++ lit ", cekam 30s a zkousim znovu...")
              WARN;;
            time_sleep PAUSE_ON_ERROR;;
            post_page script url data (S retry)
        | right _ =>
            log (lit "Chyba po 3 pokusech: " ++ e) ERROR;;
            mret None
        end
    end.
Next Obligation. unfold MAX_RETRIES in *. lia. Qed.

(** What one attempt of [download_file] ends in. *)
Inductive Attempt :=
| Raised (e : str)     (* an exception reaches the [except] clause *)
| Returned (b : bool). (* a [return] inside the [try] block *)

(** The [try] block of [download_file]. *)
Definition download_try (r : Reply str) (save_path : str) : M Attempt :=
  match r with
  | Fault e => mret (Raised e)
  | Resp response =>
      if negb (status_code response =? 200)
      then mret (Raised (http_error (status_code response)))
      else
        let content_type :=
          default [] (header_get (lit "Content-Type") (headers response)) in
        let save := write_file save_path;; mret (Returned true) in
        if contains (lit "text/html") content_type &&
           negb (bool_decide
                   (is_Some (header_get (lit "Content-Disposition")
                               (headers response))))
        then
          let content := body response in
          if maintenance_page content
          then mret (Raised (lit "Server vratil chybovou stranku"))
          else
            let content_lower := bytes_lower content in
            if contains (lit "dokument") content_lower &&
               contains (lit "dispozici") content_lower
            then
              log (lit "Dokument neni k dispozici") WARN;;
              mret (Returned false)
            else save
        else save
  end.

(** [JMKScraper.download_file(url, save_path, retry)] *)
Equations download_file (script : nat → Reply str) (url save_path : str)
    (retry : nat) : M bool by wf (MAX_RETRIES - retry)%nat lt :=
  download_file script url save_path retry :=
    perform (HttpGet url);;
    a ← download_try (script retry) save_path;
    match a with
    | Returned b => mret b
    | Raised e =>
        match decide (retry < MAX_RETRIES)%nat with
        | left _ =>
            log (lit "Chyba stahovani: " ++ e ++ lit ", cekam 30s...") WARN;;
            time_sleep PAUSE_ON_ERROR;;
            download_file script url save_path (S retry)
        | right _ =>
            log (lit "Chyba stahovani po 3 pokusech: " ++ e) ERROR;;
            mret false
        end
    end.
Next Obligation. unfold MAX_RETRIES in *. lia. Qed.

(** [JMKScraper.get_list_page(page)]; [script] answers its request. *)
Definition get_list_page (script : nat → Reply Html) (page : nat)
    : M (option Html) :=
  if bool_decide (page = 1%nat) then
    html ← get_page script LIST_URL 0;
    match html with
    | Some h => (if bool_decide (text h = []) then mret () else _extract_viewstate h);;
                mret html
    | None => mret html
    end
  else
    vs ← gets viewstate;
    vsg ← gets viewstate_generator;
    let data := [ (lit "__EVENTTARGET", lit "P");
                  (lit "__EVENTARGUMENT", str_of_nat page);
                  (lit "__VIEWSTATE", vs);
                  (lit "__VIEWSTATEGENERATOR", vsg) ] in
    html ← post_page script LIST_URL data 0;
    match html with
    | Some h => (if bool_decide (text h = []) then mret () else _extract_viewstate h);;
                mret html
    | None => mret html
    end.

(** [re.search] of the date pattern in a row: the first cell whose
    content is [\d{2}\.\d{2}\.\d{4}]. *)
Definition date_match (row : Row) : option str :=
  head (filter (λ c, date_shape ucd c = true) (VyveseniDneTd row)).

(** The [for row in rows] loop of [parse_list_page]. *)
Fixpoint parse_rows (rows : list Row) (items : list Item) : M (list Item) :=
  match rows with
  | [] => mret items
  | row :: rest =>
      match date_match row with
      | None => parse_rows rest items
      | Some date =>
          match NazevTd row with
          | None => parse_rows rest items
          | Some (detail_url, name) =>
              date_iso ← format_date_iso date;
              parse_rows rest
                (items ++ [ {| date := date; date_iso := date_iso;
                               detail_url := detail_url;
                               name := strip name |} ])
          end
      end
  end.

(** [JMKScraper.parse_list_page(html)] *)
Definition parse_list_page (html : Html) : M (list Item) :=
  parse_rows (rows html) [].

(** [JMKScraper.parse_detail_page(html)]: the [(url, filename)] pairs. *)
Definition parse_detail_page (html : Html) : list (str * str) :=
  map (λ m, (m.1, strip m.2)) (soubor_odkaz html).

(** The [for file_info in files] loop of [main]. *)
Fixpoint for_files (item : Item) (nadpis : str) (files_ : list (str * str))
    : M () :=
  match files_ with
  | [] => mret ()
  | file_info :: rest =>
      let original_name := file_info.2 in
      let sanitized_name := sanitize_filename ucd original_name in
      let new_name := date_iso item ++ lit "_" ++ sanitized_name in
      directory ← gets disk;
      final_name ←
        match get_available_filename (stat_fails cfg) directory new_name with
        | Some (Free n) => mret n
        | Some (StatError _) => raise OSError
        | None => out_of_fuel
        end;
      random_pause PAUSE_MIN PAUSE_MAX;;
      let file_url := file_info.1 in
      ok ← download_file (files w file_url) file_url final_name 0;
      (if ok : bool then
         log (lit "OK " ++ final_name) INFO;;
         set_stats (λ s,
           {| pages_processed := pages_processed s;
              items_processed := items_processed s;
              files_downloaded := S (files_downloaded s);
              files_uploaded := files_uploaded s;
              files_failed := files_failed s |});;
         up ← upload_file_to_ftp cfg final_name;
         (if up : bool then
            log (lit "FTP OK") INFO;;
            set_stats (λ s,
              {| pages_processed := pages_processed s;
                 items_processed := items_processed s;
                 files_downloaded := files_downloaded s;
                 files_uploaded := S (files_uploaded s);
                 files_failed := files_failed s |})
          else log (lit "FTP CHYBA") ERROR);;
         add_file [final_name; date_iso item ++ lit " 00:00:00"; nadpis]
       else
         log (lit "CHYBA " ++ original_name) ERROR;;
         set_stats (λ s,
           {| pages_processed := pages_processed s;
              items_processed := items_processed s;
              files_downloaded := files_downloaded s;
              files_uploaded := files_uploaded s;
              files_failed := S (files_failed s) |}));;
      for_files item nadpis rest
  end.

(** [f"-> {item['name']} ({item['date']})"] *)
Definition item_line (item : Item) : str :=
  lit "-> " ++ name item ++ lit " (" ++ date item ++ lit ")".

(** The body of [for item in items] below the two date filters. *)
Definition handle_item (item : Item) : M () :=
  log (item_line item) INFO;;
  set_stats (λ s,
    {| pages_processed := pages_processed s;
       items_processed := S (items_processed s);
       files_downloaded := files_downloaded s;
       files_uploaded := files_uploaded s;
       files_failed := files_failed s |});;
  random_pause PAUSE_MIN PAUSE_MAX;;
  detail_html ← get_page (detail_pages w (detail_url item)) (detail_url item) 0;
  match detail_html with
  | None => log (lit "Chyba nacitani detailu") ERROR
  | Some h =>
      if bool_decide (text h = []) then log (lit "Chyba nacitani detailu") ERROR
      else
        match parse_detail_page h with
        | [] => log (lit "(zadne soubory)") INFO
        | files_ => for_files item (capitalize_first ucd (name item)) files_
        end
  end.

(** The [for item in items] loop of [main]; the result is [finished]. *)
Fixpoint for_items (items : list Item) : M bool :=
  match items with
  | [] => mret false
  | item :: rest =>
      item_date ← parse_date_cz (date item);
      if dt_gtb item_date (to_date cfg) then for_items rest
      else if dt_ltb item_date (from_date cfg) then
        log (lit "Dosazeno data " ++ date item ++ lit " (starsi nez " ++
             FROM_DATE cfg ++ lit "), koncim.") INFO;;
        mret true
      else
        handle_item item;;
        for_items rest
  end.

(** The [while not finished] loop of [main]. [pages] are the answers of
    the site to the list-page requests still to come; the model's fuel
    ends when the loop asks for a page beyond them. *)
Fixpoint main_loop (pages : list (nat → Reply Html)) (page : nat) : M () :=
  match pages with
  | [] => out_of_fuel
  | script :: later =>
      log (lit "Nacitam stranku " ++ str_of_nat page ++ lit "...") INFO;;
      html ← get_list_page script page;
      match html with
      | None => log (lit "Chyba nacitani stranky, koncim.") ERROR
      | Some h =>
          if bool_decide (text h = [])
          then log (lit "Chyba nacitani stranky, koncim.") ERROR
          else
            items ← parse_list_page h;
            match items with
            | [] => log (lit "Zadne polozky na strance, koncim.") INFO
            | _ =>
                log (lit "Nalezeno " ++ str_of_nat (length items) ++
                     lit " polozek") INFO;;
                set_stats (λ s,
                  {| pages_processed := S (pages_processed s);
                     items_processed := items_processed s;
                     files_downloaded := files_downloaded s;
                     files_uploaded := files_uploaded s;
                     files_failed := files_failed s |});;
                finished ← for_items items;
                if finished : bool then mret ()
                else
                  random_pause PAUSE_MIN PAUSE_MAX;;
                  main_loop later (S page)
            end
      end
  end.

(** The summary and the artifacts at the end of [main], and the exit
    code passed to [sys.exit]. *)
Definition finish (import_name logy_name site : str) : M N :=
  log (lit "=== HOTOVO ===") INFO;;
  s ← gets stats;
  log (lit "Zpracovano stranek: " ++ str_of_nat (pages_processed s)) INFO;;
  log (lit "Zpracovano polozek: " ++ str_of_nat (items_processed s)) INFO;;
  log (lit "Stazeno souboru: " ++ str_of_nat (files_downloaded s)) INFO;;
  log (lit "Nahrano na FTP: " ++ str_of_nat (files_uploaded s)) INFO;;
  log (lit "Selhalo: " ++ str_of_nat (files_failed s)) INFO;;
  stmts ← gets statements;
  match stmts with
  | [] => log (lit "Zadne soubory ke stazeni, SQL import nevytvoren.") INFO
  | _ => sql_import_save import_name;; upload_sql_to_ftp cfg import_name;; mret ()
  end;;
  sql_logy_save logy_name;;
  upload_sql_to_ftp cfg logy_name;;
  upload_log_to_ftp cfg site LOG_FILE;;
  exit_code.

(** [main()]; the value is the argument of [sys.exit]. *)
Definition main : M N :=
  log (lit "=== Stahovani z uredni desky JMK ===") INFO;;
  log (lit "Datum: " ++ FROM_DATE cfg) INFO;;
  log (lit "Lokalni slozka: " ++ SAVE_DIR) INFO;;
  main_loop (list_pages w) 1;;
  finish SQL_IMPORT_FILE SQL_LOGY_FILE (lit "jihomoravsky_kraj").
End Scraper.
End JMK.

(** The exit status of the process: the argument of [sys.exit], or 1 when
    the interpreter ends on an uncaught exception. *)
Definition exit_status (o : Outcome N) : option N :=
  match o with
  | Ok code => Some code
  | Raise _ => Some 1
  | OutOfFuel => None
  end.

(** ** magistrat_mesta_brna.py *)

Module Brno.

(** One [<tr>] of the table body, seen through the patterns of
    [_parse_row]. The text fields are the cleaned captures ([""] when
    the pattern does not match). *)
Record Row := {
  oblast : str;
  kategorie : str;
  (** [detailId] and the cleaned title of the name link, if it matches *)
  nazev : option (N * str);
  cislo_jednaci : str;
  puvodce : str;
  (** the contents of the row's [edeska-sloupec-zverejnit] cells *)
  zverejnit : list str;
  (** [(idPriloha, cleaned file name)] of the download links *)
  dokument : list (str * str);
}.

Record Html := {
  text : str;
  (** group 2 of [(\d+)\s*-\s*\d+\s+z\s+(\d+)], read by [int()] *)
  total_count_match : option nat;
  (** the rows of the first [<tbody>], if there is one *)
  tbody : option (list Row);
}.

Record World := {
  list_pages : list (nat → Reply Html);
  files : str → nat → Reply str;
}.

Record Item := {
  detail_id : N;
  item_oblast : str;
  item_kategorie : str;
  item_nazev : str;
  item_cislo_jednaci : str;
  item_puvodce : str;
  zverejnit_od : str;
  zverejnit_od_iso : str;
  zverejnit_do : str;
  zverejnit_do_iso : str;
  item_files : list (str * str);
}.

Definition SQL_IMPORT_FILE : str := lit "soubory_z_magistratu_mesta_brna.sql".
Definition SQL_LOGY_FILE : str := lit "soubory_z_magistratu_mesta_brna_logy.sql".
Definition LOG_FILE : str := lit "edeska_brno.log".
Definition LIST_URL : str := lit "https://edeska.brno.cz/eDeska/eDeskaAktualni.jsp".
Definition DOWNLOAD_URL : str :=
  lit "https://edeska.brno.cz/eDeska/download.jsp?idPriloha=".
Definition PAGE_SIZE : nat := 25.

Section Scraper.
Context (ucd : UCD) (cfg : Config) (w : World).

(** [parse_date_cz(date_str)] *)
Definition parse_date_cz (date_str : str) : M datetime :=
  or_raise (strptime_dmY ucd (strip date_str)).

(** [format_date_iso(date_str)] *)
Definition format_date_iso (date_str : str) : M str :=
  dt ← parse_date_cz date_str;
  mret (strftime_iso dt).

(** The [try] block of [get_page] and [post_page]. *)
Definition page_try (r : Reply Html) : str + Html :=
  match r with
  | Fault e => inl e
  | Resp response =>
      if status_code response =? 200 then inr (body response)
      else inl (http_error (status_code response))
  end.

(** [BrnoScraper.get_page(url, retry)] *)
Equations get_page (script : nat → Reply Html) (url : str) (retry : nat)
    : M (option Html) by wf (MAX_RETRIES - retry)%nat lt :=
  get_page script url retry :=
    perform (HttpGet url);;
    match page_try (script retry) with
    | inr html => mret (Some html)
    | inl e =>
        match decide (retry < MAX_RETRIES)%nat with
        | left _ =>
            log (lit "Chyba: " ++ e ++ lit ", cekam 30s a zkousim znovu...")
              WARN;;
            time_sleep PAUSE_ON_ERROR;;
            get_page script url (S retry)
        | right _ =>
            log (lit "Chyba po 3 pokusech: " ++ e) ERROR;;
            mret None
        end
    end.
Next Obligation. unfold MAX_RETRIES in *. lia. Qed.

(** [BrnoScraper.post_page(url, data, retry)] *)
Equations post_page (script : nat → Reply Html) (url : str)
    (data : list (str * str)) (retry : nat)
    : M (option Html) by wf (MAX_RETRIES - retry)%nat lt :=
  post_page script url data retry :=
    perform (HttpPost url data);;
    match page_try (script retry) with
    | inr html => mret (Some html)
    | inl e =>
        match decide (retry < MAX_RETRIES)%nat with
        | left _ =>
            log (lit "Chyba: " ++ e ++ lit ", cekam 30s a zkousim znovu...")
              WARN;;
            time_sleep PAUSE_ON_ERROR;;
            post_page script url data (S retry)
        | right _ =>
            log (lit "Chyba po 3 pokusech: " ++ e) ERROR;;
            mret None
        end
    end.
Next Obligation. unfold MAX_RETRIES in *. lia. Qed.

(** The [try] block of [download_file]: [inl e] is an exception, [inr b]
    a [return b]. *)
Definition download_try (r : Reply str) (save_path : str) : M (str + bool) :=
  match r with
  | Fault e => mret (inl e)
  | Resp response =>
      if negb (status_code response =? 200)
      then mret (inl (http_error (status_code response)))
      else
        let content_type :=
          default [] (header_get (lit "Content-Type") (headers response)) in
        if contains (lit "text/html") content_type &&
           negb (bool_decide
                   (is_Some (header_get (lit "Content-Disposition")
                               (headers response)))) &&
           maintenance_page (body response)
        then mret (inl (lit "Server vratil chybovou stranku"))
        else write_file save_path;; mret (inr true)
  end.

(** [BrnoScraper.download_file(url, save_path, retry)] *)
Equations download_file (script : nat → Reply str) (url save_path : str)
    (retry : nat) : M bool by wf (MAX_RETRIES - retry)%nat lt :=
  download_file script url save_path retry :=
    perform (HttpGet url);;
    a ← download_try (script retry) save_path;
    match a with
    | inr b => mret b
    | inl e =>
        match decide (retry < MAX_RETRIES)%nat with
        | left _ =>
            log (lit "Chyba stahovani: " ++ e ++ lit ", cekam 30s...") WARN;;
            time_sleep PAUSE_ON_ERROR;;
            download_file script url save_path (S retry)
        | right _ =>
            log (lit "Chyba stahovani po 3 pokusech: " ++ e) ERROR;;
            mret false
        end
    end.
Next Obligation. unfold MAX_RETRIES in *. lia. Qed.

(** [BrnoScraper.get_list_page(first)] *)
Definition get_list_page (script : nat → Reply Html) (first : nat)
    : M (option Html) :=
  if bool_decide (first = 0%nat) then get_page script LIST_URL 0
  else
    let data := [ (lit "order", lit "vyveseno");
                  (lit "desc", lit "true");
                  (lit "first", str_of_nat first);
                  (lit "count", str_of_nat PAGE_SIZE) ] in
    post_page script LIST_URL data 0.

(** [BrnoScraper.parse_total_count(html)] *)
Definition parse_total_count (html : Html) : nat :=
  match total_count_match html with
  | Some n => n
  | None => 0
  end.

(** [BrnoScraper._parse_row(row_html)] *)
Definition _parse_row (row : Row) : M (option Item) :=
  match nazev row with
  | None => mret None
  | Some (detail_id, nazev) =>
      let dates :=
        filter (λ d, date_shape ucd d = true) (map strip (zverejnit row)) in
      let zverejnit_od := default [] (dates !! 0%nat) in
      let zverejnit_do := default [] (dates !! 1%nat) in
      match zverejnit_od with
      | [] => mret None
      | _ =>
          od_iso ← format_date_iso zverejnit_od;
          do_iso ←
            match zverejnit_do with
            | [] => mret []
            | _ => format_date_iso zverejnit_do
            end;
          mret (Some {| detail_id := detail_id;
                        item_oblast := oblast row;
                        item_kategorie := kategorie row;
                        item_nazev := nazev;
                        item_cislo_jednaci := cislo_jednaci row;
                        item_puvodce := puvodce row;
                        zverejnit_od := zverejnit_od;
                        zverejnit_od_iso := od_iso;
                        zverejnit_do := zverejnit_do;
                        zverejnit_do_iso := do_iso;
                        item_files := dokument row |})
      end
  end.

(** The [for row in rows] loop of [parse_list_page]. *)
Fixpoint parse_rows (rows : list Row) (items : list Item) : M (list Item) :=
  match rows with
  | [] => mret items
  | row :: rest =>
      item ← _parse_row row;
      match item with
      | Some i => parse_rows rest (items ++ [i])
      | None => parse_rows rest items
      end
  end.

(** [BrnoScraper.parse_list_page(html)] *)
Definition parse_list_page (html : Html) : M (list Item) :=
  match tbody html with
  | None => mret []
  | Some rows => parse_rows rows []
  end.

(** The [for file_info in item["files"]] loop of [main]. *)
Fixpoint for_files (item : Item) (files_ : list (str * str)) : M () :=
  match files_ with
  | [] => mret ()
  | file_info :: rest =>
      let original_name := file_info.2 in
      let sanitized_name := sanitize_filename ucd original_name in
      let new_name := zverejnit_od_iso item ++ lit "_" ++ sanitized_name in
      directory ← gets disk;
      final_name ←
        match get_available_filename (stat_fails cfg) directory new_name with
        | Some (Free n) => mret n
        | Some (StatError _) => raise OSError
        | None => out_of_fuel
        end;
      random_pause PAUSE_MIN PAUSE_MAX;;
      let file_url := DOWNLOAD_URL ++ file_info.1 in
      ok ← download_file (files w file_url) file_url final_name 0;
      (if ok : bool then
         log (lit "  OK " ++ final_name) INFO;;
         set_stats (λ s,
           {| pages_processed := pages_processed s;
              items_processed := items_processed s;
              files_downloaded := S (files_downloaded s);
              files_uploaded := files_uploaded s;
              files_failed := files_failed s |});;
         up ← upload_file_to_ftp cfg final_name;
         (if up : bool then
            log (lit "  FTP OK") INFO;;
            set_stats (λ s,
              {| pages_processed := pages_processed s;
                 items_processed := items_processed s;
                 files_downloaded := files_downloaded s;
                 files_uploaded := S (files_uploaded s);
                 files_failed := files_failed s |})
          else log (lit "  FTP CHYBA") ERROR);;
         add_file [ str_of_nat (N.to_nat (detail_id item)); item_oblast item;
                    item_kategorie item; item_nazev item;
                    item_cislo_jednaci item; item_puvodce item;
                    zverejnit_od_iso item; zverejnit_do_iso item;
                    final_name; zverejnit_od_iso item ++ lit " 00:00:00" ]
       else
         log (lit "  CHYBA " ++ original_name) ERROR;;
         set_stats (λ s,
           {| pages_processed := pages_processed s;
              items_processed := items_processed s;
              files_downloaded := files_downloaded s;
              files_uploaded := files_uploaded s;
              files_failed := S (files_failed s) |}));;
      for_files item rest
  end.

(** [f"-> [{item['detail_id']}] {item['nazev']} ({item['zverejnit_od']})"] *)
Definition item_line (item : Item) : str :=
  lit "-> [" ++ str_of_nat (N.to_nat (detail_id item)) ++ lit "] " ++
  item_nazev item ++ lit " (" ++ zverejnit_od item ++ lit ")".

(** The body of [for item in items] below the two date filters. *)
Definition handle_item (item : Item) : M () :=
  log (item_line item) INFO;;
  set_stats (λ s,
    {| pages_processed := pages_processed s;
       items_processed := S (items_processed s);
       files_downloaded := files_downloaded s;
       files_uploaded := files_uploaded s;
       files_failed := files_failed s |});;
  match item_files item with
  | [] => log (lit "  (zadne soubory)") INFO
  | files_ => for_files item files_
  end.

(** The [for item in items] loop of [main]; the result is [finished]. *)
Fixpoint for_items (items : list Item) : M bool :=
  match items with
  | [] => mret false
  | item :: rest =>
      item_date ← parse_date_cz (zverejnit_od item);
      if dt_gtb item_date (to_date cfg) then for_items rest
      else if dt_ltb item_date (from_date cfg) then
        log (lit "Dosazeno data " ++ zverejnit_od item ++
             lit " (starsi nez " ++ FROM_DATE cfg ++ lit "), koncim.") INFO;;
        mret true
      else
        handle_item item;;
        for_items rest
  end.

(** The [while not finished] loop of [main], entered with the current
    values of [first] and [total_count]. *)
Fixpoint main_loop (pages : list (nat → Reply Html)) (first total_count : nat)
    : M () :=
  match pages with
  | [] => out_of_fuel
  | script :: later =>
      log (lit "Nacitam stranku (offset " ++ str_of_nat first ++ lit ")...")
        INFO;;
      html ← get_list_page script first;
      match html with
      | None => log (lit "Chyba nacitani stranky, koncim.") ERROR
      | Some h =>
          if bool_decide (text h = [])
          then log (lit "Chyba nacitani stranky, koncim.") ERROR
          else
            total_count ←
              (if bool_decide (first = 0%nat) then
                 let total_count := parse_total_count h in
                 log (lit "Celkovy pocet zaznamu na desce: " ++
                      str_of_nat total_count) INFO;;
                 mret total_count
               else mret total_count);
            items ← parse_list_page h;
            match items with
            | [] => log (lit "Zadne polozky na strance, koncim.") INFO
            | _ =>
                log (lit "Nalezeno " ++ str_of_nat (length items) ++
                     lit " polozek na strance") INFO;;
                set_stats (λ s,
                  {| pages_processed := S (pages_processed s);
                     items_processed := items_processed s;
                     files_downloaded := files_downloaded s;
                     files_uploaded := files_uploaded s;
                     files_failed := files_failed s |});;
                finished ← for_items items;
                if finished : bool then mret ()
                else
                  let first := (first + PAGE_SIZE)%nat in
                  if bool_decide (total_count ≤ first)%nat
                  then log (lit "Dosazeno konce seznamu.") INFO
                  else
                    random_pause PAUSE_MIN PAUSE_MAX;;
                    main_loop later first total_count
            end
      end
  end.

(** The summary and the artifacts at the end of [main], and the exit
    code passed to [sys.exit]. *)
Definition finish (import_name logy_name site : str) : M N :=
  log (lit "=== HOTOVO ===") INFO;;
  s ← gets stats;
  log (lit "Zpracovano stranek: " ++ str_of_nat (pages_processed s)) INFO;;
  log (lit "Zpracovano polozek: " ++ str_of_nat (items_processed s)) INFO;;
  log (lit "Stazeno souboru: " ++ str_of_nat (files_downloaded s)) INFO;;
  log (lit "Nahrano na FTP: " ++ str_of_nat (files_uploaded s)) INFO;;
  log (lit "Selhalo: " ++ str_of_nat (files_failed s)) INFO;;
  stmts ← gets statements;
  match stmts with
  | [] => log (lit "Zadne soubory ke stazeni, SQL import nevytvoren.") INFO
  | _ => sql_import_save import_name;; upload_sql_to_ftp cfg import_name;; mret ()
  end;;
  sql_logy_save logy_name;;
  upload_sql_to_ftp cfg logy_name;;
  upload_log_to_ftp cfg site LOG_FILE;;
  exit_code.

(** [main()]; the value is the argument of [sys.exit]. *)
Definition main : M N :=
  log (lit "=== Stahovani z uredni desky Magistratu mesta Brna ===") INFO;;
  log (lit "Datum od: " ++ FROM_DATE cfg ++ lit ", do: " ++ TO_DATE cfg) INFO;;
  log (lit "Lokalni slozka: stazene_soubory/magistrat_mesta_brna") INFO;;
  main_loop (list_pages w) 0 0;;
  finish SQL_IMPORT_FILE SQL_LOGY_FILE (lit "magistrat_mesta_brna").
End Scraper.
End Brno.

(** * Properties *)

(** ** Strings *)

Lemma lit_inj (a b : string) : lit a = lit b → a = b.
Proof.
  unfold lit. intros H.
  rewrite <- (string_of_list_ascii_of_string a),
          <- (string_of_list_ascii_of_string b).
  f_equal. revert H.
  generalize (list_ascii_of_string a) (list_ascii_of_string b).
  induction l as [|x l IH]; intros [|y l'] H; simplify_eq/=; try done.
  f_equal; [|by apply IH].
  rewrite <- (ascii_N_embedding x), <- (ascii_N_embedding y). by f_equal.
Qed.

Lemma str_of_nat_inj (n m : nat) : str_of_nat n = str_of_nat m → n = m.
Proof. intros H. apply lit_inj in H. by apply (inj pretty) in H. Qed.

Lemma starts_with_singleton (c : N) (s : str) :
  starts_with [c] s = true ↔ ∃ s', s = c :: s'.
Proof.
  destruct s as [|b s]; simpl; [split; [done|by intros [? ?]]|].
  rewrite andb_true_r, N.eqb_eq. split; [intros ->; eauto|].
  by intros [? [= -> _]].
Qed.

Lemma contains_singleton (c : N) (s : str) : contains [c] s = true ↔ c ∈ s.
Proof.
  induction s as [|b s IH].
  - simpl. split; [done|]. by intros ?%elem_of_nil.
  - change (contains [c] (b :: s))
      with (starts_with [c] (b :: s) || contains [c] s).
    rewrite orb_true_iff, starts_with_singleton, IH, elem_of_cons.
    split; intros [H|H]; eauto.
    + destruct H as [? [= -> _]]. by left.
    + subst. left. eauto.
Qed.

Lemma rsplit1_None (sep : N) (s : str) : rsplit1 sep s = None ↔ sep ∉ s.
Proof.
  induction s as [|c s IH]; simpl.
  - split; [intros _ ?%elem_of_nil; done|done].
  - rewrite not_elem_of_cons. destruct (rsplit1 sep s) as [[h t]|].
    + split; [done|]. intros [_ H]. by apply IH in H.
    + destruct (N.eqb_spec c sep) as [->|Hne]; split; try done.
      * by intros [? _].
      * intros _. split; [done|by apply IH].
Qed.

Lemma rsplit1_app (sep : N) (h t : str) :
  sep ∉ t → rsplit1 sep (h ++ sep :: t) = Some (h, t).
Proof.
  intros Ht. induction h as [|c h IH]; simpl.
  - apply rsplit1_None in Ht. rewrite Ht, N.eqb_refl. done.
  - by rewrite IH.
Qed.

Lemma rsplit1_inv (sep : N) (s h t : str) :
  rsplit1 sep s = Some (h, t) → s = h ++ sep :: t ∧ sep ∉ t.
Proof.
  revert h. induction s as [|c s IH]; intros h; simpl; [done|].
  destruct (rsplit1 sep s) as [[h' t']|] eqn:E.
  - intros [= <- <-]. destruct (IH h' eq_refl) as [-> ?]. done.
  - apply rsplit1_None in E.
    destruct (N.eqb_spec c sep) as [->|Hne]; [|done].
    intros [= <- <-]. done.
Qed.

(** ** Filename resolver *)

(** The name tried at round [k] of the loop: [f"{base}_{k}{ext}"]. *)
Definition numbered (filename : str) (k : nat) : str :=
  (split_ext filename).1 ++ lit "_" ++ str_of_nat k ++ (split_ext filename).2.

Lemma split_ext_app (filename : str) :
  (split_ext filename).1 ++ (split_ext filename).2 = filename.
Proof.
  unfold split_ext. destruct (contains [DOT] filename); [|by rewrite app_nil_r].
  destruct (rsplit1 DOT filename) as [[base ext]|] eqn:E;
    [|by rewrite app_nil_r].
  apply rsplit1_inv in E as [-> _]. done.
Qed.

Lemma split_ext_dot (base ext : str) :
  DOT ∉ ext → split_ext (base ++ DOT :: ext) = (base, DOT :: ext).
Proof.
  intros Hext. unfold split_ext.
  assert (contains [DOT] (base ++ DOT :: ext) = true) as ->
    by (apply contains_singleton; set_solver).
  by rewrite rsplit1_app.
Qed.

Lemma split_ext_no_dot (filename : str) :
  DOT ∉ filename → split_ext filename = (filename, []).
Proof.
  intros H. unfold split_ext.
  destruct (contains [DOT] filename) eqn:E; [|done].
  apply contains_singleton in E. done.
Qed.

Lemma numbered_inj (filename : str) (j k : nat) :
  numbered filename j = numbered filename k → j = k.
Proof.
  unfold numbered. intros H.
  apply app_inv_head, app_inv_head, app_inv_tail in H.
  by apply str_of_nat_inj.
Qed.

Lemma numbered_neq (filename : str) (k : nat) : numbered filename k ≠ filename.
Proof.
  intros H. apply (f_equal length) in H. revert H.
  rewrite <- (split_ext_app filename) at 2. unfold numbered.
  rewrite !length_app. simpl. lia.
Qed.

(** The names the loop tests, in order: the desired name, then the
    numbered ones from 1 on. *)
Definition candidate (filename : str) (k : nat) : str :=
  match k with
  | O => filename
  | S _ => numbered filename k
  end.

Lemma candidate_inj (filename : str) (j k : nat) :
  candidate filename j = candidate filename k → j = k.
Proof.
  destruct j as [|j], k as [|k]; simpl; intros H; [done| | |].
  - symmetry in H. by apply numbered_neq in H.
  - by apply numbered_neq in H.
  - by apply numbered_inj in H.
Qed.

(** The loop, about to test candidate [c], on a directory whose
    candidates still ahead all lie in a set [ahead] smaller than the fuel:
    it stops at the first candidate [k] that is refused by [os.stat] or
    free, and every candidate before it is present. *)
Lemma while_exists_spec (filename : str) (stat_fails : str → bool)
    (directory : gset str) :
  ∀ (fuel : nat) (ahead : gset str) (c : nat),
    (size ahead < fuel)%nat →
    (∀ k, (c ≤ k)%nat →
          candidate filename k ∈ directory → candidate filename k ∈ ahead) →
    ∃ k, (c ≤ k)%nat ∧
      (∀ j, (c ≤ j < k)%nat →
            candidate filename j ∈ directory ∧
            stat_fails (candidate filename j) = false) ∧
      (stat_fails (candidate filename k) = false →
       candidate filename k ∉ directory) ∧
      while_exists fuel stat_fails directory
        (split_ext filename).1 (split_ext filename).2
        (candidate filename c) (S c)
        = Some (if stat_fails (candidate filename k)
                then StatError (candidate filename k)
                else Free (candidate filename k)).
Proof.
  induction fuel as [|fuel IH]; intros ahead c Hsz Hahead; [lia|].
  simpl. destruct (stat_fails (candidate filename c)) eqn:Hstat.
  { exists c. rewrite Hstat. split; [lia|]. split; [intros j ?; lia|]. done. }
  case_bool_decide as Hd.
  - destruct (IH (ahead ∖ {[ candidate filename c ]}) (S c))
      as (k & Hk & Hbefore & Hfree & Hrun).
    + pose proof (size_difference ahead {[ candidate filename c ]}) as Hs.
      rewrite size_singleton in Hs.
      assert (candidate filename c ∈ ahead) as Hin by (by apply Hahead).
      assert (size ahead ≠ 0)%nat by (apply size_non_empty_iff; set_solver).
      rewrite Hs by set_solver. lia.
    + intros k Hk H. apply elem_of_difference.
      split; [apply Hahead; [lia|done]|].
      rewrite elem_of_singleton. intros E%candidate_inj. lia.
    + exists k. split; [lia|]. split; [|done].
      intros j Hj. destruct (decide (j = c)) as [->|]; [done|].
      apply Hbefore. lia.
  - exists c. rewrite Hstat. split; [lia|]. split; [intros j ?; lia|]. done.
Qed.

(** [get_available_filename] stops at the first candidate that is refused
    by [os.stat] or free: it raises on the former and returns the latter. *)
Lemma get_available_filename_spec (stat_fails : str → bool)
    (directory : gset str) (filename : str) :
  ∃ k,
    (∀ j, (j < k)%nat →
          candidate filename j ∈ directory ∧
          stat_fails (candidate filename j) = false) ∧
    (stat_fails (candidate filename k) = false →
     candidate filename k ∉ directory) ∧
    get_available_filename stat_fails directory filename
      = Some (if stat_fails (candidate filename k)
              then StatError (candidate filename k)
              else Free (candidate filename k)).
Proof.
  unfold get_available_filename.
  destruct (split_ext filename) as [base ext] eqn:E.
  destruct (while_exists_spec filename stat_fails directory
              (S (size directory)) directory 0)
    as (k & _ & Hbefore & Hfree & Hrun); [lia|done|].
  rewrite E in Hrun. simpl in Hrun. exists k.
  split; [intros j Hj; apply Hbefore; lia|]. done.
Qed.

(** The name returned is not in the directory. *)
Lemma get_available_filename_free (stat_fails : str → bool)
    (directory : gset str) (filename name : str) :
  get_available_filename stat_fails directory filename = Some (Free name) →
  name ∉ directory.
Proof.
  destruct (get_available_filename_spec stat_fails directory filename)
    as (k & _ & Hfree & ->).
  destruct (stat_fails (candidate filename k)); [done|].
  intros [= <-]. by apply Hfree.
Qed.

(** A name of 256 letters [a]. *)
Definition long_name : str := replicate 256 97.

(** C3, counterexample. On a desired name of 256 bytes
    [get_available_filename] returns no name: [Path.exists()] raises the
    [OSError] of [os.stat] (file name too long), in an empty directory. *)
Lemma get_available_filename_raises_on_long_name :
  utf8_length long_name = 256 ∧
  get_available_filename name_too_long ∅ long_name
    = Some (StatError long_name) ∧
  ¬ ∃ name,
      get_available_filename name_too_long ∅ long_name = Some (Free name).
Proof.
  assert (get_available_filename name_too_long ∅ long_name
            = Some (StatError long_name)) as H by (vm_compute; reflexivity).
  split; [vm_compute; reflexivity|]. split; [exact H|].
  intros [name Hname]. rewrite H in Hname. discriminate.
Qed.

(** C3. For every set of existing names and every desired name such that
    [os.stat] fails on none of the candidates the loop reaches,
    [get_available_filename] returns a name that is not in the directory:
    the desired name itself when it is free, and otherwise the desired name
    with [_k] inserted before the extension, for the least [k >= 1] whose
    name is free (all of [_1], ..., [_(k-1)] are present). The result
    depends on the directory only through the set of names it holds. With
    [2024-05-01_doc.pdf] present, [2024-05-01_doc.pdf] resolves to
    [2024-05-01_doc_1.pdf]. *)
Theorem get_available_filename_free_and_numbered :
  (∀ (stat_fails : str → bool) (directory : gset str) (filename : str),
     (∀ j, (∀ i, (i < j)%nat → candidate filename i ∈ directory) →
           stat_fails (candidate filename j) = false) →
     ∃ name,
       get_available_filename stat_fails directory filename
         = Some (Free name) ∧
       (name ∉ directory) ∧
       (filename ∉ directory → name = filename) ∧
       (filename ∈ directory →
        ∃ k, (1 ≤ k)%nat ∧ name = numbered filename k ∧
             ∀ j, (1 ≤ j < k)%nat → numbered filename j ∈ directory)) ∧
  (∀ (stat_fails : str → bool) (d1 d2 : gset str) (filename : str),
     (∀ n, n ∈ d1 ↔ n ∈ d2) →
     get_available_filename stat_fails d1 filename
       = get_available_filename stat_fails d2 filename) ∧
  get_available_filename name_too_long {[ lit "2024-05-01_doc.pdf" ]}
      (lit "2024-05-01_doc.pdf")
    = Some (Free (lit "2024-05-01_doc_1.pdf")).
Proof.
  split; [|split].
  - intros stat_fails directory filename Hstat.
    destruct (get_available_filename_spec stat_fails directory filename)
      as (k & Hbefore & Hfree & Hrun).
    rewrite Hstat in Hrun, Hfree by (intros i Hi; by apply Hbefore).
    specialize (Hfree eq_refl).
    exists (candidate filename k). split; [done|]. split; [done|].
    destruct k as [|k]; simpl in *.
    + split; [done|]. intros Hin. done.
    + split.
      * intros Hnot. destruct (Hbefore 0%nat) as [Hin _]; [lia|]. done.
      * intros _. exists (S k). split; [lia|]. split; [done|].
        intros j Hj. destruct (Hbefore j) as [Hin _]; [lia|].
        destruct j as [|j]; [lia|]. done.
  - intros stat_fails d1 d2 filename H.
    assert (d1 = d2) as -> by (by apply set_eq). done.
  - vm_compute. reflexivity.
Qed.

(** C10. Only the text after the last dot is the extension. When a name
    [base.ext] ([ext] without a dot, [base] with any number of dots) is
    taken, the candidates tested are [base_1.ext], [base_2.ext], ..., up to
    the first [base_k.ext] that is free or that [os.stat] refuses: the
    suffix goes before the final extension only, and [base_k.ext] is the
    name returned (or the name on which the [OSError] of [Path.exists()] is
    raised). When a name without a dot is taken, the suffix goes at the
    very end. With [a.tar.gz] present, [a.tar.gz] resolves to [a.tar_1.gz]
    and not to [a_1.tar.gz]. *)
Theorem get_available_filename_last_dot :
  (∀ (stat_fails : str → bool) (directory : gset str) (base ext : str),
     DOT ∉ ext →
     base ++ DOT :: ext ∈ directory →
     stat_fails (base ++ DOT :: ext) = false →
     ∃ k, (1 ≤ k)%nat ∧
       get_available_filename stat_fails directory (base ++ DOT :: ext)
         = Some (if stat_fails (base ++ lit "_" ++ str_of_nat k ++ DOT :: ext)
                 then StatError (base ++ lit "_" ++ str_of_nat k ++ DOT :: ext)
                 else Free (base ++ lit "_" ++ str_of_nat k ++ DOT :: ext)) ∧
       (stat_fails (base ++ lit "_" ++ str_of_nat k ++ DOT :: ext) = false →
        base ++ lit "_" ++ str_of_nat k ++ DOT :: ext ∉ directory) ∧
       ∀ j, (1 ≤ j < k)%nat →
            base ++ lit "_" ++ str_of_nat j ++ DOT :: ext ∈ directory) ∧
  (∀ (stat_fails : str → bool) (directory : gset str) (filename : str),
     DOT ∉ filename →
     filename ∈ directory →
     stat_fails filename = false →
     ∃ k, (1 ≤ k)%nat ∧
       get_available_filename stat_fails directory filename
         = Some (if stat_fails (filename ++ lit "_" ++ str_of_nat k)
                 then StatError (filename ++ lit "_" ++ str_of_nat k)
                 else Free (filename ++ lit "_" ++ str_of_nat k)) ∧
       (stat_fails (filename ++ lit "_" ++ str_of_nat k) = false →
        filename ++ lit "_" ++ str_of_nat k ∉ directory) ∧
       ∀ j, (1 ≤ j < k)%nat → filename ++ lit "_" ++ str_of_nat j ∈ directory) ∧
  get_available_filename name_too_long {[ lit "a.tar.gz" ]} (lit "a.tar.gz")
    = Some (Free (lit "a.tar_1.gz")) ∧
  get_available_filename name_too_long {[ lit "a.tar.gz" ]} (lit "a.tar.gz")
    ≠ Some (Free (lit "a_1.tar.gz")) ∧
  get_available_filename name_too_long {[ lit "README" ]} (lit "README")
    = Some (Free (lit "README_1")).
Proof.
  assert (∀ stat_fails directory filename,
            filename ∈ directory → stat_fails filename = false →
            ∃ k, (1 ≤ k)%nat ∧
              get_available_filename stat_fails directory filename
                = Some (if stat_fails (numbered filename k)
                        then StatError (numbered filename k)
                        else Free (numbered filename k)) ∧
              (stat_fails (numbered filename k) = false →
               numbered filename k ∉ directory) ∧
              ∀ j, (1 ≤ j < k)%nat → numbered filename j ∈ directory) as Hgen.
  { intros stat_fails directory filename Hin Hstat.
    destruct (get_available_filename_spec stat_fails directory filename)
      as (k & Hbefore & Hfree & Hrun).
    destruct k as [|k]; simpl in *.
    { rewrite Hstat in Hrun. by specialize (Hfree Hstat). }
    exists (S k). split; [lia|]. split; [done|]. split; [done|].
    intros j Hj. destruct (Hbefore j) as [Hj' _]; [lia|].
    destruct j as [|j]; [lia|]. done. }
  split; [|split; [|split; [|split]]].
  - intros stat_fails directory base ext Hext Hin Hstat.
    destruct (Hgen stat_fails directory _ Hin Hstat) as (k & Hk & Hrun & Hfree & Hj).
    unfold numbered in *. rewrite split_ext_dot in * by done. simpl in *.
    exists k. done.
  - intros stat_fails directory filename Hdot Hin Hstat.
    destruct (Hgen stat_fails directory _ Hin Hstat) as (k & Hk & Hrun & Hfree & Hj).
    unfold numbered in *. rewrite split_ext_no_dot in * by done. simpl in *.
    rewrite app_nil_r in *. exists k. split; [done|]. split; [done|].
    split; [done|].
    intros j Hjk. specialize (Hj j Hjk). by rewrite app_nil_r in Hj.
  - vm_compute. reflexivity.
  - vm_compute. intros [=].
  - vm_compute. reflexivity.
Qed.

(** ** Filename sanitisation *)

(** The characters the docstring of [sanitize_filename] allows in its
    result: [a-z], [A-Z], [0-9], [_], [-] and [.]. *)
Definition allowed_output_char (c : N) : bool := allowed_name_char c || (c =? DOT).

(** The part of the result that comes from the name consists of allowed
    characters only, for every character database. *)
Lemma re_sub_disallowed_allowed (name : str) :
  Forall (λ c, allowed_name_char c = true) (re_sub_disallowed name).
Proof.
  unfold re_sub_disallowed. apply Forall_forall. intros c Hc.
  by apply list_elem_of_filter in Hc as [? _].
Qed.

(** The result is the cleaned name followed by the extension, and the
    extension has only gone through [remove_diacritics]. *)
Lemma sanitize_filename_parts (ucd : UCD) (base ext : str) :
  DOT ∉ ext →
  ∃ name', Forall (λ c, allowed_name_char c = true) name' ∧
    sanitize_filename ucd (base ++ DOT :: ext)
      = name' ++ remove_diacritics ucd (DOT :: ext).
Proof.
  intros Hext. unfold sanitize_filename.
  destruct (base ++ DOT :: ext) as [|c s] eqn:E; [by destruct base|].
  rewrite <- E.
  assert (contains [DOT] (base ++ DOT :: ext) = true) as ->
    by (apply contains_singleton; set_solver).
  rewrite rsplit1_app by done.
  eexists. split; [|reflexivity]. apply re_sub_disallowed_allowed.
Qed.

(** The attachment name "Priloha c. 1" with its Czech diacritics:
    P, r-caron, i-acute, l, o, h, a, space, c-caron, dot, space, 1. *)
Definition priloha_c_1 : str :=
  [0x50; 0x159; 0xED] ++ lit "loha " ++ [0x10D] ++ lit ". 1".

(** C2. On the attachment name "Priloha c. 1" (with diacritics) the text
    after the last dot is [" 1"]: [sanitize_filename] strips the diacritics
    and cleans the name part, but returns the extension with its space, so
    the result ["Priloha_c. 1"] holds a character outside
    [[A-Za-z0-9_.-]]. *)
Theorem sanitize_filename_extension_not_cleaned :
  sanitize_filename ucd_excerpt priloha_c_1 = lit "Priloha_c. 1" ∧
  SPACE ∈ sanitize_filename ucd_excerpt priloha_c_1 ∧
  ¬ Forall (λ c, allowed_output_char c = true)
      (sanitize_filename ucd_excerpt priloha_c_1).
Proof.
  assert (sanitize_filename ucd_excerpt priloha_c_1 = lit "Priloha_c. 1") as E
    by (vm_compute; reflexivity).
  split; [exact E|]. rewrite E. split.
  - vm_compute. set_solver.
  - intros H. rewrite Forall_forall in H.
    specialize (H SPACE). vm_compute in H.
    assert (false = true) by (apply H; set_solver). done.
Qed.

(** A name whose extension holds a Hangul tone mark (class 224), a
    Devanagari vowel sign (category Mn, class 0) and a musical combining
    stem (class 216). *)
Definition tone_marks_name : str := lit "a." ++ [0x302E; 0x941; 0x1D165].

(** C9. [sanitize_filename] is not idempotent on [tone_marks_name]: the
    first pass removes the Mn character between the two marks of the
    extension, and the second pass then puts the two marks in canonical
    order, so the second result differs from the first. *)
Theorem sanitize_filename_second_pass_differs :
  sanitize_filename ucd_excerpt tone_marks_name = lit "a." ++ [0x302E; 0x1D165] ∧
  sanitize_filename ucd_excerpt (sanitize_filename ucd_excerpt tone_marks_name)
    = lit "a." ++ [0x1D165; 0x302E] ∧
  sanitize_filename ucd_excerpt (sanitize_filename ucd_excerpt tone_marks_name)
    ≠ sanitize_filename ucd_excerpt tone_marks_name.
Proof.
  split; [vm_compute; reflexivity|]. split; [vm_compute; reflexivity|].
  vm_compute. intros [=].
Qed.

(** ** The fetcher *)

(** The final state and the result of running a piece of the script. *)
Definition exec {A} (m : M A) (st : State) : State := (m st).2.
Definition outcome {A} (m : M A) (st : State) : Outcome A := (m st).1.

Lemma bind_ok {A B} (m : M A) (k : A → M B) (st st' : State) (a : A) :
  m st = (Ok a, st') → (m ≫= k) st = k a st'.
Proof. unfold mbind, M_bind. by intros ->. Qed.

(** A reply is transient for the JMK page fetcher exactly when the request
    raised, the status is not 200, or the text holds a maintenance banner. *)
Lemma JMK_page_try_transient (r : Reply JMK.Html) :
  (∃ e, JMK.page_try r = inl e) ↔
  match r with
  | Fault _ => True
  | Resp response =>
      status_code response ≠ 200 ∨
      maintenance_page (JMK.text (body response)) = true
  end.
Proof.
  destruct r as [e|response]; simpl; [split; eauto|].
  destruct (N.eqb_spec (status_code response) 200) as [->|Hne].
  - destruct (maintenance_page _); split; eauto.
    + intros [? [=]].
    + intros [?|?]; done.
  - split; eauto.
Qed.

(** One attempt of [JMK.get_page] that succeeds. *)
Lemma JMK_get_page_ok script url retry st html :
  JMK.page_try (script retry) = inr html →
  JMK.get_page script url retry st
    = (Ok (Some html), exec (perform (HttpGet url)) st).
Proof.
  intros H. rewrite JMK.get_page_equation_1.
  erewrite bind_ok by reflexivity. by rewrite H.
Qed.

(** One attempt that fails within the budget: WARN, sleep, next attempt. *)
Lemma JMK_get_page_retry script url retry st e :
  JMK.page_try (script retry) = inl e →
  (retry < MAX_RETRIES)%nat →
  JMK.get_page script url retry st
    = JMK.get_page script url (S retry)
        (exec (perform (HttpGet url);;
               log (lit "Chyba: " ++ e ++ lit ", cekam 30s a zkousim znovu...")
                 WARN;;
               time_sleep PAUSE_ON_ERROR) st).
Proof.
  intros H Hlt. rewrite JMK.get_page_equation_1.
  erewrite bind_ok by reflexivity. rewrite H.
  destruct (decide (retry < MAX_RETRIES)%nat); [|done]. reflexivity.
Qed.

(** One attempt that fails with the budget used up: ERROR, [None]. *)
Lemma JMK_get_page_give_up script url retry st e :
  JMK.page_try (script retry) = inl e →
  ¬ (retry < MAX_RETRIES)%nat →
  JMK.get_page script url retry st
    = (Ok None,
       exec (perform (HttpGet url);;
             log (lit "Chyba po 3 pokusech: " ++ e) ERROR) st).
Proof.
  intros H Hlt. rewrite JMK.get_page_equation_1.
  erewrite bind_ok by reflexivity. rewrite H.
  destruct (decide (retry < MAX_RETRIES)%nat); [done|]. reflexivity.
Qed.

(** The lines [get_page] and [post_page] write. *)
Definition retry_line (e : str) : LogLine :=
  {| level := WARN;
     msg := lit "Chyba: " ++ e ++ lit ", cekam 30s a zkousim znovu..." |}.

Definition give_up_line (e : str) : LogLine :=
  {| level := ERROR; msg := lit "Chyba po 3 pokusech: " ++ e |}.

(** What one failed attempt within the budget does: the request, the WARN
    line, the fixed sleep. *)
Definition failed_attempt (url : str) (e : str) : list Effect :=
  [HttpGet url; Print (retry_line e); Sleep PAUSE_ON_ERROR].

(** [JMK.get_page], started at attempt [retry], when the next [k] replies
    are transient (with messages [e]) and the one after them is good. *)
Lemma JMK_get_page_recovers script url (e : nat → str) html :
  ∀ (k retry : nat) (st : State),
    (retry + k ≤ MAX_RETRIES)%nat →
    (∀ i, (retry ≤ i < retry + k)%nat → JMK.page_try (script i) = inl (e i)) →
    JMK.page_try (script (retry + k)%nat) = inr html →
    JMK.get_page script url retry st
      = (Ok (Some html),
         {| LOG_LINES := LOG_LINES st ++ map (λ i, retry_line (e i)) (seq retry k);
            HAS_ERROR := HAS_ERROR st;
            effects := effects st ++
                       flat_map (λ i, failed_attempt url (e i)) (seq retry k) ++
                       [HttpGet url];
            disk := disk st; stats := stats st; statements := statements st;
            viewstate := viewstate st;
            viewstate_generator := viewstate_generator st |}).
Proof.
  induction k as [|k IH]; intros retry st Hle Hfail Hok.
  - rewrite Nat.add_0_r in Hok. rewrite (JMK_get_page_ok _ _ _ _ _ Hok).
    simpl. by rewrite app_nil_r.
  - rewrite (JMK_get_page_retry _ _ _ _ (e retry)) by (try apply Hfail; lia).
    rewrite IH.
    + unfold exec; simpl. f_equal. f_equal; rewrite <- !app_assoc; done.
    + lia.
    + intros i Hi. apply Hfail. lia.
    + by replace (S retry + k)%nat with (retry + S k)%nat by lia.
Qed.

(** [JMK.get_page] when all four replies are transient: three WARN lines
    with their sleeps, then the ERROR line and [None]. *)
Lemma JMK_get_page_exhausted script url (e : nat → str) (st : State) :
  (∀ i, (i ≤ MAX_RETRIES)%nat → JMK.page_try (script i) = inl (e i)) →
  JMK.get_page script url 0 st
    = (Ok None,
       {| LOG_LINES := LOG_LINES st ++
                       [retry_line (e 0); retry_line (e 1); retry_line (e 2);
                        give_up_line (e 3)]%nat;
          HAS_ERROR := true;
          effects := effects st ++
                     failed_attempt url (e 0%nat) ++
                     failed_attempt url (e 1%nat) ++
                     failed_attempt url (e 2%nat) ++
                     [HttpGet url; Print (give_up_line (e 3%nat))];
          disk := disk st; stats := stats st; statements := statements st;
          viewstate := viewstate st;
          viewstate_generator := viewstate_generator st |}).
Proof.
  intros H. unfold MAX_RETRIES in H.
  rewrite (JMK_get_page_retry _ _ _ _ (e 0%nat)) by (try apply H; unfold MAX_RETRIES; lia).
  rewrite (JMK_get_page_retry _ _ _ _ (e 1%nat)) by (try apply H; unfold MAX_RETRIES; lia).
  rewrite (JMK_get_page_retry _ _ _ _ (e 2%nat)) by (try apply H; unfold MAX_RETRIES; lia).
  rewrite (JMK_get_page_give_up _ _ _ _ (e 3%nat)) by (try apply H; unfold MAX_RETRIES; lia).
  unfold exec; simpl. f_equal. f_equal; rewrite <- !app_assoc; done.
Qed.

(** One attempt of [Brno.get_page] that gets a reply with status 200. *)
Lemma Brno_get_page_ok script url retry st html :
  Brno.page_try (script retry) = inr html →
  Brno.get_page script url retry st
    = (Ok (Some html), exec (perform (HttpGet url)) st).
Proof.
  intros H. rewrite Brno.get_page_equation_1.
  erewrite bind_ok by reflexivity. by rewrite H.
Qed.

(** A maintenance page served with status 200. *)
Definition maintenance_text : str :=
  lit "<html><body><h1>Service Unavailable</h1></body></html>".

Definition Brno_maintenance_page : Brno.Html :=
  {| Brno.text := maintenance_text; Brno.total_count_match := None;
     Brno.tbody := None |}.

Definition JMK_maintenance_page : JMK.Html :=
  {| JMK.text := maintenance_text; JMK.VIEWSTATE := None;
     JMK.VIEWSTATEGENERATOR := None; JMK.rows := []; JMK.soubor_odkaz := [] |}.

Definition status_200 {B} (b : B) : Reply B :=
  Resp {| status_code := 200; headers := []; body := b |}.

(** C4. [Brno.get_page] returns the body of every reply with status 200 as
    a success at the first attempt, whatever its text: a page holding the
    banner "Service Unavailable" is returned with no WARN line, no sleep
    and no retry. [JMK.get_page] on the same text retries three times
    (WARN and a 30 s sleep each time) and ends with an ERROR line and
    [None]. *)
Theorem Brno_get_page_accepts_maintenance_page :
  (∀ (script : nat → Reply Brno.Html) (url : str) (st : State) r,
     script 0%nat = Resp r → status_code r = 200 →
     Brno.get_page script url 0 st
       = (Ok (Some (body r)), exec (perform (HttpGet url)) st)) ∧
  maintenance_page maintenance_text = true ∧
  Brno.get_page (λ _, status_200 Brno_maintenance_page) Brno.LIST_URL 0
      (initial_state ∅)
    = (Ok (Some Brno_maintenance_page),
       {| LOG_LINES := []; HAS_ERROR := false;
          effects := [HttpGet Brno.LIST_URL]; disk := ∅;
          stats := stats (initial_state ∅); statements := [];
          viewstate := []; viewstate_generator := [] |}) ∧
  (let e := lit "Server vratil chybovou stranku (503)" in
   JMK.get_page (λ _, status_200 JMK_maintenance_page) JMK.LIST_URL 0
       (initial_state ∅)
     = (Ok None,
        {| LOG_LINES := [retry_line e; retry_line e; retry_line e; give_up_line e];
           HAS_ERROR := true;
           effects := failed_attempt JMK.LIST_URL e ++
                      failed_attempt JMK.LIST_URL e ++
                      failed_attempt JMK.LIST_URL e ++
                      [HttpGet JMK.LIST_URL; Print (give_up_line e)];
           disk := ∅; stats := stats (initial_state ∅); statements := [];
           viewstate := []; viewstate_generator := [] |})).
Proof.
  split; [|split; [|split]].
  - intros script url st r Hr Hs. apply Brno_get_page_ok.
    rewrite Hr. simpl. by rewrite Hs.
  - vm_compute. reflexivity.
  - rewrite (Brno_get_page_ok _ _ _ _ Brno_maintenance_page) by reflexivity.
    reflexivity.
  - intros e.
    rewrite (JMK_get_page_exhausted _ _ (λ _, e)); [reflexivity|].
    intros i _. vm_compute. reflexivity.
Qed.

(** ** Streamed downloads *)

Definition unavailable_line : LogLine :=
  {| level := WARN; msg := lit "Dokument neni k dispozici" |}.

Definition download_retry_line (e : str) : LogLine :=
  {| level := WARN; msg := lit "Chyba stahovani: " ++ e ++ lit ", cekam 30s..." |}.

Definition download_give_up_line (e : str) : LogLine :=
  {| level := ERROR; msg := lit "Chyba stahovani po 3 pokusech: " ++ e |}.

(** The response is an HTML page sent without [Content-Disposition]. *)
Definition markup_without_disposition (r : Response str) : Prop :=
  contains (lit "text/html")
    (default [] (header_get (lit "Content-Type") (headers r))) = true ∧
  header_get (lit "Content-Disposition") (headers r) = None.

(** The body holds the words of "Dokument neni k dispozici". *)
Definition not_available_marker (content : str) : Prop :=
  contains (lit "dokument") (bytes_lower content) = true ∧
  contains (lit "dispozici") (bytes_lower content) = true.

Lemma JMK_download_file_retry script url save_path retry st e :
  script retry = Fault e →
  (retry < MAX_RETRIES)%nat →
  JMK.download_file script url save_path retry st
    = JMK.download_file script url save_path (S retry)
        (exec (perform (HttpGet url);;
               log (msg (download_retry_line e)) WARN;;
               time_sleep PAUSE_ON_ERROR) st).
Proof.
  intros H Hlt. rewrite JMK.download_file_equation_1.
  erewrite bind_ok by reflexivity. rewrite H. simpl.
  erewrite bind_ok by reflexivity.
  destruct (decide (retry < MAX_RETRIES)%nat); [|done]. reflexivity.
Qed.

Lemma JMK_download_file_give_up script url save_path retry st e :
  script retry = Fault e →
  ¬ (retry < MAX_RETRIES)%nat →
  JMK.download_file script url save_path retry st
    = (Ok false,
       exec (perform (HttpGet url);;
             log (msg (download_give_up_line e)) ERROR) st).
Proof.
  intros H Hlt. rewrite JMK.download_file_equation_1.
  erewrite bind_ok by reflexivity. rewrite H. simpl.
  erewrite bind_ok by reflexivity.
  destruct (decide (retry < MAX_RETRIES)%nat); [done|]. reflexivity.
Qed.

(** A withdrawn-document page, as the JMK site serves it. *)
Definition unavailable_response : Response str :=
  {| status_code := 200;
     headers := [(lit "Content-Type", lit "text/html; charset=utf-8")];
     body := lit "<html><body>Dokument neni k dispozici.</body></html>" |}.

(** C6. [Brno.download_file] misses the test for the "document not
    available" page that [JMK.download_file] makes at the same place: an
    HTML response without [Content-Disposition] whose body holds the marker
    is written to disk as the attachment and reported as a success, with
    no WARN line. *)
Lemma Brno_download_file_saves_unavailable_page :
  markup_without_disposition unavailable_response ∧
  not_available_marker (body unavailable_response) ∧
  outcome (Brno.download_file (λ _, Resp unavailable_response) (lit "u")
             (lit "f.pdf") 0) (initial_state ∅) = Ok true ∧
  LOG_LINES (exec (Brno.download_file (λ _, Resp unavailable_response) (lit "u")
                     (lit "f.pdf") 0) (initial_state ∅)) = [] ∧
  effects (exec (Brno.download_file (λ _, Resp unavailable_response) (lit "u")
                   (lit "f.pdf") 0) (initial_state ∅))
    = [HttpGet (lit "u"); WriteFile (lit "f.pdf")].
Proof.
  split; [split; vm_compute; reflexivity|].
  split; [split; vm_compute; reflexivity|].
  unfold outcome, exec. rewrite Brno.download_file_equation_1.
  erewrite bind_ok by reflexivity.
  erewrite bind_ok by (vm_compute; reflexivity).
  vm_compute. done.
Qed.

(** X18. In [JMK.download_file], a reply with status 200 that is an
    HTML page without [Content-Disposition], holds no maintenance banner
    and holds the "document not available" marker ends the download at
    once: the only request is the one just made, one WARN line is written,
    the error flag is untouched, there is no sleep, nothing is written to
    disk and the result is [False]. A network error on every attempt ends
    in the same result [False] after three WARN lines with their sleeps and
    an ERROR line. *)
Theorem JMK_download_unavailable_is_terminal :
  (∀ (script : nat → Reply str) (url save_path : str) (retry : nat)
     (st : State) (r : Response str),
     script retry = Resp r →
     status_code r = 200 →
     markup_without_disposition r →
     maintenance_page (body r) = false →
     not_available_marker (body r) →
     JMK.download_file script url save_path retry st
       = (Ok false,
          {| LOG_LINES := LOG_LINES st ++ [unavailable_line];
             HAS_ERROR := HAS_ERROR st;
             effects := effects st ++ [HttpGet url; Print unavailable_line];
             disk := disk st; stats := stats st; statements := statements st;
             viewstate := viewstate st;
             viewstate_generator := viewstate_generator st |})) ∧
  (∀ (script : nat → Reply str) (url save_path : str) (st : State) (e : str),
     (∀ i, script i = Fault e) →
     JMK.download_file script url save_path 0 st
       = (Ok false,
          {| LOG_LINES := LOG_LINES st ++
                          [download_retry_line e; download_retry_line e;
                           download_retry_line e; download_give_up_line e];
             HAS_ERROR := true;
             effects := effects st ++
               [HttpGet url; Print (download_retry_line e); Sleep PAUSE_ON_ERROR;
                HttpGet url; Print (download_retry_line e); Sleep PAUSE_ON_ERROR;
                HttpGet url; Print (download_retry_line e); Sleep PAUSE_ON_ERROR;
                HttpGet url; Print (download_give_up_line e)];
             disk := disk st; stats := stats st; statements := statements st;
             viewstate := viewstate st;
             viewstate_generator := viewstate_generator st |})).
Proof.
  split.
  - intros script url save_path retry st r Hr Hs [Hct Hcd] Hm [Hd1 Hd2].
    rewrite JMK.download_file_equation_1.
    erewrite bind_ok by reflexivity. rewrite Hr.
    unfold JMK.download_try. rewrite Hs, Hct, Hcd, Hm, Hd1, Hd2.
    unfold exec, mbind, M_bind, mret, M_ret, log, perform, modify; cbn.
    f_equal. f_equal; rewrite <- ?app_assoc; done.
  - intros script url save_path st e H.
    rewrite (JMK_download_file_retry _ _ _ _ _ e) by (try apply H; unfold MAX_RETRIES; lia).
    rewrite (JMK_download_file_retry _ _ _ _ _ e) by (try apply H; unfold MAX_RETRIES; lia).
    rewrite (JMK_download_file_retry _ _ _ _ _ e) by (try apply H; unfold MAX_RETRIES; lia).
    rewrite (JMK_download_file_give_up _ _ _ _ _ e) by (try apply H; unfold MAX_RETRIES; lia).
    unfold exec; simpl.
    f_equal. f_equal; rewrite <- ?app_assoc; done.
Qed.

(** X18 at the withdrawn-document page. *)
Lemma JMK_download_unavailable_is_terminal_witness :
  JMK.download_file (λ _, Resp unavailable_response) (lit "u") (lit "f.pdf") 0
      (initial_state ∅)
    = (Ok false,
       {| LOG_LINES := [] ++ [unavailable_line];
          HAS_ERROR := false;
          effects := [] ++ [HttpGet (lit "u"); Print unavailable_line];
          disk := ∅; stats := stats (initial_state ∅); statements := [];
          viewstate := []; viewstate_generator := [] |}).
Proof.
  apply (proj1 JMK_download_unavailable_is_terminal
           (λ _, Resp unavailable_response) (lit "u") (lit "f.pdf") 0%nat
           (initial_state ∅) unavailable_response).
  - reflexivity.
  - reflexivity.
  - split; vm_compute; reflexivity.
  - vm_compute; reflexivity.
  - split; vm_compute; reflexivity.
Defined.

(** ** The error flag *)

(** [HAS_ERROR] is set exactly when an ERROR line is in [LOG_LINES]. *)
Definition log_inv (st : State) : Prop :=
  HAS_ERROR st = true ↔ Exists (λ l, level l = ERROR) (LOG_LINES st).

(** A piece of the script keeps [log_inv], whatever its outcome. *)
Definition preserves {A} (m : M A) : Prop :=
  ∀ st, log_inv st → log_inv (m st).2.

Lemma log_inv_initial (directory : gset str) : log_inv (initial_state directory).
Proof. unfold log_inv; simpl. split; [done|]. by intros ?%Exists_nil. Qed.

Lemma preserves_ret {A} (a : A) : preserves (mret a).
Proof. by intros st H. Qed.

Lemma preserves_raise {A} (e : Exn) : preserves (raise e : M A).
Proof. by intros st H. Qed.

Lemma preserves_out_of_fuel {A} : preserves (out_of_fuel : M A).
Proof. by intros st H. Qed.

Lemma preserves_or_raise {A} (o : option A) : preserves (or_raise o).
Proof. destruct o; by intros st H. Qed.

Lemma preserves_gets {A} (f : State → A) : preserves (gets f).
Proof. by intros st H. Qed.

Lemma preserves_bind {A B} (m : M A) (k : A → M B) :
  preserves m → (∀ a, preserves (k a)) → preserves (m ≫= k).
Proof.
  intros Hm Hk st H. specialize (Hm st H). unfold mbind, M_bind.
  destruct (m st) as [[a|e|] st']; simpl in *; [by apply Hk|done|done].
Qed.

Lemma preserves_modify (f : State → State) :
  (∀ st, LOG_LINES (f st) = LOG_LINES st ∧ HAS_ERROR (f st) = HAS_ERROR st) →
  preserves (modify f).
Proof.
  intros Hf st H. unfold modify, log_inv in *; simpl.
  destruct (Hf st) as [-> ->]. done.
Qed.

Lemma preserves_log (msg : str) (lvl : Level) : preserves (log msg lvl).
Proof.
  intros st H. unfold log, modify, log_inv in *; simpl.
  rewrite Exists_app, Exists_cons, Exists_nil; simpl.
  destruct (decide (lvl = ERROR)) as [->|Hne]; [tauto|]. tauto.
Qed.

Lemma preserves_perform (e : Effect) : preserves (perform e).
Proof. by apply preserves_modify. Qed.

Lemma preserves_set_stats (f : Stats → Stats) : preserves (set_stats f).
Proof. by apply preserves_modify. Qed.

Lemma preserves_write_file (name : str) : preserves (write_file name).
Proof. by apply preserves_modify. Qed.

Lemma preserves_add_file (record : list str) : preserves (add_file record).
Proof. by apply preserves_modify. Qed.

Lemma preserves_random_pause (a b : N) : preserves (random_pause a b).
Proof. apply preserves_perform. Qed.

Lemma preserves_time_sleep (secs : N) : preserves (time_sleep secs).
Proof. apply preserves_perform. Qed.

Create HintDb pres.
#[local] Hint Resolve preserves_perform preserves_set_stats preserves_write_file
  preserves_add_file preserves_random_pause preserves_time_sleep : pres.

(** Goes through the binds and the case distinctions of a piece of the
    script, closing the leaves with the lemmas of the database [pres]. *)
Ltac pres :=
  repeat first
    [ progress intros
    | apply preserves_ret
    | apply preserves_raise
    | apply preserves_out_of_fuel
    | apply preserves_gets
    | apply preserves_log
    | apply preserves_or_raise
    | solve [eauto with pres]
    | apply preserves_bind
    | match goal with
      | |- preserves (match ?x with _ => _ end) => destruct x
      end ].

Lemma preserves_upload_to_ftp cfg remote_path remote_filename :
  preserves (upload_to_ftp cfg remote_path remote_filename).
Proof. unfold upload_to_ftp. pres. Qed.
#[local] Hint Resolve preserves_upload_to_ftp : pres.

Lemma preserves_upload_file_to_ftp cfg remote_filename :
  preserves (upload_file_to_ftp cfg remote_filename).
Proof. unfold upload_file_to_ftp. pres. Qed.

Lemma preserves_upload_log_to_ftp cfg site remote_filename :
  preserves (upload_log_to_ftp cfg site remote_filename).
Proof. unfold upload_log_to_ftp. pres. Qed.

Lemma preserves_upload_sql_to_ftp cfg remote_filename :
  preserves (upload_sql_to_ftp cfg remote_filename).
Proof. unfold upload_sql_to_ftp. pres. Qed.

Lemma preserves_sql_import_save file : preserves (sql_import_save file).
Proof. unfold sql_import_save. pres. Qed.

Lemma preserves_sql_logy_save file : preserves (sql_logy_save file).
Proof. unfold sql_logy_save. pres. Qed.
#[local] Hint Resolve preserves_upload_file_to_ftp preserves_upload_log_to_ftp
  preserves_upload_sql_to_ftp preserves_sql_import_save
  preserves_sql_logy_save : pres.

Lemma preserves_JMK_get_page script url retry :
  preserves (JMK.get_page script url retry).
Proof.
  remember (MAX_RETRIES - retry)%nat as n eqn:Hn. revert retry Hn.
  induction n as [|n IH]; intros retry Hn; rewrite JMK.get_page_equation_1;
    pres; try (exfalso; lia); apply IH; lia.
Qed.

Lemma preserves_JMK_post_page script url data retry :
  preserves (JMK.post_page script url data retry).
Proof.
  remember (MAX_RETRIES - retry)%nat as n eqn:Hn. revert retry Hn.
  induction n as [|n IH]; intros retry Hn; rewrite JMK.post_page_equation_1;
    pres; try (exfalso; lia); apply IH; lia.
Qed.

Lemma preserves_JMK_download_try r save_path :
  preserves (JMK.download_try r save_path).
Proof. unfold JMK.download_try. pres. Qed.
#[local] Hint Resolve preserves_JMK_get_page preserves_JMK_post_page
  preserves_JMK_download_try : pres.

Lemma preserves_JMK_download_file script url save_path retry :
  preserves (JMK.download_file script url save_path retry).
Proof.
  remember (MAX_RETRIES - retry)%nat as n eqn:Hn. revert retry Hn.
  induction n as [|n IH]; intros retry Hn; rewrite JMK.download_file_equation_1;
    pres; try (exfalso; lia); apply IH; lia.
Qed.

Lemma preserves_JMK_extract_viewstate html :
  preserves (JMK._extract_viewstate html).
Proof. by apply preserves_modify. Qed.
#[local] Hint Resolve preserves_JMK_download_file
  preserves_JMK_extract_viewstate : pres.

Lemma preserves_JMK_get_list_page script page :
  preserves (JMK.get_list_page script page).
Proof. unfold JMK.get_list_page. pres. Qed.

Lemma preserves_JMK_parse_rows ucd rows items :
  preserves (JMK.parse_rows ucd rows items).
Proof.
  revert items. induction rows as [|row rows IH]; intros items; simpl.
  - pres.
  - unfold JMK.format_date_iso, JMK.parse_date_cz. pres; apply IH.
Qed.

Lemma preserves_JMK_parse_list_page ucd html :
  preserves (JMK.parse_list_page ucd html).
Proof. apply preserves_JMK_parse_rows. Qed.
#[local] Hint Resolve preserves_JMK_get_list_page
  preserves_JMK_parse_list_page : pres.

Lemma preserves_JMK_for_files ucd cfg w item nadpis files_ :
  preserves (JMK.for_files ucd cfg w item nadpis files_).
Proof.
  induction files_ as [|file_info rest IH]; simpl; pres.
Qed.
#[local] Hint Resolve preserves_JMK_for_files : pres.

Lemma preserves_JMK_handle_item ucd cfg w item :
  preserves (JMK.handle_item ucd cfg w item).
Proof. unfold JMK.handle_item. pres. Qed.
#[local] Hint Resolve preserves_JMK_handle_item : pres.

Lemma preserves_JMK_for_items ucd cfg w items :
  preserves (JMK.for_items ucd cfg w items).
Proof.
  induction items as [|item rest IH]; simpl; unfold JMK.parse_date_cz; pres.
Qed.
#[local] Hint Resolve preserves_JMK_for_items : pres.

Lemma preserves_JMK_main_loop ucd cfg w pages page :
  preserves (JMK.main_loop ucd cfg w pages page).
Proof.
  revert page. induction pages as [|script later IH]; intros page; simpl; pres.
Qed.
#[local] Hint Resolve preserves_JMK_main_loop : pres.

Lemma preserves_Brno_get_page script url retry :
  preserves (Brno.get_page script url retry).
Proof.
  remember (MAX_RETRIES - retry)%nat as n eqn:Hn. revert retry Hn.
  induction n as [|n IH]; intros retry Hn; rewrite Brno.get_page_equation_1;
    pres; try (exfalso; lia); apply IH; lia.
Qed.

Lemma preserves_Brno_post_page script url data retry :
  preserves (Brno.post_page script url data retry).
Proof.
  remember (MAX_RETRIES - retry)%nat as n eqn:Hn. revert retry Hn.
  induction n as [|n IH]; intros retry Hn; rewrite Brno.post_page_equation_1;
    pres; try (exfalso; lia); apply IH; lia.
Qed.

Lemma preserves_Brno_download_try r save_path :
  preserves (Brno.download_try r save_path).
Proof. unfold Brno.download_try. pres. Qed.
#[local] Hint Resolve preserves_Brno_get_page preserves_Brno_post_page
  preserves_Brno_download_try : pres.

Lemma preserves_Brno_download_file script url save_path retry :
  preserves (Brno.download_file script url save_path retry).
Proof.
  remember (MAX_RETRIES - retry)%nat as n eqn:Hn. revert retry Hn.
  induction n as [|n IH]; intros retry Hn; rewrite Brno.download_file_equation_1;
    pres; try (exfalso; lia); apply IH; lia.
Qed.
#[local] Hint Resolve preserves_Brno_download_file : pres.

Lemma preserves_Brno_get_list_page script first :
  preserves (Brno.get_list_page script first).
Proof. unfold Brno.get_list_page. pres. Qed.

Lemma preserves_Brno_parse_row ucd row : preserves (Brno._parse_row ucd row).
Proof.
  unfold Brno._parse_row, Brno.format_date_iso, Brno.parse_date_cz. pres.
Qed.
#[local] Hint Resolve preserves_Brno_get_list_page preserves_Brno_parse_row : pres.

Lemma preserves_Brno_parse_rows ucd rows items :
  preserves (Brno.parse_rows ucd rows items).
Proof.
  revert items. induction rows as [|row rows IH]; intros items; simpl; pres.
Qed.
#[local] Hint Resolve preserves_Brno_parse_rows : pres.

Lemma preserves_Brno_parse_list_page ucd html :
  preserves (Brno.parse_list_page ucd html).
Proof. unfold Brno.parse_list_page. pres. Qed.
#[local] Hint Resolve preserves_Brno_parse_list_page : pres.

Lemma preserves_Brno_for_files ucd cfg w item files_ :
  preserves (Brno.for_files ucd cfg w item files_).
Proof.
  induction files_ as [|file_info rest IH]; simpl; pres.
Qed.
#[local] Hint Resolve preserves_Brno_for_files : pres.

Lemma preserves_Brno_handle_item ucd cfg w item :
  preserves (Brno.handle_item ucd cfg w item).
Proof. unfold Brno.handle_item. pres. Qed.
#[local] Hint Resolve preserves_Brno_handle_item : pres.

Lemma preserves_Brno_for_items ucd cfg w items :
  preserves (Brno.for_items ucd cfg w items).
Proof.
  induction items as [|item rest IH]; simpl; unfold Brno.parse_date_cz; pres.
Qed.
#[local] Hint Resolve preserves_Brno_for_items : pres.

Lemma preserves_Brno_main_loop ucd cfg w pages first total_count :
  preserves (Brno.main_loop ucd cfg w pages first total_count).
Proof.
  revert first total_count.
  induction pages as [|script later IH]; intros first total_count; simpl; pres.
Qed.
#[local] Hint Resolve preserves_Brno_main_loop : pres.

Lemma bind_inv_pres {A B} (m : M A) (k : A → M B) (st st' : State) (b : B) :
  preserves m → log_inv st → (m ≫= k) st = (Ok b, st') →
  ∃ a st1, log_inv st1 ∧ k a st1 = (Ok b, st').
Proof.
  intros Hm Hst. specialize (Hm st Hst). unfold mbind, M_bind.
  destruct (m st) as [[a|e|] st1]; simpl in *; [eauto|done|done].
Qed.

(** The last statements of [main], entered with the flag in step with the
    log: the code is 0 exactly when the log holds no ERROR line. *)
Lemma exit_code_spec (st st' : State) (code : N) :
  log_inv st → exit_code st = (Ok code, st') →
  (code = 0 ∨ code = 1) ∧
  (code = 0 ↔ Forall (λ l, level l ≠ ERROR) (LOG_LINES st')).
Proof.
  unfold log_inv, exit_code, gets, log, modify, mbind, M_bind, mret, M_ret.
  intros Hinv. destruct (HAS_ERROR st) eqn:E; intros [= <- <-]; simpl.
  - split; [by right|]. split; [done|].
    rewrite Forall_app, Forall_singleton; simpl. by intros [_ ?].
  - split; [by left|]. split; [|done]. intros _.
    rewrite Forall_app, Forall_singleton; simpl. split; [|done].
    apply Forall_forall. intros l Hl Hlvl.
    assert (false = true) as [=]. apply Hinv. apply Exists_exists. eauto.
Qed.

(** Splits a run of binds that ended in a value, carrying [log_inv] along. *)
Ltac split_run :=
  repeat match goal with
    | H : (_ ≫= _) _ = (Ok _, _) |- _ =>
        apply bind_inv_pres in H as (? & ? & ? & H); [|solve [pres]|assumption]
    end.

Lemma JMK_main_exit_code ucd cfg w (st st' : State) (code : N) :
  log_inv st → JMK.main ucd cfg w st = (Ok code, st') →
  (code = 0 ∨ code = 1) ∧
  (code = 0 ↔ Forall (λ l, level l ≠ ERROR) (LOG_LINES st')).
Proof.
  intros Hst H. unfold JMK.main, JMK.finish in H. split_run.
  eapply exit_code_spec; eauto.
Qed.

Lemma Brno_main_exit_code ucd cfg w (st st' : State) (code : N) :
  log_inv st → Brno.main ucd cfg w st = (Ok code, st') →
  (code = 0 ∨ code = 1) ∧
  (code = 0 ↔ Forall (λ l, level l ≠ ERROR) (LOG_LINES st')).
Proof.
  intros Hst H. unfold Brno.main, Brno.finish in H. split_run.
  eapply exit_code_spec; eauto.
Qed.

(** ** The list parser and dates that do not exist *)

Lemma JMK_parse_rows_app ucd (pre rest : list JMK.Row) :
  ∀ (items : list JMK.Item) (st : State),
    JMK.parse_rows ucd (pre ++ rest) items st
      = match JMK.parse_rows ucd pre items st with
        | (Ok items', st') => JMK.parse_rows ucd rest items' st'
        | (Raise e, st') => (Raise e, st')
        | (OutOfFuel, st') => (OutOfFuel, st')
        end.
Proof.
  induction pre as [|row pre IH]; intros items st; [done|].
  cbn [app JMK.parse_rows].
  destruct (JMK.date_match ucd row) as [d|]; [|apply IH].
  destruct (JMK.NazevTd row) as [[url name]|]; [|apply IH].
  unfold JMK.format_date_iso, JMK.parse_date_cz, or_raise.
  destruct (strptime_dmY ucd d) as [dt|]; [apply IH|done].
Qed.

(** A row without a date of the right shape, or without a title link, is
    left out; a row with both whose date [strptime] refuses raises. *)
Lemma JMK_parse_rows_cons ucd (row : JMK.Row) (rest : list JMK.Row)
    (items : list JMK.Item) (st : State) :
  JMK.parse_rows ucd (row :: rest) items st
    = match JMK.date_match ucd row, JMK.NazevTd row with
      | Some d, Some (url, name) =>
          match strptime_dmY ucd d with
          | Some dt =>
              JMK.parse_rows ucd rest
                (items ++ [ {| JMK.date := d; JMK.date_iso := strftime_iso dt;
                               JMK.detail_url := url;
                               JMK.name := strip name |} ]) st
          | None => (Raise ValueError, st)
          end
      | _, _ => JMK.parse_rows ucd rest items st
      end.
Proof.
  cbn [JMK.parse_rows].
  destruct (JMK.date_match ucd row) as [d|]; [|done].
  destruct (JMK.NazevTd row) as [[url name]|]; [|done].
  unfold JMK.format_date_iso, JMK.parse_date_cz, or_raise.
  destruct (strptime_dmY ucd d) as [dt|]; done.
Qed.

(** A row of the JMK list with one date cell and a title link. *)
Definition JMK_row (date_cell title : string) : JMK.Row :=
  {| JMK.VyveseniDneTd := [lit date_cell];
     JMK.NazevTd := Some (lit "Detail.aspx?id=1", lit title) |}.

(** A list page whose second row is dated 31 February. *)
Definition february_31_page : JMK.Html :=
  {| JMK.text := lit "<html><table>...</table></html>";
     JMK.VIEWSTATE := None; JMK.VIEWSTATEGENERATOR := None;
     JMK.rows := [ JMK_row "02.05.2024" "Oznameni";
                   JMK_row "31.02.2024" "Vyhlaska";
                   JMK_row "02.05.2024" "Rozhodnuti" ];
     JMK.soubor_odkaz := [] |}.

(** The same page with the date cell of the second row left empty. *)
Definition empty_date_page : JMK.Html :=
  {| JMK.text := lit "<html><table>...</table></html>";
     JMK.VIEWSTATE := None; JMK.VIEWSTATEGENERATOR := None;
     JMK.rows := [ JMK_row "02.05.2024" "Oznameni";
                   JMK_row "" "Vyhlaska";
                   JMK_row "02.05.2024" "Rozhodnuti" ];
     JMK.soubor_odkaz := [] |}.

Definition may_2 : datetime := {| year := 2024; month := 5; day := 2 |}.

(** A run for 2 May 2024 without FTP settings. *)
Definition cfg_may_2 : Config :=
  {| from_date := may_2; to_date := may_2;
     FTP_HOST := []; FTP_USER := []; FTP_PASS := []; FTP_PATH := [];
     FTP_LOGS_PATH := []; ftp_server := λ _ _, None;
     stat_fails := name_too_long |}.

(** A site whose first list page is [february_31_page]; its notices have
    no attachments. *)
Definition february_31_world : JMK.World :=
  {| JMK.list_pages := [λ _, status_200 february_31_page];
     JMK.detail_pages := λ _ _, status_200 empty_date_page;
     JMK.files := λ _ _, Fault (lit "no such file") |}.

(** C7. A row whose date cell has the shape of a date but names a day that
    does not exist is not dropped: [format_date_iso] raises inside
    [parse_list_page], no row of the page is returned, and the exception
    leaves [main] uncaught. On [february_31_page] the rows before and after
    the row dated 31.02.2024 are lost with it; the same page with an empty
    date cell in that row yields the two other rows. *)
Theorem JMK_parse_list_page_raises_on_impossible_date :
  (∀ ucd (html : JMK.Html) (pre post : list JMK.Row) (row : JMK.Row)
     (d : str) (link : str * str) (items : list JMK.Item) (st : State),
     JMK.rows html = pre ++ row :: post →
     JMK.parse_rows ucd pre [] st = (Ok items, st) →
     JMK.date_match ucd row = Some d →
     JMK.NazevTd row = Some link →
     strptime_dmY ucd d = None →
     JMK.parse_list_page ucd html st = (Raise ValueError, st)) ∧
  date_shape ucd_excerpt (lit "31.02.2024") = true ∧
  strptime_dmY ucd_excerpt (lit "31.02.2024") = None ∧
  JMK.parse_list_page ucd_excerpt february_31_page (initial_state ∅)
    = (Raise ValueError, initial_state ∅) ∧
  outcome (JMK.parse_list_page ucd_excerpt empty_date_page) (initial_state ∅)
    = Ok [ {| JMK.date := lit "02.05.2024"; JMK.date_iso := lit "2024-05-02";
              JMK.detail_url := lit "Detail.aspx?id=1";
              JMK.name := lit "Oznameni" |};
           {| JMK.date := lit "02.05.2024"; JMK.date_iso := lit "2024-05-02";
              JMK.detail_url := lit "Detail.aspx?id=1";
              JMK.name := lit "Rozhodnuti" |} ] ∧
  outcome (JMK.main ucd_excerpt cfg_may_2 february_31_world) (initial_state ∅)
    = Raise ValueError.
Proof.
  split; [|split; [|split; [|split; [|split]]]].
  - intros ucd html pre post row d [url name] items st Hrows Hpre Hd Hl Hp.
    unfold JMK.parse_list_page. rewrite Hrows, JMK_parse_rows_app, Hpre.
    rewrite JMK_parse_rows_cons, Hd, Hl, Hp. done.
  - vm_compute. reflexivity.
  - vm_compute. reflexivity.
  - vm_compute. reflexivity.
  - vm_compute. reflexivity.
  - vm_compute. reflexivity.
Qed.

(** ** The exit status *)

(** C8. When [main] reaches [sys.exit], its code is 0 exactly when the log
    holds no ERROR line, in both scripts; and a run whose log holds an
    ERROR line never ends with status 0. But a run can end with a non-zero
    status and no ERROR line: on [february_31_world] the [ValueError] of
    the list parser leaves [main] uncaught, the process ends with status 1,
    [HAS_ERROR] is still [False] and every line of the log is at level
    INFO. *)
Theorem exit_status_and_error_lines :
  (∀ ucd cfg w directory code st',
     JMK.main ucd cfg w (initial_state directory) = (Ok code, st') →
     (code = 0 ↔ Forall (λ l, level l ≠ ERROR) (LOG_LINES st'))) ∧
  (∀ ucd cfg w directory code st',
     Brno.main ucd cfg w (initial_state directory) = (Ok code, st') →
     (code = 0 ↔ Forall (λ l, level l ≠ ERROR) (LOG_LINES st'))) ∧
  (∀ ucd cfg w directory,
     Exists (λ l, level l = ERROR)
       (LOG_LINES (exec (JMK.main ucd cfg w) (initial_state directory))) →
     exit_status (outcome (JMK.main ucd cfg w) (initial_state directory))
       ≠ Some 0) ∧
  (∀ ucd cfg w directory,
     Exists (λ l, level l = ERROR)
       (LOG_LINES (exec (Brno.main ucd cfg w) (initial_state directory))) →
     exit_status (outcome (Brno.main ucd cfg w) (initial_state directory))
       ≠ Some 0) ∧
  (let run := JMK.main ucd_excerpt cfg_may_2 february_31_world (initial_state ∅) in
   exit_status run.1 = Some 1 ∧
   HAS_ERROR run.2 = false ∧
   Forall (λ l, level l = INFO) (LOG_LINES run.2)).
Proof.
  split; [|split; [|split; [|split]]].
  - intros ucd cfg w directory code st' H.
    eapply JMK_main_exit_code; [apply log_inv_initial|exact H].
  - intros ucd cfg w directory code st' H.
    eapply Brno_main_exit_code; [apply log_inv_initial|exact H].
  - intros ucd cfg w directory. unfold exec, outcome.
    destruct (JMK.main ucd cfg w (initial_state directory)) as [[code|e|] st']
      eqn:E; simpl; [|done|done].
    intros Hex [= ->].
    pose proof (JMK_main_exit_code _ _ _ _ _ _ (log_inv_initial directory) E)
      as [_ [Hno _]].
    specialize (Hno eq_refl). rewrite Forall_forall in Hno.
    apply Exists_exists in Hex as (l & Hl & Hlvl). by apply (Hno l).
  - intros ucd cfg w directory. unfold exec, outcome.
    destruct (Brno.main ucd cfg w (initial_state directory)) as [[code|e|] st']
      eqn:E; simpl; [|done|done].
    intros Hex [= ->].
    pose proof (Brno_main_exit_code _ _ _ _ _ _ (log_inv_initial directory) E)
      as [_ [Hno _]].
    specialize (Hno eq_refl). rewrite Forall_forall in Hno.
    apply Exists_exists in Hex as (l & Hl & Hlvl). by apply (Hno l).
  - intros run.
    assert (run.1 = Raise ValueError) as E1 by (vm_compute; reflexivity).
    assert (map level (LOG_LINES run.2) = [INFO; INFO; INFO; INFO]) as E2
      by (vm_compute; reflexivity).
    split; [by rewrite E1|]. split; [vm_compute; reflexivity|].
    apply Forall_forall. intros l Hl.
    assert (level l ∈ map level (LOG_LINES run.2)) as Hin
      by (apply list_elem_of_fmap; eauto).
    rewrite E2 in Hin. set_solver.
Qed.

(** ** The total-record count of the Brno list *)

Lemma bind_ext {A B} (m : M A) (k1 k2 : A → M B) (st : State) :
  (∀ a st', m st = (Ok a, st') → k1 a st' = k2 a st') →
  (m ≫= k1) st = (m ≫= k2) st.
Proof.
  intros H. unfold mbind, M_bind.
  destruct (m st) as [[a|e|] st']; [by apply H|done|done].
Qed.


(** The page a retry loop ends with, as a function of the replies: the
    first good one among the [attempts] replies from [retry] on. *)
Fixpoint first_good {H} (page_try : Reply H → str + H) (script : nat → Reply H)
    (retry attempts : nat) : option H :=
  match attempts with
  | O => None
  | S n =>
      match page_try (script retry) with
      | inr html => Some html
      | inl _ => first_good page_try script (S retry) n
      end
  end.

(** What [get_list_page] returns for a list page answered by [script]. *)
Definition fetched {H} (page_try : Reply H → str + H) (script : nat → Reply H)
    : option H :=
  first_good page_try script 0 (S MAX_RETRIES).

Lemma JMK_get_page_outcome script url :
  ∀ (n retry : nat) (st : State),
    (retry + n = MAX_RETRIES)%nat →
    outcome (JMK.get_page script url retry) st
      = Ok (first_good JMK.page_try script retry (S n)).
Proof.
  unfold outcome.
  induction n as [|n IH]; intros retry st Hn; rewrite JMK.get_page_equation_1;
    erewrite bind_ok by reflexivity; cbn [first_good];
    destruct (JMK.page_try (script retry)) as [e|html]; try done;
    destruct (decide (retry < MAX_RETRIES)%nat); try lia.
  - erewrite bind_ok by reflexivity. done.
  - do 2 erewrite bind_ok by reflexivity. apply IH. lia.
Qed.

Lemma JMK_post_page_outcome script url data :
  ∀ (n retry : nat) (st : State),
    (retry + n = MAX_RETRIES)%nat →
    outcome (JMK.post_page script url data retry) st
      = Ok (first_good JMK.page_try script retry (S n)).
Proof.
  unfold outcome.
  induction n as [|n IH]; intros retry st Hn; rewrite JMK.post_page_equation_1;
    erewrite bind_ok by reflexivity; cbn [first_good];
    destruct (JMK.page_try (script retry)) as [e|html]; try done;
    destruct (decide (retry < MAX_RETRIES)%nat); try lia.
  - erewrite bind_ok by reflexivity. done.
  - do 2 erewrite bind_ok by reflexivity. apply IH. lia.
Qed.

Lemma Brno_get_page_outcome script url :
  ∀ (n retry : nat) (st : State),
    (retry + n = MAX_RETRIES)%nat →
    outcome (Brno.get_page script url retry) st
      = Ok (first_good Brno.page_try script retry (S n)).
Proof.
  unfold outcome.
  induction n as [|n IH]; intros retry st Hn; rewrite Brno.get_page_equation_1;
    erewrite bind_ok by reflexivity; cbn [first_good];
    destruct (Brno.page_try (script retry)) as [e|html]; try done;
    destruct (decide (retry < MAX_RETRIES)%nat); try lia.
  - erewrite bind_ok by reflexivity. done.
  - do 2 erewrite bind_ok by reflexivity. apply IH. lia.
Qed.

Lemma Brno_post_page_outcome script url data :
  ∀ (n retry : nat) (st : State),
    (retry + n = MAX_RETRIES)%nat →
    outcome (Brno.post_page script url data retry) st
      = Ok (first_good Brno.page_try script retry (S n)).
Proof.
  unfold outcome.
  induction n as [|n IH]; intros retry st Hn; rewrite Brno.post_page_equation_1;
    erewrite bind_ok by reflexivity; cbn [first_good];
    destruct (Brno.page_try (script retry)) as [e|html]; try done;
    destruct (decide (retry < MAX_RETRIES)%nat); try lia.
  - erewrite bind_ok by reflexivity. done.
  - do 2 erewrite bind_ok by reflexivity. apply IH. lia.
Qed.

Lemma outcome_bind {A B} (m : M A) (k : A → M B) (st : State) (a : A) :
  outcome m st = Ok a → (m ≫= k) st = k a (exec m st).
Proof.
  unfold outcome, exec, mbind, M_bind. destruct (m st) as [o st']; simpl.
  by intros ->.
Qed.

Lemma Brno_get_list_page_outcome script first st :
  outcome (Brno.get_list_page script first) st = Ok (fetched Brno.page_try script).
Proof.
  unfold Brno.get_list_page, fetched. case_bool_decide.
  - by apply Brno_get_page_outcome.
  - by apply Brno_post_page_outcome.
Qed.

Lemma JMK_get_list_page_outcome script page st :
  outcome (JMK.get_list_page script page) st = Ok (fetched JMK.page_try script).
Proof.
  unfold JMK.get_list_page, fetched. case_bool_decide.
  - unfold outcome. erewrite outcome_bind by (by apply JMK_get_page_outcome).
    destruct (first_good _ _ _ _) as [h|]; [|done].
    case_bool_decide; done.
  - unfold outcome. do 2 erewrite bind_ok by reflexivity.
    erewrite outcome_bind by (by apply JMK_post_page_outcome).
    destruct (first_good _ _ _ _) as [h|]; [|done].
    case_bool_decide; done.
Qed.

(** When the first page shows no count, the loop never asks for a second
    page: the run is the same whatever answers the site holds for it. *)
Lemma Brno_main_loop_without_count ucd cfg w script later later'
    (total_count : nat) (st : State) :
  (∀ h, fetched Brno.page_try script = Some h →
        Brno.total_count_match h = None) →
  Brno.main_loop ucd cfg w (script :: later) 0 total_count st
    = Brno.main_loop ucd cfg w (script :: later') 0 total_count st.
Proof.
  intros Hcount. cbn [Brno.main_loop].
  apply bind_ext. intros [] st1 _.
  apply bind_ext. intros html st2 Hget.
  pose proof (Brno_get_list_page_outcome script 0 st1) as Hout.
  unfold outcome in Hout. rewrite Hget in Hout. simpl in Hout.
  injection Hout as ->.
  destruct (fetched Brno.page_try script) as [h|] eqn:Hf; [|done].
  specialize (Hcount h eq_refl).
  destruct (bool_decide (Brno.text h = [])); [done|].
  apply bind_ext. intros total st3 Htot.
  assert (total = 0%nat) as ->.
  { revert Htot. unfold Brno.parse_total_count. rewrite Hcount.
    rewrite bool_decide_eq_true_2 by done.
    unfold mbind, M_bind, log, modify, mret, M_ret. by intros [= <- _]. }
  apply bind_ext. intros items st4 _. destruct items as [|i items]; [done|].
  apply bind_ext. intros [] st5 _.
  apply bind_ext. intros [] st6 _.
  apply bind_ext. intros finished st7 _. destruct finished; [done|].
  rewrite !bool_decide_eq_true_2 by lia. done.
Qed.

(** A row of the Brno list: notice [id], published on [date_cell], without
    attachments. *)
Definition Brno_row (id : nat) (date_cell : string) : Brno.Row :=
  {| Brno.oblast := lit "Brno"; Brno.kategorie := lit "Oznameni";
     Brno.nazev := Some (N.of_nat id, lit "Verejna vyhlaska");
     Brno.cislo_jednaci := lit "MMB/1"; Brno.puvodce := lit "MMB";
     Brno.zverejnit := [lit date_cell; lit "17.05.2024"];
     Brno.dokument := [] |}.

(** The first page of a list of 26 notices, all published on 2 May 2024:
    25 rows, with or without the line "1 - 25 z 26". *)
Definition Brno_first_page (count : option nat) : Brno.Html :=
  {| Brno.text := lit "<html><table>...</table></html>";
     Brno.total_count_match := count;
     Brno.tbody := Some (map (λ id, Brno_row id "02.05.2024") (seq 1 25)) |}.

(** The second page: the 26th notice. *)
Definition Brno_second_page : Brno.Html :=
  {| Brno.text := lit "<html><table>...</table></html>";
     Brno.total_count_match := Some 26%nat;
     Brno.tbody := Some [Brno_row 26 "02.05.2024"] |}.

(** After the two pages the site answers with an empty table. *)
Definition Brno_empty_page : Brno.Html :=
  {| Brno.text := lit "<html><table></table></html>";
     Brno.total_count_match := None; Brno.tbody := Some [] |}.

Definition Brno_two_pages (count : option nat) : Brno.World :=
  {| Brno.list_pages := [ λ _, status_200 (Brno_first_page count);
                          λ _, status_200 Brno_second_page;
                          λ _, status_200 Brno_empty_page ];
     Brno.files := λ _ _, Fault (lit "no such file") |}.

(** X4. Without the count the Brno run is not the same run: when the first
    page shows no count, [parse_total_count] gives 0, the test
    [first >= total_count] holds after the first page and the loop ends
    there, whatever the later pages hold. On a list of 26 notices published
    on the day asked for, the run that reads "1 - 25 z 26" processes two
    pages and 26 notices; the run on the same pages without that line
    processes one page and 25 notices, and both end with exit code 0. *)
Theorem Brno_run_without_count_stops_after_first_page :
  (∀ ucd cfg w script later later' total_count st,
     (∀ h, fetched Brno.page_try script = Some h →
           Brno.total_count_match h = None) →
     Brno.main_loop ucd cfg w (script :: later) 0 total_count st
       = Brno.main_loop ucd cfg w (script :: later') 0 total_count st) ∧
  (let with_count :=
     Brno.main ucd_excerpt cfg_may_2 (Brno_two_pages (Some 26%nat))
       (initial_state ∅) in
   let without_count :=
     Brno.main ucd_excerpt cfg_may_2 (Brno_two_pages None) (initial_state ∅) in
   with_count.1 = Ok 0 ∧
   pages_processed (stats with_count.2) = 2%nat ∧
   items_processed (stats with_count.2) = 26%nat ∧
   without_count.1 = Ok 0 ∧
   pages_processed (stats without_count.2) = 1%nat ∧
   items_processed (stats without_count.2) = 25%nat ∧
   {| level := INFO; msg := lit "Dosazeno konce seznamu." |}
     ∈ LOG_LINES without_count.2).
Proof.
  split; [intros; by apply Brno_main_loop_without_count|].
  intros with_count without_count.
  split; [vm_compute; reflexivity|]. split; [vm_compute; reflexivity|].
  split; [vm_compute; reflexivity|]. split; [vm_compute; reflexivity|].
  split; [vm_compute; reflexivity|]. split; [vm_compute; reflexivity|].
  apply list_elem_of_In.
  assert (existsb (λ l, bool_decide (level l = INFO) &&
                        bool_decide (msg l = lit "Dosazeno konce seznamu."))
            (LOG_LINES without_count.2) = true) as H
    by (vm_compute; reflexivity).
  apply existsb_exists in H as ([lvl m] & Hin & Hl). simpl in Hl.
  apply andb_true_iff in Hl as [H1%bool_decide_eq_true H2%bool_decide_eq_true].
  by subst.
Qed.

(** ** The date filter of the page walk *)

Lemma dt_ltb_spec (a b : datetime) :
  dt_ltb a b = true ↔
  year a < year b ∨
  (year a = year b ∧ (month a < month b ∨ (month a = month b ∧ day a < day b))).
Proof.
  unfold dt_ltb.
  rewrite orb_true_iff, andb_true_iff, orb_true_iff, andb_true_iff,
    !N.ltb_lt, !N.eqb_eq. tauto.
Qed.

Lemma dt_ltb_trans (a b c : datetime) :
  dt_ltb a b = true → dt_ltb b c = true → dt_ltb a c = true.
Proof. rewrite !dt_ltb_spec. lia. Qed.

Lemma dt_ltb_irrefl (a : datetime) : dt_ltb a a = false.
Proof.
  destruct (dt_ltb a a) eqn:E; [|done]. apply dt_ltb_spec in E. lia.
Qed.

(** [a >= b] and [b >= c] give [a >= c]. *)
Lemma dt_geb_trans (a b c : datetime) :
  dt_ltb a b = false → dt_ltb b c = false → dt_ltb a c = false.
Proof.
  intros H1 H2. destruct (dt_ltb a c) eqn:E; [|done].
  apply dt_ltb_spec in E.
  assert (¬ dt_ltb a b = true) as N1 by (rewrite H1; done).
  assert (¬ dt_ltb b c = true) as N2 by (rewrite H2; done).
  rewrite dt_ltb_spec in N1, N2. lia.
Qed.

Lemma filter_none {A} (P : A → Prop) `{∀ x, Decision (P x)} (l : list A) :
  Forall (λ x, ¬ P x) l → filter P l = [].
Proof. induction 1; [done|]. by rewrite filter_cons_False. Qed.

Section DateFilter.
Context {Item : Type} (published : Item → option datetime) (cfg : Config).

(** The notice is older than [from_date]. *)
Definition older (i : Item) : bool :=
  match published i with
  | Some d => dt_ltb d (from_date cfg)
  | None => false
  end.

(** The notice lies in [[from_date, to_date]]. *)
Definition in_range (i : Item) : bool :=
  match published i with
  | Some d => negb (dt_gtb d (to_date cfg)) && negb (dt_ltb d (from_date cfg))
  | None => false
  end.

(** The notices in front of the first one older than [from_date]. *)
Fixpoint before_boundary (items : list Item) : list Item :=
  match items with
  | [] => []
  | i :: rest => if older i then [] else i :: before_boundary rest
  end.

(** The first notice older than [from_date]. *)
Fixpoint boundary (items : list Item) : option Item :=
  match items with
  | [] => None
  | i :: rest => if older i then Some i else boundary rest
  end.

(** The notices the walk hands on: those in range in front of the
    boundary. *)
Definition handed_on (items : list Item) : list Item :=
  filter (λ i, in_range i = true) (before_boundary items).

(** Every notice is at least as recent as all the notices after it. *)
Definition descending (items : list Item) : Prop :=
  ∀ (j k : nat) (a b : Item) (da db : datetime),
    (j < k)%nat → items !! j = Some a → items !! k = Some b →
    published a = Some da → published b = Some db →
    dt_ltb da db = false.

Lemma in_range_not_older (i : Item) : in_range i = true → older i = false.
Proof.
  unfold in_range, older. destruct (published i); [|done].
  rewrite andb_true_iff, !negb_true_iff. by intros [_ ?].
Qed.

Lemma descending_tail (i : Item) (items : list Item) :
  descending (i :: items) → descending items.
Proof.
  intros H j k a b da db Hjk Ha Hb. by apply (H (S j) (S k)); [lia|..].
Qed.

(** In a descending list nothing in range comes after an older notice. *)
Lemma descending_after_older (i : Item) (items : list Item) :
  descending (i :: items) → older i = true →
  filter (λ i, in_range i = true) items = [].
Proof.
  intros Hd Hi. apply filter_none, Forall_forall.
  intros b Hb Hr. apply list_elem_of_lookup in Hb as [k Hk].
  unfold older in Hi. destruct (published i) as [da|] eqn:Ea; [|done].
  unfold in_range in Hr. destruct (published b) as [db|] eqn:Eb; [|done].
  apply andb_true_iff in Hr as [_ Hr%negb_true_iff].
  pose proof (Hd 0%nat (S k) i b da db) as H.
  assert (dt_ltb da db = false) as Hge by (apply H; [lia|done..]).
  assert (dt_ltb da (from_date cfg) = false) as Habs
    by (eapply dt_geb_trans; eauto).
  congruence.
Qed.

(** On a descending list the notices handed on are all those in range. *)
Lemma handed_on_descending (items : list Item) :
  descending items →
  handed_on items = filter (λ i, in_range i = true) items.
Proof.
  unfold handed_on. induction items as [|i items IH]; intros Hd; [done|].
  cbn [before_boundary]. destruct (older i) eqn:Ho.
  - rewrite filter_cons. rewrite (descending_after_older i items Hd Ho).
    destruct (decide (in_range i = true)) as [Hr|]; [|done].
    apply in_range_not_older in Hr. congruence.
  - rewrite !filter_cons, IH by (by eapply descending_tail). done.
Qed.
End DateFilter.

(** The publication date [main] reads from an item of the JMK list. *)
Definition JMK_published (ucd : UCD) (i : JMK.Item) : option datetime :=
  strptime_dmY ucd (JMK.date i).

Definition JMK_boundary_line (cfg : Config) (i : JMK.Item) : str :=
  lit "Dosazeno data " ++ JMK.date i ++ lit " (starsi nez " ++ FROM_DATE cfg ++
  lit "), koncim.".

(** [to_date < d] and [from_date <= to_date] leave [d] not older. *)
Lemma newer_not_older (cfg : Config) (d : datetime) :
  dt_ltb (to_date cfg) (from_date cfg) = false →
  dt_gtb d (to_date cfg) = true → dt_ltb d (from_date cfg) = false.
Proof.
  unfold dt_gtb. intros Hft Hgt.
  destruct (dt_ltb d (from_date cfg)) eqn:E; [|done].
  pose proof (dt_ltb_trans _ _ _ Hgt E). congruence.
Qed.

(** The item loop of the JMK [main] as a fold of its body over the notices
    it hands on. *)
Lemma JMK_for_items_handed_on ucd cfg w (items : list JMK.Item) (st : State) :
  dt_ltb (to_date cfg) (from_date cfg) = false →
  Forall (λ i, is_Some (JMK_published ucd i)) items →
  JMK.for_items ucd cfg w items st
    = foldr (λ i k, JMK.handle_item ucd cfg w i ≫= λ _, k)
        (match boundary (JMK_published ucd) cfg items with
         | Some b => log (JMK_boundary_line cfg b) INFO ≫= λ _, mret true
         | None => mret false
         end)
        (handed_on (JMK_published ucd) cfg items) st.
Proof.
  intros Hft Hall. revert st.
  induction Hall as [|i items [d Hd] Hall IH]; intros st; [done|].
  assert (older (JMK_published ucd) cfg i = dt_ltb d (from_date cfg)) as Ho
    by (unfold older; by rewrite Hd).
  assert (in_range (JMK_published ucd) cfg i
          = negb (dt_gtb d (to_date cfg)) && negb (dt_ltb d (from_date cfg)))
    as Hr by (unfold in_range; by rewrite Hd).
  cbn [JMK.for_items boundary]. unfold handed_on. cbn [before_boundary].
  rewrite Ho. unfold JMK.parse_date_cz. unfold JMK_published in Hd. rewrite Hd.
  erewrite bind_ok by reflexivity.
  destruct (dt_gtb d (to_date cfg)) eqn:Hgt.
  - rewrite (newer_not_older cfg d Hft Hgt).
    rewrite filter_cons_False by (rewrite Hr; done). apply IH.
  - destruct (dt_ltb d (from_date cfg)) eqn:Hlt; [done|].
    rewrite filter_cons_True by (rewrite Hr; done).
    cbn [foldr]. apply bind_ext. intros [] st' _. apply IH.
Qed.

(** X1. The [for item in items] loop of the JMK [main], on items whose
    dates parse and with [from_date <= to_date]: it runs the body on exactly
    the notices in range that stand in front of the first notice older than
    [from_date], in page order; notices newer than [to_date] are passed
    over; at the first older notice it writes the boundary line and ends
    with [finished = True], and without one it ends with [finished =
    False]. *)
Theorem JMK_for_items_date_filter ucd cfg w (items : list JMK.Item) (st : State) :
  dt_ltb (to_date cfg) (from_date cfg) = false →
  Forall (λ i, is_Some (JMK_published ucd i)) items →
  JMK.for_items ucd cfg w items st
    = foldr (λ i k, JMK.handle_item ucd cfg w i ≫= λ _, k)
        (match boundary (JMK_published ucd) cfg items with
         | Some b => log (JMK_boundary_line cfg b) INFO ≫= λ _, mret true
         | None => mret false
         end)
        (handed_on (JMK_published ucd) cfg items) st.
Proof. apply JMK_for_items_handed_on. Qed.

(** An item of the JMK list as [parse_list_page] builds it. *)
Definition JMK_item (date_cell iso title : string) : JMK.Item :=
  {| JMK.date := lit date_cell; JMK.date_iso := lit iso;
     JMK.detail_url := lit "Detail.aspx?id=1"; JMK.name := lit title |}.

(** Notices of 3, 2 and 1 May 2024, in the order of the site. *)
Definition may_3_2_1 : list JMK.Item :=
  [ JMK_item "03.05.2024" "2024-05-03" "Oznameni";
    JMK_item "02.05.2024" "2024-05-02" "Vyhlaska";
    JMK_item "01.05.2024" "2024-05-01" "Rozhodnuti" ].

(** X1 on the notices of 3, 2 and 1 May with both bounds on 2 May. *)
Lemma JMK_for_items_date_filter_witness :
  JMK.for_items ucd_excerpt cfg_may_2 february_31_world may_3_2_1
      (initial_state ∅)
    = foldr (λ i k, JMK.handle_item ucd_excerpt cfg_may_2 february_31_world i
                    ≫= λ _, k)
        (match boundary (JMK_published ucd_excerpt) cfg_may_2 may_3_2_1 with
         | Some b => log (JMK_boundary_line cfg_may_2 b) INFO ≫= λ _, mret true
         | None => mret false
         end)
        (handed_on (JMK_published ucd_excerpt) cfg_may_2 may_3_2_1)
        (initial_state ∅).
Proof.
  apply JMK_for_items_date_filter.
  - vm_compute. reflexivity.
  - repeat constructor; vm_compute; eexists; reflexivity.
Defined.

(** X2. When the items of the JMK page are in descending order of date (and
    their dates parse, with [from_date <= to_date]), the loop runs its body
    on exactly the notices whose date lies in [[from_date, to_date]], in
    page order. *)
Theorem JMK_for_items_descending ucd cfg w (items : list JMK.Item) (st : State) :
  dt_ltb (to_date cfg) (from_date cfg) = false →
  Forall (λ i, is_Some (JMK_published ucd i)) items →
  descending (JMK_published ucd) items →
  JMK.for_items ucd cfg w items st
    = foldr (λ i k, JMK.handle_item ucd cfg w i ≫= λ _, k)
        (match boundary (JMK_published ucd) cfg items with
         | Some b => log (JMK_boundary_line cfg b) INFO ≫= λ _, mret true
         | None => mret false
         end)
        (filter (λ i, in_range (JMK_published ucd) cfg i = true) items) st.
Proof.
  intros Hft Hall Hd. rewrite <- handed_on_descending by done.
  by apply JMK_for_items_handed_on.
Qed.

Lemma may_3_2_1_descending : descending (JMK_published ucd_excerpt) may_3_2_1.
Proof.
  unfold may_3_2_1. intros j k a b da db Hjk Ha Hb Hda Hdb.
  destruct j as [|[|[|j]]]; destruct k as [|[|[|k]]];
    simpl in Ha, Hb; try lia; try done;
    injection Ha as <-; injection Hb as <-;
    vm_compute in Hda, Hdb; injection Hda as <-; injection Hdb as <-;
    reflexivity.
Qed.

(** X2 on the notices of 3, 2 and 1 May with both bounds on 2 May: the
    body runs on the notice of 2 May only. *)
Lemma JMK_for_items_descending_witness :
  JMK.for_items ucd_excerpt cfg_may_2 february_31_world may_3_2_1
      (initial_state ∅)
    = foldr (λ i k, JMK.handle_item ucd_excerpt cfg_may_2 february_31_world i
                    ≫= λ _, k)
        (match boundary (JMK_published ucd_excerpt) cfg_may_2 may_3_2_1 with
         | Some b => log (JMK_boundary_line cfg_may_2 b) INFO ≫= λ _, mret true
         | None => mret false
         end)
        (filter (λ i, in_range (JMK_published ucd_excerpt) cfg_may_2 i = true)
           may_3_2_1)
        (initial_state ∅).
Proof.
  apply JMK_for_items_descending.
  - vm_compute. reflexivity.
  - repeat constructor; vm_compute; eexists; reflexivity.
  - exact may_3_2_1_descending.
Defined.

(** The publication date [main] reads from an item of the Brno list. *)
Definition Brno_published (ucd : UCD) (i : Brno.Item) : option datetime :=
  strptime_dmY ucd (strip (Brno.zverejnit_od i)).

Definition Brno_boundary_line (cfg : Config) (i : Brno.Item) : str :=
  lit "Dosazeno data " ++ Brno.zverejnit_od i ++ lit " (starsi nez " ++
  FROM_DATE cfg ++ lit "), koncim.".

(** The item loop of the Brno [main] as a fold of its body over the notices
    it hands on. *)
Lemma Brno_for_items_handed_on ucd cfg w (items : list Brno.Item)
    (st : State) :
  dt_ltb (to_date cfg) (from_date cfg) = false →
  Forall (λ i, is_Some (Brno_published ucd i)) items →
  Brno.for_items ucd cfg w items st
    = foldr (λ i k, Brno.handle_item ucd cfg w i ≫= λ _, k)
        (match boundary (Brno_published ucd) cfg items with
         | Some b => log (Brno_boundary_line cfg b) INFO ≫= λ _, mret true
         | None => mret false
         end)
        (handed_on (Brno_published ucd) cfg items) st.
Proof.
  intros Hft Hall. revert st.
  induction Hall as [|i items [d Hd] Hall IH]; intros st; [done|].
  assert (older (Brno_published ucd) cfg i = dt_ltb d (from_date cfg)) as Ho
    by (unfold older; by rewrite Hd).
  assert (in_range (Brno_published ucd) cfg i
          = negb (dt_gtb d (to_date cfg)) && negb (dt_ltb d (from_date cfg)))
    as Hr by (unfold in_range; by rewrite Hd).
  cbn [Brno.for_items boundary]. unfold handed_on. cbn [before_boundary].
  rewrite Ho. unfold Brno.parse_date_cz. unfold Brno_published in Hd. rewrite Hd.
  erewrite bind_ok by reflexivity.
  destruct (dt_gtb d (to_date cfg)) eqn:Hgt.
  - rewrite (newer_not_older cfg d Hft Hgt).
    rewrite filter_cons_False by (rewrite Hr; done). apply IH.
  - destruct (dt_ltb d (from_date cfg)) eqn:Hlt; [done|].
    rewrite filter_cons_True by (rewrite Hr; done).
    cbn [foldr]. apply bind_ext. intros [] st' _. apply IH.
Qed.

(** X3. The [for item in items] loop of the Brno [main], on items whose
    dates parse and with [from_date <= to_date]: the body runs on exactly
    the notices in range in front of the first notice older than
    [from_date], in page order; newer notices are passed over; the first
    older notice ends the loop with [finished = True]. *)
Theorem Brno_for_items_date_filter ucd cfg w (items : list Brno.Item)
    (st : State) :
  dt_ltb (to_date cfg) (from_date cfg) = false →
  Forall (λ i, is_Some (Brno_published ucd i)) items →
  Brno.for_items ucd cfg w items st
    = foldr (λ i k, Brno.handle_item ucd cfg w i ≫= λ _, k)
        (match boundary (Brno_published ucd) cfg items with
         | Some b => log (Brno_boundary_line cfg b) INFO ≫= λ _, mret true
         | None => mret false
         end)
        (handed_on (Brno_published ucd) cfg items) st.
Proof. apply Brno_for_items_handed_on. Qed.

(** An item of the Brno list without attachments. *)
Definition Brno_item (id : N) (od iso : string) : Brno.Item :=
  {| Brno.detail_id := id; Brno.item_oblast := lit "Brno";
     Brno.item_kategorie := lit "Oznameni";
     Brno.item_nazev := lit "Verejna vyhlaska";
     Brno.item_cislo_jednaci := lit "MMB/1"; Brno.item_puvodce := lit "MMB";
     Brno.zverejnit_od := lit od; Brno.zverejnit_od_iso := lit iso;
     Brno.zverejnit_do := []; Brno.zverejnit_do_iso := [];
     Brno.item_files := [] |}.

Definition Brno_may_3_2_1 : list Brno.Item :=
  [ Brno_item 3 "03.05.2024" "2024-05-03";
    Brno_item 2 "02.05.2024" "2024-05-02";
    Brno_item 1 "01.05.2024" "2024-05-01" ].

(** X3 on the notices of 3, 2 and 1 May with both bounds on 2 May. *)
Lemma Brno_for_items_date_filter_witness :
  Brno.for_items ucd_excerpt cfg_may_2 (Brno_two_pages None) Brno_may_3_2_1
      (initial_state ∅)
    = foldr (λ i k, Brno.handle_item ucd_excerpt cfg_may_2 (Brno_two_pages None) i
                    ≫= λ _, k)
        (match boundary (Brno_published ucd_excerpt) cfg_may_2 Brno_may_3_2_1 with
         | Some b => log (Brno_boundary_line cfg_may_2 b) INFO ≫= λ _, mret true
         | None => mret false
         end)
        (handed_on (Brno_published ucd_excerpt) cfg_may_2 Brno_may_3_2_1)
        (initial_state ∅).
Proof.
  apply Brno_for_items_date_filter.
  - vm_compute. reflexivity.
  - repeat constructor; vm_compute; eexists; reflexivity.
Defined.

(** X5. When the items of a Brno page are in descending order of date
    (dates parse, [from_date <= to_date]), the loop runs its body on exactly
    the notices whose date lies in [[from_date, to_date]], in page order. *)
Theorem Brno_for_items_descending ucd cfg w (items : list Brno.Item)
    (st : State) :
  dt_ltb (to_date cfg) (from_date cfg) = false →
  Forall (λ i, is_Some (Brno_published ucd i)) items →
  descending (Brno_published ucd) items →
  Brno.for_items ucd cfg w items st
    = foldr (λ i k, Brno.handle_item ucd cfg w i ≫= λ _, k)
        (match boundary (Brno_published ucd) cfg items with
         | Some b => log (Brno_boundary_line cfg b) INFO ≫= λ _, mret true
         | None => mret false
         end)
        (filter (λ i, in_range (Brno_published ucd) cfg i = true) items) st.
Proof.
  intros Hft Hall Hd. rewrite <- handed_on_descending by done.
  by apply Brno_for_items_handed_on.
Qed.

Lemma Brno_may_3_2_1_descending :
  descending (Brno_published ucd_excerpt) Brno_may_3_2_1.
Proof.
  unfold Brno_may_3_2_1. intros j k a b da db Hjk Ha Hb Hda Hdb.
  destruct j as [|[|[|j]]]; destruct k as [|[|[|k]]];
    simpl in Ha, Hb; try lia; try done;
    injection Ha as <-; injection Hb as <-;
    vm_compute in Hda, Hdb; injection Hda as <-; injection Hdb as <-;
    reflexivity.
Qed.

(** X5 on the notices of 3, 2 and 1 May with both bounds on 2 May. *)
Lemma Brno_for_items_descending_witness :
  Brno.for_items ucd_excerpt cfg_may_2 (Brno_two_pages None) Brno_may_3_2_1
      (initial_state ∅)
    = foldr (λ i k, Brno.handle_item ucd_excerpt cfg_may_2 (Brno_two_pages None) i
                    ≫= λ _, k)
        (match boundary (Brno_published ucd_excerpt) cfg_may_2 Brno_may_3_2_1 with
         | Some b => log (Brno_boundary_line cfg_may_2 b) INFO ≫= λ _, mret true
         | None => mret false
         end)
        (filter (λ i, in_range (Brno_published ucd_excerpt) cfg_may_2 i = true)
           Brno_may_3_2_1)
        (initial_state ∅).
Proof.
  apply Brno_for_items_descending.
  - vm_compute. reflexivity.
  - repeat constructor; vm_compute; eexists; reflexivity.
  - exact Brno_may_3_2_1_descending.
Defined.

(** ** The page walk ends at the boundary *)

(** A loop over notices that ends with the boundary line never reports
    [finished = False]. *)
Lemma foldr_boundary_finished {Item} (h : Item → M ()) (line : str)
    (l : list Item) (st : State) :
  (foldr (λ i k, h i ≫= λ _, k) (log line INFO ≫= λ _, mret true) l st).1
    ≠ Ok false.
Proof.
  revert st. induction l as [|i l IH]; intros st; [done|].
  cbn [foldr]. unfold mbind at 1, M_bind at 1.
  destruct (h i st) as [[[]|e|] st']; [apply IH|done|done].
Qed.

(** The list parser does not touch the state, and what it returns does
    not depend on it. *)
Lemma JMK_parse_rows_pure ucd (rows : list JMK.Row) :
  ∀ (items : list JMK.Item) (st st0 : State),
    JMK.parse_rows ucd rows items st
      = ((JMK.parse_rows ucd rows items st0).1, st).
Proof.
  induction rows as [|row rows IH]; intros items st st0; [done|].
  rewrite !JMK_parse_rows_cons.
  destruct (JMK.date_match ucd row) as [d|]; [|apply IH].
  destruct (JMK.NazevTd row) as [[url name]|]; [|apply IH].
  destruct (strptime_dmY ucd d); [apply IH|done].
Qed.

(** What [parse_list_page] returns on a page. *)
Definition JMK_parsed (ucd : UCD) (html : JMK.Html) : Outcome (list JMK.Item) :=
  outcome (JMK.parse_list_page ucd html) (initial_state ∅).

Lemma JMK_parse_list_page_pure ucd html st :
  JMK.parse_list_page ucd html st = (JMK_parsed ucd html, st).
Proof. apply JMK_parse_rows_pure. Qed.

(** The items the list parser returns carry dates that parse again. *)
Lemma JMK_parse_rows_dates ucd (rows : list JMK.Row) :
  ∀ (acc items : list JMK.Item) (st st' : State),
    JMK.parse_rows ucd rows acc st = (Ok items, st') →
    Forall (λ i, is_Some (JMK_published ucd i)) acc →
    Forall (λ i, is_Some (JMK_published ucd i)) items.
Proof.
  induction rows as [|row rows IH]; intros acc items st st' H Hacc.
  - by injection H as <- _.
  - rewrite JMK_parse_rows_cons in H.
    destruct (JMK.date_match ucd row) as [d|]; [|by eapply IH].
    destruct (JMK.NazevTd row) as [[url name]|]; [|by eapply IH].
    destruct (strptime_dmY ucd d) as [dt|] eqn:Hd; [|done].
    eapply IH; [exact H|]. apply Forall_app. split; [done|].
    apply Forall_singleton. unfold JMK_published; simpl. by rewrite Hd.
Qed.

(** A page with a notice older than [from_date] is the last one asked for. *)
Lemma JMK_main_loop_boundary ucd cfg w script
    (later later' : list (nat → Reply JMK.Html)) (page : nat) (st : State)
    (h : JMK.Html) (items : list JMK.Item) (b : JMK.Item) :
  dt_ltb (to_date cfg) (from_date cfg) = false →
  fetched JMK.page_try script = Some h →
  JMK.text h ≠ [] →
  JMK_parsed ucd h = Ok items →
  boundary (JMK_published ucd) cfg items = Some b →
  JMK.main_loop ucd cfg w (script :: later) page st
    = JMK.main_loop ucd cfg w (script :: later') page st.
Proof.
  intros Hft Hfetch Htext Hparse Hb. cbn [JMK.main_loop].
  apply bind_ext. intros [] st1 _.
  apply bind_ext. intros html st2 Hget.
  pose proof (JMK_get_list_page_outcome script page st1) as Hout.
  unfold outcome in Hout. rewrite Hget in Hout. simpl in Hout.
  injection Hout as ->. rewrite Hfetch.
  rewrite bool_decide_eq_false_2 by done.
  apply bind_ext. intros items' st3 Hp.
  rewrite JMK_parse_list_page_pure, Hparse in Hp. injection Hp as <- <-.
  destruct items as [|i items]; [done|].
  apply bind_ext. intros [] st4 _.
  apply bind_ext. intros [] st5 _.
  apply bind_ext. intros finished st6 Hfor.
  destruct finished; [done|]. exfalso.
  rewrite JMK_for_items_handed_on in Hfor.
  - rewrite Hb in Hfor.
    eapply foldr_boundary_finished. by rewrite Hfor.
  - done.
  - eapply (JMK_parse_rows_dates ucd (JMK.rows h) [] _ (initial_state ∅));
      [|done].
    pose proof (JMK_parse_list_page_pure ucd h (initial_state ∅)) as E.
    rewrite Hparse in E. exact E.
Qed.

(** X6. Once a JMK list page holds a notice older than [from_date], the
    walk ends on that page: the run is the same whatever the site holds on
    the pages after it. *)
Theorem JMK_main_loop_ends_at_boundary ucd cfg w script
    (later later' : list (nat → Reply JMK.Html)) (page : nat) (st : State)
    (h : JMK.Html) (items : list JMK.Item) (b : JMK.Item) :
  dt_ltb (to_date cfg) (from_date cfg) = false →
  fetched JMK.page_try script = Some h →
  JMK.text h ≠ [] →
  JMK_parsed ucd h = Ok items →
  boundary (JMK_published ucd) cfg items = Some b →
  JMK.main_loop ucd cfg w (script :: later) page st
    = JMK.main_loop ucd cfg w (script :: later') page st.
Proof. apply JMK_main_loop_boundary. Qed.

(** A JMK list page with the notices of 3, 2 and 1 May 2024. *)
Definition may_page : JMK.Html :=
  {| JMK.text := lit "<html><table>...</table></html>";
     JMK.VIEWSTATE := None; JMK.VIEWSTATEGENERATOR := None;
     JMK.rows := [ JMK_row "03.05.2024" "Oznameni";
                   JMK_row "02.05.2024" "Vyhlaska";
                   JMK_row "01.05.2024" "Rozhodnuti" ];
     JMK.soubor_odkaz := [] |}.

(** X6 on [may_page] with both bounds on 2 May: a second page that cannot
    be loaded changes nothing. *)
Lemma JMK_main_loop_ends_at_boundary_witness :
  JMK.main_loop ucd_excerpt cfg_may_2 february_31_world
      [λ _, status_200 may_page] 1 (initial_state ∅)
    = JMK.main_loop ucd_excerpt cfg_may_2 february_31_world
        [λ _, status_200 may_page; λ _, Fault (lit "timed out")] 1
        (initial_state ∅).
Proof.
  apply (JMK_main_loop_ends_at_boundary ucd_excerpt cfg_may_2 february_31_world
           (λ _, status_200 may_page) [] [λ _, Fault (lit "timed out")] 1%nat
           (initial_state ∅) may_page may_3_2_1
           (JMK_item "01.05.2024" "2024-05-01" "Rozhodnuti")).
  - vm_compute. reflexivity.
  - vm_compute. reflexivity.
  - vm_compute. intros [=].
  - vm_compute. reflexivity.
  - vm_compute. reflexivity.
Defined.

Lemma Brno_parse_rows_pure ucd (rows : list Brno.Row) :
  ∀ (items : list Brno.Item) (st st0 : State),
    Brno.parse_rows ucd rows items st
      = ((Brno.parse_rows ucd rows items st0).1, st).
Proof.
  induction rows as [|row rows IH]; intros items st st0; [done|].
  cbn [Brno.parse_rows].
  assert (∀ s, Brno._parse_row ucd row s
               = ((Brno._parse_row ucd row st0).1, s)) as Hrow.
  { intros s. unfold Brno._parse_row, Brno.format_date_iso, Brno.parse_date_cz.
    destruct (Brno.nazev row) as [[id nazev]|]; [|done].
    destruct (default [] (_ !! 0%nat)) as [|c od] eqn:Eod; [done|].
    unfold or_raise.
    destruct (strptime_dmY ucd (strip (c :: od))); [|done].
    destruct (default [] (_ !! 1%nat)) as [|c' do_] eqn:Edo; [done|].
    destruct (strptime_dmY ucd (strip (c' :: do_))); done. }
  unfold mbind at 1 2, M_bind at 1 2. rewrite (Hrow st), (Hrow st0).
  destruct (Brno._parse_row ucd row st0).1 as [[i|]|e|]; simpl;
    [apply IH|apply IH|done|done].
Qed.

(** What [parse_list_page] returns on a Brno page. *)
Definition Brno_parsed (ucd : UCD) (html : Brno.Html)
    : Outcome (list Brno.Item) :=
  outcome (Brno.parse_list_page ucd html) (initial_state ∅).

Lemma Brno_parse_list_page_pure ucd html st :
  Brno.parse_list_page ucd html st = (Brno_parsed ucd html, st).
Proof.
  unfold Brno_parsed, outcome, Brno.parse_list_page.
  destruct (Brno.tbody html); [apply Brno_parse_rows_pure|done].
Qed.

(** An item [_parse_row] returns carries a date that parses again. *)
Lemma Brno_parse_row_date ucd (row : Brno.Row) (i : Brno.Item) (st st' : State) :
  Brno._parse_row ucd row st = (Ok (Some i), st') →
  is_Some (Brno_published ucd i).
Proof.
  unfold Brno._parse_row, Brno.format_date_iso, Brno.parse_date_cz.
  destruct (Brno.nazev row) as [[id nazev]|]; [|done].
  destruct (default [] (_ !! 0%nat)) as [|c od] eqn:Eod; [done|].
  unfold or_raise.
  destruct (strptime_dmY ucd (strip (c :: od))) as [d|] eqn:Hd; [|done].
  destruct (default [] (_ !! 1%nat)) as [|c' do_] eqn:Edo.
  - intros [= <- _]. unfold Brno_published; simpl. by rewrite Hd.
  - destruct (strptime_dmY ucd (strip (c' :: do_))); [|done].
    intros [= <- _]. unfold Brno_published; simpl. by rewrite Hd.
Qed.

Lemma Brno_parse_rows_dates ucd (rows : list Brno.Row) :
  ∀ (acc items : list Brno.Item) (st st' : State),
    Brno.parse_rows ucd rows acc st = (Ok items, st') →
    Forall (λ i, is_Some (Brno_published ucd i)) acc →
    Forall (λ i, is_Some (Brno_published ucd i)) items.
Proof.
  induction rows as [|row rows IH]; intros acc items st st' H Hacc.
  - by injection H as <- _.
  - cbn [Brno.parse_rows] in H. unfold mbind at 1, M_bind at 1 in H.
    destruct (Brno._parse_row ucd row st) as [[[i|]|e|] st1] eqn:Hrow;
      [| |done|done].
    + eapply IH; [exact H|]. apply Forall_app. split; [done|].
      apply Forall_singleton. by eapply Brno_parse_row_date.
    + by eapply IH.
Qed.

(** A page with a notice older than [from_date] is the last one asked for. *)
Lemma Brno_main_loop_boundary ucd cfg w script
    (later later' : list (nat → Reply Brno.Html)) (first total_count : nat)
    (st : State) (h : Brno.Html) (items : list Brno.Item) (b : Brno.Item) :
  dt_ltb (to_date cfg) (from_date cfg) = false →
  fetched Brno.page_try script = Some h →
  Brno.text h ≠ [] →
  Brno_parsed ucd h = Ok items →
  boundary (Brno_published ucd) cfg items = Some b →
  Brno.main_loop ucd cfg w (script :: later) first total_count st
    = Brno.main_loop ucd cfg w (script :: later') first total_count st.
Proof.
  intros Hft Hfetch Htext Hparse Hb. cbn [Brno.main_loop].
  apply bind_ext. intros [] st1 _.
  apply bind_ext. intros html st2 Hget.
  pose proof (Brno_get_list_page_outcome script first st1) as Hout.
  unfold outcome in Hout. rewrite Hget in Hout. simpl in Hout.
  injection Hout as ->. rewrite Hfetch.
  rewrite bool_decide_eq_false_2 by done.
  apply bind_ext. intros total st3 _.
  apply bind_ext. intros items' st4 Hp.
  rewrite Brno_parse_list_page_pure, Hparse in Hp. injection Hp as <- <-.
  destruct items as [|i items]; [done|].
  apply bind_ext. intros [] st5 _.
  apply bind_ext. intros [] st6 _.
  apply bind_ext. intros finished st7 Hfor.
  destruct finished; [done|]. exfalso.
  rewrite Brno_for_items_handed_on in Hfor.
  - rewrite Hb in Hfor.
    eapply foldr_boundary_finished. by rewrite Hfor.
  - done.
  - pose proof (Brno_parse_list_page_pure ucd h (initial_state ∅)) as E.
    rewrite Hparse in E. unfold Brno.parse_list_page in E.
    destruct (Brno.tbody h) as [rows|]; [|done].
    by eapply (Brno_parse_rows_dates ucd rows [] _ (initial_state ∅)).
Qed.

(** X7. Once a Brno list page holds a notice older than [from_date], the
    walk ends on that page, whatever the count and the later pages are. *)
Theorem Brno_main_loop_ends_at_boundary ucd cfg w script
    (later later' : list (nat → Reply Brno.Html)) (first total_count : nat)
    (st : State) (h : Brno.Html) (items : list Brno.Item) (b : Brno.Item) :
  dt_ltb (to_date cfg) (from_date cfg) = false →
  fetched Brno.page_try script = Some h →
  Brno.text h ≠ [] →
  Brno_parsed ucd h = Ok items →
  boundary (Brno_published ucd) cfg items = Some b →
  Brno.main_loop ucd cfg w (script :: later) first total_count st
    = Brno.main_loop ucd cfg w (script :: later') first total_count st.
Proof. apply Brno_main_loop_boundary. Qed.

(** A Brno list page with the notices of 3, 2 and 1 May 2024 and the line
    "1 - 25 z 60". *)
Definition Brno_may_page : Brno.Html :=
  {| Brno.text := lit "<html><table>...</table></html>";
     Brno.total_count_match := Some 60%nat;
     Brno.tbody := Some [ Brno_row 3 "03.05.2024"; Brno_row 2 "02.05.2024";
                          Brno_row 1 "01.05.2024" ] |}.

(** The item [_parse_row] builds from [Brno_row id od]. *)
Definition Brno_listed_item (id : N) (od iso : string) : Brno.Item :=
  {| Brno.detail_id := id; Brno.item_oblast := lit "Brno";
     Brno.item_kategorie := lit "Oznameni";
     Brno.item_nazev := lit "Verejna vyhlaska";
     Brno.item_cislo_jednaci := lit "MMB/1"; Brno.item_puvodce := lit "MMB";
     Brno.zverejnit_od := lit od; Brno.zverejnit_od_iso := lit iso;
     Brno.zverejnit_do := lit "17.05.2024";
     Brno.zverejnit_do_iso := lit "2024-05-17";
     Brno.item_files := [] |}.

(** X7 on [Brno_may_page] with both bounds on 2 May. *)
Lemma Brno_main_loop_ends_at_boundary_witness :
  Brno.main_loop ucd_excerpt cfg_may_2 (Brno_two_pages None)
      [λ _, status_200 Brno_may_page] 0 0 (initial_state ∅)
    = Brno.main_loop ucd_excerpt cfg_may_2 (Brno_two_pages None)
        [λ _, status_200 Brno_may_page; λ _, Fault (lit "timed out")] 0 0
        (initial_state ∅).
Proof.
  apply (Brno_main_loop_ends_at_boundary ucd_excerpt cfg_may_2
           (Brno_two_pages None) (λ _, status_200 Brno_may_page) []
           [λ _, Fault (lit "timed out")] 0%nat 0%nat (initial_state ∅)
           Brno_may_page
           [ Brno_listed_item 3 "03.05.2024" "2024-05-03";
             Brno_listed_item 2 "02.05.2024" "2024-05-02";
             Brno_listed_item 1 "01.05.2024" "2024-05-01" ]
           (Brno_listed_item 1 "01.05.2024" "2024-05-01")).
  - vm_compute. reflexivity.
  - vm_compute. reflexivity.
  - vm_compute. intros [=].
  - vm_compute. reflexivity.
  - vm_compute. reflexivity.
Defined.

(** ** The retry loop of the page fetcher, for every script *)

(** The message of the exception the [i]-th attempt ends with. *)
Definition fault_message {H} (page_try : Reply H → str + H)
    (script : nat → Reply H) (i : nat) : str :=
  match page_try (script i) with
  | inl e => e
  | inr _ => []
  end.

(** X8. [JMK.get_page] on any replies: either the first good reply is the
    [k]-th with [k <= 3], and the page is returned after [k] failed
    attempts, each followed by its WARN line and a 30 s sleep, with the
    error flag untouched; or all four replies are transient, and the result
    is [None] after three WARN lines with their sleeps, a fourth request and
    one ERROR line. It never makes more than four requests and never
    raises. *)
Theorem JMK_get_page_total (script : nat → Reply JMK.Html) (url : str)
    (st : State) :
  let e := fault_message JMK.page_try script in
  (∃ (k : nat) (html : JMK.Html),
     (k ≤ MAX_RETRIES)%nat ∧
     (∀ i, (i < k)%nat → JMK.page_try (script i) = inl (e i)) ∧
     JMK.page_try (script k) = inr html ∧
     JMK.get_page script url 0 st
       = (Ok (Some html),
          {| LOG_LINES := LOG_LINES st ++ map (λ i, retry_line (e i)) (seq 0 k);
             HAS_ERROR := HAS_ERROR st;
             effects := effects st ++
                        flat_map (λ i, failed_attempt url (e i)) (seq 0 k) ++
                        [HttpGet url];
             disk := disk st; stats := stats st; statements := statements st;
             viewstate := viewstate st;
             viewstate_generator := viewstate_generator st |})) ∨
  ((∀ i, (i ≤ MAX_RETRIES)%nat → JMK.page_try (script i) = inl (e i)) ∧
   JMK.get_page script url 0 st
     = (Ok None,
        {| LOG_LINES := LOG_LINES st ++
                        [retry_line (e 0); retry_line (e 1); retry_line (e 2);
                         give_up_line (e 3)]%nat;
           HAS_ERROR := true;
           effects := effects st ++
                      failed_attempt url (e 0%nat) ++
                      failed_attempt url (e 1%nat) ++
                      failed_attempt url (e 2%nat) ++
                      [HttpGet url; Print (give_up_line (e 3%nat))];
           disk := disk st; stats := stats st; statements := statements st;
           viewstate := viewstate st;
           viewstate_generator := viewstate_generator st |})).
Proof.
  intros e.
  assert (∀ i m, JMK.page_try (script i) = inl m →
                 JMK.page_try (script i) = inl (e i)) as He.
  { intros i m H. unfold e, fault_message. by rewrite H. }
  destruct (JMK.page_try (script 0%nat)) as [m0|h0] eqn:E0;
    [apply He in E0|].
  2:{ left. exists 0%nat, h0. split; [unfold MAX_RETRIES; lia|].
      split; [intros i ?; lia|]. split; [done|].
      apply (JMK_get_page_recovers script url e h0 0 0); [unfold MAX_RETRIES; lia| |done].
      intros i ?. lia. }
  destruct (JMK.page_try (script 1%nat)) as [m1|h1] eqn:E1;
    [apply He in E1|].
  2:{ left. exists 1%nat, h1.
      assert (∀ i, (i < 1)%nat → JMK.page_try (script i) = inl (e i)) as Hf
        by (intros [|i] ?; [done|lia]).
      split; [unfold MAX_RETRIES; lia|]. split; [done|]. split; [done|].
      apply (JMK_get_page_recovers script url e h1 1 0); [unfold MAX_RETRIES; lia| |done].
      intros i ?. apply Hf. lia. }
  destruct (JMK.page_try (script 2%nat)) as [m2|h2] eqn:E2;
    [apply He in E2|].
  2:{ left. exists 2%nat, h2.
      assert (∀ i, (i < 2)%nat → JMK.page_try (script i) = inl (e i)) as Hf
        by (intros [|[|i]] ?; [done|done|lia]).
      split; [unfold MAX_RETRIES; lia|]. split; [done|]. split; [done|].
      apply (JMK_get_page_recovers script url e h2 2 0); [unfold MAX_RETRIES; lia| |done].
      intros i ?. apply Hf. lia. }
  destruct (JMK.page_try (script 3%nat)) as [m3|h3] eqn:E3;
    [apply He in E3|].
  2:{ left. exists 3%nat, h3.
      assert (∀ i, (i < 3)%nat → JMK.page_try (script i) = inl (e i)) as Hf
        by (intros [|[|[|i]]] ?; [done|done|done|lia]).
      split; [unfold MAX_RETRIES; lia|]. split; [done|]. split; [done|].
      apply (JMK_get_page_recovers script url e h3 3 0); [unfold MAX_RETRIES; lia| |done].
      intros i ?. apply Hf. lia. }
  right.
  assert (∀ i, (i ≤ MAX_RETRIES)%nat → JMK.page_try (script i) = inl (e i)) as Hf
    by (unfold MAX_RETRIES; intros [|[|[|[|i]]]] ?; [done|done|done|done|lia]).
  split; [done|]. by apply JMK_get_page_exhausted.
Qed.

(** X9. [get_list_page] never raises, in either script: whatever the state
    and whichever page is asked for (the first by GET, the others by POST),
    its value is the first good reply among the at most four attempts, and
    [None] when there is none. *)
Theorem get_list_page_returns_first_good_reply :
  (∀ (script : nat → Reply JMK.Html) (page : nat) (st : State),
     outcome (JMK.get_list_page script page) st
       = Ok (first_good JMK.page_try script 0 4)) ∧
  (∀ (script : nat → Reply Brno.Html) (first : nat) (st : State),
     outcome (Brno.get_list_page script first) st
       = Ok (first_good Brno.page_try script 0 4)).
Proof.
  split; intros script page st.
  - apply JMK_get_list_page_outcome.
  - apply Brno_get_list_page_outcome.
Qed.

(** ** The error flag over a whole run *)

Lemma preserves_exit_code : preserves exit_code.
Proof. unfold exit_code. pres. Qed.
#[local] Hint Resolve preserves_exit_code : pres.

Lemma preserves_JMK_main ucd cfg w : preserves (JMK.main ucd cfg w).
Proof. unfold JMK.main, JMK.finish. pres. Qed.

Lemma preserves_Brno_main ucd cfg w : preserves (Brno.main ucd cfg w).
Proof. unfold Brno.main, Brno.finish. pres. Qed.

(** X10. However a run of either script ends (exit code, uncaught
    exception, or the end of the scripted pages), at its end [HAS_ERROR] is
    [True] exactly when [LOG_LINES] holds a line of level ERROR. *)
Theorem HAS_ERROR_tracks_error_lines :
  (∀ ucd cfg w directory,
     let st := exec (JMK.main ucd cfg w) (initial_state directory) in
     HAS_ERROR st = true ↔ Exists (λ l, level l = ERROR) (LOG_LINES st)) ∧
  (∀ ucd cfg w directory,
     let st := exec (Brno.main ucd cfg w) (initial_state directory) in
     HAS_ERROR st = true ↔ Exists (λ l, level l = ERROR) (LOG_LINES st)).
Proof.
  split; intros ucd cfg w directory st.
  - apply (preserves_JMK_main ucd cfg w), log_inv_initial.
  - apply (preserves_Brno_main ucd cfg w), log_inv_initial.
Qed.

(** ** How the page walk ends *)

(** The retry loops set the error flag exactly when they give up. *)
Lemma JMK_get_page_flag script url :
  ∀ (n retry : nat) (st : State),
    (retry + n = MAX_RETRIES)%nat →
    HAS_ERROR (exec (JMK.get_page script url retry) st)
      = match first_good JMK.page_try script retry (S n) with
        | Some _ => HAS_ERROR st
        | None => true
        end.
Proof.
  unfold exec.
  induction n as [|n IH]; intros retry st Hn; rewrite JMK.get_page_equation_1;
    erewrite bind_ok by reflexivity; cbn [first_good];
    destruct (JMK.page_try (script retry)) as [e|html]; try done;
    destruct (decide (retry < MAX_RETRIES)%nat); try lia.
  - erewrite bind_ok by reflexivity. done.
  - do 2 erewrite bind_ok by reflexivity. rewrite IH by lia. done.
Qed.

Lemma JMK_post_page_flag script url data :
  ∀ (n retry : nat) (st : State),
    (retry + n = MAX_RETRIES)%nat →
    HAS_ERROR (exec (JMK.post_page script url data retry) st)
      = match first_good JMK.page_try script retry (S n) with
        | Some _ => HAS_ERROR st
        | None => true
        end.
Proof.
  unfold exec.
  induction n as [|n IH]; intros retry st Hn; rewrite JMK.post_page_equation_1;
    erewrite bind_ok by reflexivity; cbn [first_good];
    destruct (JMK.page_try (script retry)) as [e|html]; try done;
    destruct (decide (retry < MAX_RETRIES)%nat); try lia.
  - erewrite bind_ok by reflexivity. done.
  - do 2 erewrite bind_ok by reflexivity. rewrite IH by lia. done.
Qed.

Lemma JMK_get_list_page_flag script page st :
  HAS_ERROR (exec (JMK.get_list_page script page) st)
    = match fetched JMK.page_try script with
      | Some _ => HAS_ERROR st
      | None => true
      end.
Proof.
  unfold JMK.get_list_page. case_bool_decide.
  - assert (outcome (JMK.get_page script JMK.LIST_URL 0) st
            = Ok (fetched JMK.page_try script)) as Ho
      by (by apply JMK_get_page_outcome).
    assert (HAS_ERROR (exec (JMK.get_page script JMK.LIST_URL 0) st)
            = match fetched JMK.page_try script with
              | Some _ => HAS_ERROR st
              | None => true
              end) as Hf by (by apply JMK_get_page_flag).
    unfold exec at 1. rewrite (outcome_bind _ _ _ _ Ho).
    destruct (fetched JMK.page_try script) as [h|]; [|exact Hf].
    case_bool_decide; exact Hf.
  - unfold exec at 1. do 2 erewrite bind_ok by reflexivity.
    match goal with
    | |- context [JMK.post_page script JMK.LIST_URL ?d 0] =>
        assert (outcome (JMK.post_page script JMK.LIST_URL d 0) st
                = Ok (fetched JMK.page_try script)) as Ho
          by (by apply JMK_post_page_outcome);
        assert (HAS_ERROR (exec (JMK.post_page script JMK.LIST_URL d 0) st)
                = match fetched JMK.page_try script with
                  | Some _ => HAS_ERROR st
                  | None => true
                  end) as Hf by (by apply JMK_post_page_flag)
    end.
    rewrite (outcome_bind _ _ _ _ Ho).
    destruct (fetched JMK.page_try script) as [h|]; [|exact Hf].
    case_bool_decide; exact Hf.
Qed.

Definition page_load_error_line : LogLine :=
  {| level := ERROR; msg := lit "Chyba nacitani stranky, koncim." |}.

Definition no_items_line : LogLine :=
  {| level := INFO; msg := lit "Zadne polozky na strance, koncim." |}.

Definition loading_line (page : nat) : str :=
  lit "Nacitam stranku " ++ str_of_nat page ++ lit "...".

(** The state in which [main] looks at the page it asked for. *)
Definition JMK_after_fetch (script : nat → Reply JMK.Html) (page : nat)
    (st : State) : State :=
  exec (JMK.get_list_page script page) (exec (log (loading_line page) INFO) st).

Lemma JMK_main_loop_fetch_failure ucd cfg w script later page st :
  fetched JMK.page_try script = None →
  JMK.main_loop ucd cfg w (script :: later) page st
    = (Ok (), exec (log (msg page_load_error_line) ERROR)
                (JMK_after_fetch script page st)).
Proof.
  intros Hf. cbn [JMK.main_loop].
  erewrite bind_ok by reflexivity.
  rewrite (outcome_bind _ _ _ _ (JMK_get_list_page_outcome script page _)).
  rewrite Hf. reflexivity.
Qed.

Lemma JMK_main_loop_empty_page ucd cfg w script later page st h :
  fetched JMK.page_try script = Some h →
  JMK.text h ≠ [] →
  JMK_parsed ucd h = Ok [] →
  JMK.main_loop ucd cfg w (script :: later) page st
    = (Ok (), exec (log (msg no_items_line) INFO)
                (JMK_after_fetch script page st)).
Proof.
  intros Hf Ht Hp. cbn [JMK.main_loop].
  erewrite bind_ok by reflexivity.
  rewrite (outcome_bind _ _ _ _ (JMK_get_list_page_outcome script page _)).
  rewrite Hf. rewrite bool_decide_eq_false_2 by done.
  unfold mbind, M_bind. rewrite JMK_parse_list_page_pure, Hp. reflexivity.
Qed.

(** X11. When a JMK list page cannot be loaded (all four attempts fail) the
    walk ends there: nothing of the later pages is asked for, the last line
    of the log is the ERROR line of [main], and the error flag is set. *)
Theorem JMK_main_loop_ends_on_fetch_failure ucd cfg w script
    (later : list (nat → Reply JMK.Html)) (page : nat) (st : State) :
  fetched JMK.page_try script = None →
  ∃ st',
    JMK.main_loop ucd cfg w (script :: later) page st = (Ok (), st') ∧
    JMK.main_loop ucd cfg w [script] page st = (Ok (), st') ∧
    last (LOG_LINES st') = Some page_load_error_line ∧
    HAS_ERROR st' = true.
Proof.
  intros Hf. rewrite !JMK_main_loop_fetch_failure by done.
  eexists. split; [reflexivity|]. split; [reflexivity|].
  unfold exec; simpl. split; [apply last_snoc|done].
Qed.

(** X12. When a JMK list page loads but holds no item, the walk ends there
    without an error: nothing of the later pages is asked for, the last
    line of the log is the INFO line "Zadne polozky na strance, koncim.",
    and the error flag is as it was before the page. *)
Theorem JMK_main_loop_ends_on_empty_page ucd cfg w script
    (later : list (nat → Reply JMK.Html)) (page : nat) (st : State)
    (h : JMK.Html) :
  fetched JMK.page_try script = Some h →
  JMK.text h ≠ [] →
  JMK_parsed ucd h = Ok [] →
  ∃ st',
    JMK.main_loop ucd cfg w (script :: later) page st = (Ok (), st') ∧
    JMK.main_loop ucd cfg w [script] page st = (Ok (), st') ∧
    last (LOG_LINES st') = Some no_items_line ∧
    HAS_ERROR st' = HAS_ERROR st.
Proof.
  intros Hf Ht Hp. rewrite !(JMK_main_loop_empty_page _ _ _ _ _ _ _ h) by done.
  eexists. split; [reflexivity|]. split; [reflexivity|].
  split; [unfold exec; simpl; apply last_snoc|].
  change (HAS_ERROR (JMK_after_fetch script page st) = HAS_ERROR st).
  unfold JMK_after_fetch. rewrite JMK_get_list_page_flag, Hf. done.
Qed.

(** X11 on a site that does not answer. *)
Lemma JMK_main_loop_ends_on_fetch_failure_witness :
  ∃ st',
    JMK.main_loop ucd_excerpt cfg_may_2 february_31_world
      [λ _, Fault (lit "timed out"); λ _, status_200 may_page] 1
      (initial_state ∅) = (Ok (), st') ∧
    JMK.main_loop ucd_excerpt cfg_may_2 february_31_world
      [λ _, Fault (lit "timed out")] 1 (initial_state ∅) = (Ok (), st') ∧
    last (LOG_LINES st') = Some page_load_error_line ∧
    HAS_ERROR st' = true.
Proof.
  apply (JMK_main_loop_ends_on_fetch_failure ucd_excerpt cfg_may_2
           february_31_world (λ _, Fault (lit "timed out"))
           [λ _, status_200 may_page] 1%nat (initial_state ∅)).
  vm_compute. reflexivity.
Defined.

(** A JMK list page without rows. *)
Definition JMK_page_without_rows : JMK.Html :=
  {| JMK.text := lit "<html><table></table></html>";
     JMK.VIEWSTATE := None; JMK.VIEWSTATEGENERATOR := None;
     JMK.rows := []; JMK.soubor_odkaz := [] |}.

(** X12 on a page without rows. *)
Lemma JMK_main_loop_ends_on_empty_page_witness :
  ∃ st',
    JMK.main_loop ucd_excerpt cfg_may_2 february_31_world
      [λ _, status_200 JMK_page_without_rows; λ _, status_200 may_page] 2
      (initial_state ∅) = (Ok (), st') ∧
    JMK.main_loop ucd_excerpt cfg_may_2 february_31_world
      [λ _, status_200 JMK_page_without_rows] 2 (initial_state ∅)
      = (Ok (), st') ∧
    last (LOG_LINES st') = Some no_items_line ∧
    HAS_ERROR st' = HAS_ERROR (initial_state ∅).
Proof.
  apply (JMK_main_loop_ends_on_empty_page ucd_excerpt cfg_may_2
           february_31_world (λ _, status_200 JMK_page_without_rows)
           [λ _, status_200 may_page] 2%nat (initial_state ∅)
           JMK_page_without_rows).
  - vm_compute. reflexivity.
  - vm_compute. intros [=].
  - vm_compute. reflexivity.
Defined.

(** ** Filename sanitisation on ordinary names *)

(** [sanitize_filename] on a name without a dot. *)
Lemma sanitize_filename_no_dot (ucd : UCD) (filename : str) :
  DOT ∉ filename →
  sanitize_filename ucd filename
    = re_sub_disallowed
        (replace_char APOSTROPHE []
           (replace_char SPACE (lit "_") (remove_diacritics ucd filename))) ∧
  Forall (λ c, allowed_name_char c = true) (sanitize_filename ucd filename).
Proof.
  intros Hdot.
  assert (sanitize_filename ucd filename
          = re_sub_disallowed
              (replace_char APOSTROPHE []
                 (replace_char SPACE (lit "_") (remove_diacritics ucd filename))))
    as E.
  { unfold sanitize_filename. destruct filename as [|c s]; [done|].
    destruct (contains [DOT] (c :: s)) eqn:Ec.
    - apply contains_singleton in Ec. done.
    - unfold remove_diacritics at 2. by rewrite app_nil_r. }
  split; [exact E|]. rewrite E. apply re_sub_disallowed_allowed.
Qed.

(** X13. A name without a dot has no extension: the whole name is
    stripped of diacritics, its spaces become underscores, its apostrophes
    go, and only characters of [[A-Za-z0-9_-]] are left in the result, for
    every character database. *)
Theorem sanitize_filename_without_dot (ucd : UCD) (filename : str) :
  DOT ∉ filename →
  sanitize_filename ucd filename
    = re_sub_disallowed
        (replace_char APOSTROPHE []
           (replace_char SPACE (lit "_") (remove_diacritics ucd filename))) ∧
  Forall (λ c, allowed_name_char c = true) (sanitize_filename ucd filename).
Proof. apply sanitize_filename_no_dot. Qed.

(** The name "Zadost o dotaci" with its diacritics (Z-caron, a-acute). *)
Definition zadost_o_dotaci : str := [0x17D; 0xE1] ++ lit "dost o dotaci".

(** X13 on "Zadost o dotaci". *)
Lemma sanitize_filename_without_dot_witness :
  sanitize_filename ucd_excerpt zadost_o_dotaci
    = re_sub_disallowed
        (replace_char APOSTROPHE []
           (replace_char SPACE (lit "_")
              (remove_diacritics ucd_excerpt zadost_o_dotaci))) ∧
  Forall (λ c, allowed_name_char c = true)
    (sanitize_filename ucd_excerpt zadost_o_dotaci).
Proof.
  apply sanitize_filename_without_dot. vm_compute.
  intros H. repeat (apply elem_of_cons in H as [H|H]; [discriminate H|]).
  by apply elem_of_nil in H.
Defined.

(** A character database that leaves ASCII alone: the code points below
    128 have no decomposition, combining class 0, and are not marks. *)
Definition ascii_stable (ucd : UCD) : Prop :=
  ∀ c, c < 128 →
    decomposition ucd c = [c] ∧ combining ucd c = 0 ∧ category_Mn ucd c = false.

Lemma reorder_insert_starter ucd (c : N) (acc : list N) :
  combining ucd c = 0 → reorder_insert ucd c acc = c :: acc.
Proof. intros H. destruct acc as [|p acc]; simpl; [done|]. by rewrite H. Qed.

Lemma canonical_order_starters ucd (s : str) :
  Forall (λ c, combining ucd c = 0) s → canonical_order ucd s = s.
Proof.
  intros H. unfold canonical_order.
  assert (∀ acc, foldl (λ acc c, reorder_insert ucd c acc) acc s = rev s ++ acc)
    as E.
  { induction H as [|c s Hc Hs IH]; intros acc; [done|]. simpl.
    rewrite reorder_insert_starter by done. rewrite IH, <- app_assoc. done. }
  rewrite E, app_nil_r. apply rev_involutive.
Qed.

Lemma filter_all {A} (P : A → Prop) `{∀ x, Decision (P x)} (l : list A) :
  Forall P l → filter P l = l.
Proof. induction 1; [done|]. rewrite filter_cons_True by done. by f_equal. Qed.

Lemma remove_diacritics_ascii ucd (s : str) :
  ascii_stable ucd → Forall (λ c, c < 128) s → remove_diacritics ucd s = s.
Proof.
  intros Hucd Hs. unfold remove_diacritics. destruct s as [|c0 s0] eqn:Es; [done|].
  rewrite <- Es in *. clear Es.
  assert (flat_map (decomposition ucd) s = s) as E1.
  { induction Hs as [|c s Hc Hs IH]; [done|]. simpl.
    destruct (Hucd c Hc) as (-> & _ & _). simpl. by f_equal. }
  unfold normalize_NFD. rewrite E1.
  rewrite canonical_order_starters.
  - apply filter_all. eapply Forall_impl; [exact Hs|].
    intros c Hc. by destruct (Hucd c Hc) as (_ & _ & ?).
  - eapply Forall_impl; [exact Hs|].
    intros c Hc. by destruct (Hucd c Hc) as (_ & ? & _).
Qed.

Lemma allowed_name_char_ascii (c : N) :
  allowed_name_char c = true →
  c < 128 ∧ c ≠ DOT ∧ c ≠ SPACE ∧ c ≠ APOSTROPHE.
Proof.
  unfold allowed_name_char, DOT, SPACE, APOSTROPHE.
  rewrite !orb_true_iff, !andb_true_iff, !N.leb_le, !N.eqb_eq. lia.
Qed.

Lemma replace_char_absent (old : N) (new s : str) :
  old ∉ s → replace_char old new s = s.
Proof.
  unfold replace_char. induction s as [|c s IH]; intros H; [done|].
  apply not_elem_of_cons in H as [Hne H]. simpl.
  destruct (N.eqb_spec c old) as [->|_]; [done|]. simpl. by rewrite IH.
Qed.

(** A name of allowed characters is left as it is by the whole treatment of
    the name part. *)
Lemma clean_name_fixed ucd (name : str) :
  ascii_stable ucd →
  Forall (λ c, allowed_name_char c = true) name →
  re_sub_disallowed
    (replace_char APOSTROPHE []
       (replace_char SPACE (lit "_") (remove_diacritics ucd name))) = name.
Proof.
  intros Hucd Hn.
  rewrite remove_diacritics_ascii; [|done|].
  2:{ eapply Forall_impl; [exact Hn|]. intros c Hc.
      by apply allowed_name_char_ascii in Hc as [? _]. }
  rewrite (replace_char_absent SPACE).
  2:{ intros Hin. rewrite Forall_forall in Hn.
      apply Hn, allowed_name_char_ascii in Hin. naive_solver. }
  rewrite (replace_char_absent APOSTROPHE).
  2:{ intros Hin. rewrite Forall_forall in Hn.
      apply Hn, allowed_name_char_ascii in Hin. naive_solver. }
  by apply filter_all.
Qed.

(** X14. [sanitize_filename] is idempotent on every name whose extension
    (the text from the last dot on) is ASCII, for every character database
    that leaves ASCII alone. *)
Theorem sanitize_filename_idempotent_ascii_extension (ucd : UCD)
    (filename : str) :
  ascii_stable ucd →
  Forall (λ c, c < 128) (split_ext filename).2 →
  sanitize_filename ucd (sanitize_filename ucd filename)
    = sanitize_filename ucd filename.
Proof.
  intros Hucd Hext.
  destruct (decide (DOT ∈ filename)) as [Hdot|Hdot].
  - apply contains_singleton in Hdot as Hc.
    destruct (rsplit1 DOT filename) as [[base ext]|] eqn:Hsplit.
    2:{ apply rsplit1_None in Hsplit. done. }
    apply rsplit1_inv in Hsplit as [-> Hnd].
    rewrite split_ext_dot in Hext by done. simpl in Hext.
    destruct (sanitize_filename_parts ucd base ext Hnd) as (name' & Hn & E).
    rewrite remove_diacritics_ascii in E by done.
    rewrite E.
    assert (DOT ∉ name') as Hn'.
    { intros Hin. rewrite Forall_forall in Hn.
      apply Hn, allowed_name_char_ascii in Hin. naive_solver. }
    unfold sanitize_filename.
    destruct (name' ++ DOT :: ext) as [|c s] eqn:Es; [by destruct name'|].
    rewrite <- Es.
    assert (contains [DOT] (name' ++ DOT :: ext) = true) as ->
      by (apply contains_singleton; set_solver).
    rewrite rsplit1_app by done.
    rewrite clean_name_fixed by done.
    by rewrite remove_diacritics_ascii.
  - destruct (sanitize_filename_no_dot ucd filename Hdot) as [_ Hall].
    assert (DOT ∉ sanitize_filename ucd filename) as Hnd.
    { intros Hin. rewrite Forall_forall in Hall.
      apply Hall, allowed_name_char_ascii in Hin. naive_solver. }
    destruct (sanitize_filename_no_dot ucd _ Hnd) as [-> _].
    by apply clean_name_fixed.
Qed.

Lemma ucd_excerpt_ascii_stable : ascii_stable ucd_excerpt.
Proof.
  intros c Hc.
  assert (forallb (λ n, let c := N.of_nat n in
                        bool_decide (decomposition ucd_excerpt c = [c]) &&
                        (combining ucd_excerpt c =? 0) &&
                        negb (category_Mn ucd_excerpt c))
            (seq 0 128) = true) as H by (vm_compute; reflexivity).
  rewrite forallb_forall in H. specialize (H (N.to_nat c)).
  rewrite N2Nat.id in H.
  assert (In (N.to_nat c) (seq 0 128)) as Hin by (apply in_seq; lia).
  apply H in Hin. simpl in Hin.
  apply andb_true_iff in Hin as [Hin H3].
  apply andb_true_iff in Hin as [H1 H2].
  apply bool_decide_eq_true in H1. apply N.eqb_eq in H2.
  apply negb_true_iff in H3. done.
Qed.

(** The name "Zadost o dotaci.pdf" with its diacritics. *)
Definition zadost_pdf : str := zadost_o_dotaci ++ lit ".pdf".

(** X14 on "Zadost o dotaci.pdf". *)
Lemma sanitize_filename_idempotent_ascii_extension_witness :
  sanitize_filename ucd_excerpt (sanitize_filename ucd_excerpt zadost_pdf)
    = sanitize_filename ucd_excerpt zadost_pdf.
Proof.
  apply sanitize_filename_idempotent_ascii_extension.
  - exact ucd_excerpt_ascii_stable.
  - vm_compute. repeat constructor.
Defined.

(** ** What the list parser returns *)

(** X15. When [JMK.parse_list_page] returns, it has not touched the state,
    and every item it returns carries a date cell of the shape
    [dd.mm.yyyy] that [strptime] accepts, with [date_iso] the ISO form of
    that date: the second parse of the date in [main]'s item loop cannot
    raise. *)
Theorem JMK_parse_list_page_items ucd (html : JMK.Html)
    (items : list JMK.Item) (st st' : State) :
  JMK.parse_list_page ucd html st = (Ok items, st') →
  st' = st ∧
  (length items ≤ length (JMK.rows html))%nat ∧
  Forall (λ i, date_shape ucd (JMK.date i) = true ∧
               ∃ d, strptime_dmY ucd (JMK.date i) = Some d ∧
                    JMK.date_iso i = strftime_iso d) items.
Proof.
  unfold JMK.parse_list_page. intros H.
  assert (∀ rows acc items st st',
            JMK.parse_rows ucd rows acc st = (Ok items, st') →
            Forall (λ i, date_shape ucd (JMK.date i) = true ∧
                         ∃ d, strptime_dmY ucd (JMK.date i) = Some d ∧
                              JMK.date_iso i = strftime_iso d) acc →
            (length items ≤ length acc + length rows)%nat ∧
            Forall (λ i, date_shape ucd (JMK.date i) = true ∧
                         ∃ d, strptime_dmY ucd (JMK.date i) = Some d ∧
                              JMK.date_iso i = strftime_iso d) items) as Hgen.
  { clear. induction rows as [|row rows IH]; intros acc items st st' H Hacc.
    - injection H as <- _. split; [simpl; lia|done].
    - rewrite JMK_parse_rows_cons in H.
      destruct (JMK.date_match ucd row) as [d|] eqn:Hm.
      2:{ apply IH in H as [? ?]; [|done]. split; [simpl; lia|done]. }
      destruct (JMK.NazevTd row) as [[url name]|].
      2:{ apply IH in H as [? ?]; [|done]. split; [simpl; lia|done]. }
      destruct (strptime_dmY ucd d) as [dt|] eqn:Hd; [|done].
      apply IH in H as [Hlen Hall].
      + split; [|done]. rewrite length_app in Hlen. simpl in *. lia.
      + apply Forall_app. split; [done|]. apply Forall_singleton. simpl.
        split; [|eauto].
        unfold JMK.date_match in Hm.
        destruct (filter _ (JMK.VyveseniDneTd row)) as [|c cs] eqn:Hf; [done|].
        injection Hm as ->.
        assert (d ∈ filter (λ c, date_shape ucd c = true)
                      (JMK.VyveseniDneTd row)) as Hin
          by (rewrite Hf; set_solver).
        by apply list_elem_of_filter in Hin as [? _]. }
  pose proof (JMK_parse_rows_pure ucd (JMK.rows html) [] st (initial_state ∅))
    as Hpure.
  rewrite H in Hpure. injection Hpure as _ ->.
  split; [done|]. apply Hgen in H as [? ?]; [|done]. simpl in *. done.
Qed.

(** X15 on the page with the notices of 3, 2 and 1 May. *)
Lemma JMK_parse_list_page_items_witness :
  initial_state ∅ = initial_state ∅ ∧
  (length may_3_2_1 ≤ length (JMK.rows may_page))%nat ∧
  Forall (λ i, date_shape ucd_excerpt (JMK.date i) = true ∧
               ∃ d, strptime_dmY ucd_excerpt (JMK.date i) = Some d ∧
                    JMK.date_iso i = strftime_iso d) may_3_2_1.
Proof.
  apply (JMK_parse_list_page_items ucd_excerpt may_page may_3_2_1
           (initial_state ∅) (initial_state ∅)).
  vm_compute. reflexivity.
Defined.

(** ** Publishing *)

Definition ftp_not_configured_line : LogLine :=
  {| level := WARN; msg := lit "FTP neni nakonfigurovano, preskakuji upload" |}.

(** X16. When the host, the user, the password or the remote path is
    empty, [upload_to_ftp] does not contact the server: it writes one WARN
    line, returns [False], and leaves the error flag, the disk and the
    counters as they are. *)
Theorem upload_to_ftp_not_configured cfg (remote_path remote_filename : str)
    (st : State) :
  FTP_HOST cfg = [] ∨ FTP_USER cfg = [] ∨ FTP_PASS cfg = [] ∨ remote_path = [] →
  upload_to_ftp cfg remote_path remote_filename st
    = (Ok false,
       {| LOG_LINES := LOG_LINES st ++ [ftp_not_configured_line];
          HAS_ERROR := HAS_ERROR st;
          effects := effects st ++ [Print ftp_not_configured_line];
          disk := disk st; stats := stats st; statements := statements st;
          viewstate := viewstate st;
          viewstate_generator := viewstate_generator st |}).
Proof.
  intros H. unfold upload_to_ftp.
  assert (bool_decide (FTP_HOST cfg = []) || bool_decide (FTP_USER cfg = []) ||
          bool_decide (FTP_PASS cfg = []) || bool_decide (remote_path = [])
          = true) as ->.
  { rewrite !orb_true_iff, !bool_decide_eq_true. tauto. }
  reflexivity.
Qed.

(** X16 on a run without FTP settings. *)
Lemma upload_to_ftp_not_configured_witness :
  upload_to_ftp cfg_may_2 (lit "/www/edeska") (lit "a.pdf") (initial_state ∅)
    = (Ok false,
       {| LOG_LINES := [] ++ [ftp_not_configured_line];
          HAS_ERROR := false;
          effects := [] ++ [Print ftp_not_configured_line];
          disk := ∅; stats := stats (initial_state ∅); statements := [];
          viewstate := []; viewstate_generator := [] |}).
Proof.
  apply (upload_to_ftp_not_configured cfg_may_2 (lit "/www/edeska") (lit "a.pdf")
           (initial_state ∅)).
  left. reflexivity.
Defined.

Lemma rsplit2_head_two (base a b : str) :
  SLASH ∉ a → SLASH ∉ b →
  rsplit2_head (base ++ SLASH :: a ++ SLASH :: b) = base.
Proof.
  intros Ha Hb. unfold rsplit2_head.
  replace (base ++ SLASH :: a ++ SLASH :: b)
    with ((base ++ SLASH :: a) ++ SLASH :: b) by (by rewrite <- app_assoc).
  rewrite rsplit1_app by done. by rewrite rsplit1_app.
Qed.

(** X17. With [FTP_PATH = base/a/b] (the last two components without a
    slash) and no [FTP_LOGS_PATH], the SQL files are sent to [base], the
    log file to [base/logs/<site>] and an attachment to [FTP_PATH] itself:
    [rsplit('/', 2)[0]] takes exactly the last two components off. *)
Theorem upload_destinations cfg (base a b site remote_filename : str) :
  FTP_LOGS_PATH cfg = [] →
  FTP_PATH cfg = base ++ SLASH :: a ++ SLASH :: b →
  SLASH ∉ a → SLASH ∉ b →
  upload_sql_to_ftp cfg remote_filename
    = upload_to_ftp cfg base remote_filename ∧
  upload_log_to_ftp cfg site remote_filename
    = upload_to_ftp cfg (base ++ lit "/logs/" ++ site) remote_filename ∧
  upload_file_to_ftp cfg remote_filename
    = upload_to_ftp cfg (base ++ SLASH :: a ++ SLASH :: b) remote_filename.
Proof.
  intros Hl Hpath Ha Hb.
  unfold upload_sql_to_ftp, upload_log_to_ftp, upload_file_to_ftp.
  rewrite Hl, Hpath, rsplit2_head_two by done.
  by destruct (base ++ SLASH :: a ++ SLASH :: b) as [|c s] eqn:E;
    [destruct base|].
Qed.

(** A run that publishes under [/www/edeska]. *)
Definition cfg_ftp : Config :=
  {| from_date := may_2; to_date := may_2;
     FTP_HOST := lit "ftp.example.org"; FTP_USER := lit "edeska";
     FTP_PASS := lit "heslo";
     FTP_PATH := lit "/www/edeska/stazene_soubory/jihomoravsky_kraj";
     FTP_LOGS_PATH := []; ftp_server := λ _ _, None;
     stat_fails := name_too_long |}.

(** X17 on [cfg_ftp]. *)
Lemma upload_destinations_witness :
  upload_sql_to_ftp cfg_ftp (lit "jmk_import.sql")
    = upload_to_ftp cfg_ftp (lit "/www/edeska") (lit "jmk_import.sql") ∧
  upload_log_to_ftp cfg_ftp (lit "jihomoravsky_kraj") (lit "jmk_import.sql")
    = upload_to_ftp cfg_ftp
        (lit "/www/edeska" ++ lit "/logs/" ++ lit "jihomoravsky_kraj")
        (lit "jmk_import.sql") ∧
  upload_file_to_ftp cfg_ftp (lit "jmk_import.sql")
    = upload_to_ftp cfg_ftp
        (lit "/www/edeska" ++ SLASH :: lit "stazene_soubory" ++
           SLASH :: lit "jihomoravsky_kraj")
        (lit "jmk_import.sql").
Proof.
  apply (upload_destinations cfg_ftp (lit "/www/edeska")
           (lit "stazene_soubory") (lit "jihomoravsky_kraj")
           (lit "jihomoravsky_kraj") (lit "jmk_import.sql")).
  - reflexivity.
  - vm_compute. reflexivity.
  - apply (bool_decide_unpack _). vm_compute. exact I.
  - apply (bool_decide_unpack _). vm_compute. exact I.
Defined.

(** ** The date window of the traversal *)



(** ** The run without the record count *)

(** C5. A Brno list of 26 notices published on the day asked for, served
    in two pages. When the first page shows "1 - 25 z 26" the run handles
    all 26 notices; when it does not, [parse_total_count] gives 0, the
    test [first >= total_count] ends the walk after the first page, and
    notice 26, which lies in the date range, is never handled. In general
    a first page without the count makes the later pages irrelevant. *)
Theorem Brno_missing_count_loses_notices :
  (∀ ucd cfg w script later later' total_count st,
     (∀ h, fetched Brno.page_try script = Some h →
           Brno.total_count_match h = None) →
     Brno.main_loop ucd cfg w (script :: later) 0 total_count st
       = Brno.main_loop ucd cfg w (script :: later') 0 total_count st) ∧
  (let notice_26 := Brno_listed_item 26 "02.05.2024" "2024-05-02" in
   let with_count :=
     exec (Brno.main ucd_excerpt cfg_may_2 (Brno_two_pages (Some 26%nat)))
       (initial_state ∅) in
   let without_count :=
     exec (Brno.main ucd_excerpt cfg_may_2 (Brno_two_pages None))
       (initial_state ∅) in
   in_range (Brno_published ucd_excerpt) cfg_may_2 notice_26 = true ∧
   Brno.item_line notice_26 ∈ (msg <$> LOG_LINES with_count) ∧
   Brno.item_line notice_26 ∉ (msg <$> LOG_LINES without_count) ∧
   items_processed (stats with_count) = 26%nat ∧
   items_processed (stats without_count) = 25%nat).
Proof.
  split; [intros; by apply Brno_main_loop_without_count|].
  intros notice_26 with_count without_count.
  split; [vm_compute; reflexivity|].
  split; [apply (bool_decide_unpack _); vm_compute; exact I|].
  split; [apply (bool_decide_unpack _); vm_compute; exact I|].
  split; vm_compute; reflexivity.
Qed.

(** ** Files, counters and records over a run *)

(** The names of the files written into the download folder, in order. *)
Definition written (es : list Effect) : list str :=
  omap (λ e, match e with WriteFile n => Some n | _ => None end) es.

Lemma written_app (es1 es2 : list Effect) :
  written (es1 ++ es2) = written es1 ++ written es2.
Proof. apply omap_app. Qed.

(** [upload_file_to_ftp] has nowhere to send a file. *)
Definition ftp_unconfigured (cfg : Config) : Prop :=
  FTP_HOST cfg = [] ∨ FTP_USER cfg = [] ∨ FTP_PASS cfg = [] ∨ FTP_PATH cfg = [].

(** From [st] to [st'] no file was written, the file counters and the
    records are as before, the error flag was not cleared and the log
    only grew. *)
Definition quiet (st st' : State) : Prop :=
  disk st' = disk st ∧ statements st' = statements st ∧
  files_downloaded (stats st') = files_downloaded (stats st) ∧
  files_uploaded (stats st') = files_uploaded (stats st) ∧
  (HAS_ERROR st = true → HAS_ERROR st' = true) ∧
  (∃ new, effects st' = effects st ++ new ∧ written new = []) ∧
  ∃ lines, LOG_LINES st' = LOG_LINES st ++ lines.

(** From [st] to [st'] the file [name] was written, and nothing else
    changed on the disk, in the file counters or in the records. *)
Definition wrote (name : str) (st st' : State) : Prop :=
  disk st' = {[ name ]} ∪ disk st ∧ statements st' = statements st ∧
  files_downloaded (stats st') = files_downloaded (stats st) ∧
  files_uploaded (stats st') = files_uploaded (stats st) ∧
  (HAS_ERROR st = true → HAS_ERROR st' = true) ∧
  ∃ new, effects st' = effects st ++ new ∧ written new = [name].

(** What [download_file(url, save_path)] leaves behind: [True] and the
    file, or [False] and no file. *)
Definition downloaded (name : str) (st : State) (r : Outcome bool * State)
    : Prop :=
  (r.1 = Ok true ∧ wrote name st r.2) ∨ (r.1 = Ok false ∧ quiet st r.2).

Definition silent {A} (m : M A) : Prop := ∀ st, quiet st (m st).2.

Lemma quiet_refl (st : State) : quiet st st.
Proof.
  repeat split; try done; exists []; by rewrite app_nil_r.
Qed.

Lemma quiet_trans (st1 st2 st3 : State) :
  quiet st1 st2 → quiet st2 st3 → quiet st1 st3.
Proof.
  intros (Hd1 & Hs1 & Hf1 & Hu1 & He1 & (new1 & Hn1 & Hw1) & (l1 & Hl1))
         (Hd2 & Hs2 & Hf2 & Hu2 & He2 & (new2 & Hn2 & Hw2) & (l2 & Hl2)).
  repeat split; try congruence; [tauto| |].
  - exists (new1 ++ new2).
    by rewrite Hn2, Hn1, <- app_assoc, written_app, Hw1, Hw2.
  - exists (l1 ++ l2). by rewrite Hl2, Hl1, <- app_assoc.
Qed.

Lemma quiet_wrote (name : str) (st1 st2 st3 : State) :
  quiet st1 st2 → wrote name st2 st3 → wrote name st1 st3.
Proof.
  intros (Hd1 & Hs1 & Hf1 & Hu1 & He1 & (new1 & Hn1 & Hw1) & _)
         (Hd2 & Hs2 & Hf2 & Hu2 & He2 & new2 & Hn2 & Hw2).
  repeat split; try congruence; [tauto|].
  exists (new1 ++ new2). rewrite Hn2, Hn1, <- app_assoc, written_app, Hw1, Hw2.
  done.
Qed.

Lemma quiet_downloaded (name : str) (st1 st2 : State) r :
  quiet st1 st2 → downloaded name st2 r → downloaded name st1 r.
Proof.
  intros Hq [[? ?]|[? ?]]; [left|right]; split; try done.
  - by eapply quiet_wrote.
  - by eapply quiet_trans.
Qed.

Lemma silent_ret {A} (a : A) : silent (mret a).
Proof. intros st. apply quiet_refl. Qed.

Lemma silent_raise {A} (e : Exn) : silent (raise e : M A).
Proof. intros st. apply quiet_refl. Qed.

Lemma silent_out_of_fuel {A} : silent (out_of_fuel : M A).
Proof. intros st. apply quiet_refl. Qed.

Lemma silent_or_raise {A} (o : option A) : silent (or_raise o).
Proof. destruct o; intros st; apply quiet_refl. Qed.

Lemma silent_gets {A} (f : State → A) : silent (gets f).
Proof. intros st. apply quiet_refl. Qed.

Lemma silent_bind {A B} (m : M A) (k : A → M B) :
  silent m → (∀ a, silent (k a)) → silent (m ≫= k).
Proof.
  intros Hm Hk st. specialize (Hm st). unfold mbind, M_bind.
  destruct (m st) as [[a|e|] st']; simpl in *; [|done|done].
  eapply quiet_trans; [exact Hm|apply Hk].
Qed.

Lemma silent_log (msg : str) (lvl : Level) : silent (log msg lvl).
Proof.
  intros st. unfold log, modify; simpl. repeat split; try done.
  - intros ->. by destruct (decide _).
  - by eexists.
  - by eexists.
Qed.

Lemma silent_perform (e : Effect) : written [e] = [] → silent (perform e).
Proof.
  intros He st. unfold perform, modify; simpl. repeat split; try done.
  - by eexists.
  - exists []. by rewrite app_nil_r.
Qed.

Lemma silent_set_stats (f : Stats → Stats) :
  (∀ s, files_downloaded (f s) = files_downloaded s ∧
        files_uploaded (f s) = files_uploaded s) →
  silent (set_stats f).
Proof.
  intros Hf st. destruct (Hf (stats st)) as [? ?].
  unfold set_stats, modify; simpl.
  repeat split; try done; exists []; by rewrite app_nil_r.
Qed.

Lemma silent_random_pause (a b : N) : silent (random_pause a b).
Proof. by apply silent_perform. Qed.

Lemma silent_time_sleep (secs : N) : silent (time_sleep secs).
Proof. by apply silent_perform. Qed.

Create HintDb silent.
#[local] Hint Resolve silent_random_pause silent_time_sleep : silent.

(** Goes through a piece of the script that writes no file and counts
    none. *)
Ltac silent_tac :=
  repeat first
    [ progress intros
    | match goal with
      | |- silent (_ ≫= _) => apply silent_bind
      | |- silent (match ?x with _ => _ end) => destruct x
      end
    | apply silent_ret
    | apply silent_raise
    | apply silent_out_of_fuel
    | apply silent_gets
    | apply silent_log
    | apply silent_or_raise
    | solve [apply silent_perform; reflexivity]
    | solve [apply silent_set_stats; intros ?; split; reflexivity]
    | solve [eauto with silent] ].

Lemma silent_upload_to_ftp cfg remote_path remote_filename :
  silent (upload_to_ftp cfg remote_path remote_filename).
Proof. unfold upload_to_ftp. silent_tac. Qed.
#[local] Hint Resolve silent_upload_to_ftp : silent.

Lemma silent_upload_file_to_ftp cfg remote_filename :
  silent (upload_file_to_ftp cfg remote_filename).
Proof. unfold upload_file_to_ftp. silent_tac. Qed.

Lemma silent_upload_log_to_ftp cfg site remote_filename :
  silent (upload_log_to_ftp cfg site remote_filename).
Proof. unfold upload_log_to_ftp. silent_tac. Qed.

Lemma silent_upload_sql_to_ftp cfg remote_filename :
  silent (upload_sql_to_ftp cfg remote_filename).
Proof. unfold upload_sql_to_ftp. silent_tac. Qed.

Lemma silent_sql_import_save file : silent (sql_import_save file).
Proof. unfold sql_import_save. silent_tac. Qed.

Lemma silent_sql_logy_save file : silent (sql_logy_save file).
Proof. unfold sql_logy_save. silent_tac. Qed.

Lemma silent_exit_code : silent exit_code.
Proof. unfold exit_code. silent_tac. Qed.
#[local] Hint Resolve silent_upload_file_to_ftp silent_upload_log_to_ftp
  silent_upload_sql_to_ftp silent_sql_import_save silent_sql_logy_save
  silent_exit_code : silent.

Lemma silent_JMK_get_page script url retry :
  silent (JMK.get_page script url retry).
Proof.
  remember (MAX_RETRIES - retry)%nat as n eqn:Hn. revert retry Hn.
  induction n as [|n IH]; intros retry Hn; rewrite JMK.get_page_equation_1;
    silent_tac; try (exfalso; lia); apply IH; lia.
Qed.

Lemma silent_JMK_post_page script url data retry :
  silent (JMK.post_page script url data retry).
Proof.
  remember (MAX_RETRIES - retry)%nat as n eqn:Hn. revert retry Hn.
  induction n as [|n IH]; intros retry Hn; rewrite JMK.post_page_equation_1;
    silent_tac; try (exfalso; lia); apply IH; lia.
Qed.

Lemma silent_JMK_extract_viewstate html : silent (JMK._extract_viewstate html).
Proof.
  intros st. unfold JMK._extract_viewstate, modify; simpl.
  repeat split; try done; exists []; by rewrite app_nil_r.
Qed.
#[local] Hint Resolve silent_JMK_get_page silent_JMK_post_page
  silent_JMK_extract_viewstate : silent.

Lemma silent_JMK_get_list_page script page :
  silent (JMK.get_list_page script page).
Proof. unfold JMK.get_list_page. silent_tac. Qed.

Lemma silent_JMK_parse_rows ucd rows items :
  silent (JMK.parse_rows ucd rows items).
Proof.
  revert items. induction rows as [|row rows IH]; intros items; simpl.
  - silent_tac.
  - unfold JMK.format_date_iso, JMK.parse_date_cz. silent_tac; apply IH.
Qed.

Lemma silent_JMK_parse_list_page ucd html :
  silent (JMK.parse_list_page ucd html).
Proof. apply silent_JMK_parse_rows. Qed.
#[local] Hint Resolve silent_JMK_get_list_page silent_JMK_parse_list_page
  : silent.

Lemma silent_Brno_get_page script url retry :
  silent (Brno.get_page script url retry).
Proof.
  remember (MAX_RETRIES - retry)%nat as n eqn:Hn. revert retry Hn.
  induction n as [|n IH]; intros retry Hn; rewrite Brno.get_page_equation_1;
    silent_tac; try (exfalso; lia); apply IH; lia.
Qed.

Lemma silent_Brno_post_page script url data retry :
  silent (Brno.post_page script url data retry).
Proof.
  remember (MAX_RETRIES - retry)%nat as n eqn:Hn. revert retry Hn.
  induction n as [|n IH]; intros retry Hn; rewrite Brno.post_page_equation_1;
    silent_tac; try (exfalso; lia); apply IH; lia.
Qed.
#[local] Hint Resolve silent_Brno_get_page silent_Brno_post_page : silent.

Lemma silent_Brno_get_list_page script first :
  silent (Brno.get_list_page script first).
Proof. unfold Brno.get_list_page. silent_tac. Qed.

Lemma silent_Brno_parse_row ucd row : silent (Brno._parse_row ucd row).
Proof.
  unfold Brno._parse_row, Brno.format_date_iso, Brno.parse_date_cz.
  silent_tac.
Qed.
#[local] Hint Resolve silent_Brno_get_list_page silent_Brno_parse_row : silent.

Lemma silent_Brno_parse_rows ucd rows items :
  silent (Brno.parse_rows ucd rows items).
Proof.
  revert items. induction rows as [|row rows IH]; intros items; simpl.
  - silent_tac.
  - silent_tac; apply IH.
Qed.

Lemma silent_Brno_parse_list_page ucd html :
  silent (Brno.parse_list_page ucd html).
Proof.
  unfold Brno.parse_list_page. destruct (Brno.tbody html).
  - apply silent_Brno_parse_rows.
  - silent_tac.
Qed.
#[local] Hint Resolve silent_Brno_parse_list_page : silent.

(** A step that only changes the state, in front of a download. *)
Lemma downloaded_modify (f : State → State) (k : () → M bool) (name : str)
    (st : State) :
  quiet st (f st) → downloaded name (f st) (k () (f st)) →
  downloaded name st ((modify f ≫= k) st).
Proof. intros Hq Hd. by eapply quiet_downloaded. Qed.

Lemma quiet_log (msg : str) (lvl : Level) (st : State) :
  quiet st (log msg lvl st).2.
Proof. apply silent_log. Qed.

Lemma quiet_perform (e : Effect) (st : State) :
  written [e] = [] → quiet st (perform e st).2.
Proof. intros. by apply silent_perform. Qed.

Lemma wrote_write_file (name : str) (st : State) :
  wrote name st (write_file name st).2.
Proof.
  unfold write_file, modify; simpl. repeat split; try done. by eexists.
Qed.

(** One attempt of the JMK download raises and leaves the state alone,
    or returns [True] with the file written, or [False] without it. *)
Lemma JMK_download_try_cases (r : Reply str) (save_path : str) (st : State) :
  (∃ e, JMK.download_try r save_path st = (Ok (JMK.Raised e), st)) ∨
  ((JMK.download_try r save_path st).1 = Ok (JMK.Returned true) ∧
   wrote save_path st (JMK.download_try r save_path st).2) ∨
  ((JMK.download_try r save_path st).1 = Ok (JMK.Returned false) ∧
   quiet st (JMK.download_try r save_path st).2).
Proof.
  unfold JMK.download_try.
  repeat case_match; try (left; eexists; reflexivity).
  - right; right. split; [done|]. apply (silent_bind _ _ (silent_log _ _)).
    intros _. apply silent_ret.
  - right; left. split; [done|]. apply wrote_write_file.
  - right; left. split; [done|]. apply wrote_write_file.
Qed.

Lemma JMK_download_file_downloaded script url save_path retry st :
  downloaded save_path st (JMK.download_file script url save_path retry st).
Proof.
  remember (MAX_RETRIES - retry)%nat as n eqn:Hn. revert retry Hn st.
  induction n as [|n IH]; intros retry Hn st;
    rewrite JMK.download_file_equation_1.
  all: apply downloaded_modify; [by apply quiet_perform|].
  all: match goal with |- downloaded _ ?s _ => generalize s end; clear st.
  all: intros st.
  all: destruct (JMK_download_try_cases (script retry) save_path st)
         as [[e He]|[[Ho Hw]|[Ho Hq]]].
  all: try (destruct (JMK.download_try (script retry) save_path st)
              as [o s2] eqn:E; simpl in *; subst o;
            rewrite (bind_ok _ _ _ _ _ E);
            first [left; by split|right; by split]).
  all: rewrite (bind_ok _ _ _ _ _ He).
  all: destruct (decide (retry < MAX_RETRIES)%nat); try (exfalso; lia).
  - apply downloaded_modify; [apply quiet_log|]. right. split; [done|].
    apply quiet_refl.
  - apply downloaded_modify; [apply quiet_log|].
    apply downloaded_modify; [by apply quiet_perform|]. apply IH. lia.
Qed.

Lemma Brno_download_try_cases (r : Reply str) (save_path : str) (st : State) :
  (∃ e, Brno.download_try r save_path st = (Ok (inl e), st)) ∨
  ((Brno.download_try r save_path st).1 = Ok (inr true) ∧
   wrote save_path st (Brno.download_try r save_path st).2).
Proof.
  unfold Brno.download_try.
  repeat case_match; try (left; eexists; reflexivity).
  all: right; split; [done|]; apply wrote_write_file.
Qed.

Lemma Brno_download_file_downloaded script url save_path retry st :
  downloaded save_path st (Brno.download_file script url save_path retry st).
Proof.
  remember (MAX_RETRIES - retry)%nat as n eqn:Hn. revert retry Hn st.
  induction n as [|n IH]; intros retry Hn st;
    rewrite Brno.download_file_equation_1.
  all: apply downloaded_modify; [by apply quiet_perform|].
  all: match goal with |- downloaded _ ?s _ => generalize s end; clear st.
  all: intros st.
  all: destruct (Brno_download_try_cases (script retry) save_path st)
         as [[e He]|[Ho Hw]].
  all: try (destruct (Brno.download_try (script retry) save_path st)
              as [o s2] eqn:E; simpl in *; subst o;
            rewrite (bind_ok _ _ _ _ _ E); left; by split).
  all: rewrite (bind_ok _ _ _ _ _ He).
  all: destruct (decide (retry < MAX_RETRIES)%nat); try (exfalso; lia).
  - apply downloaded_modify; [apply quiet_log|]. right. split; [done|].
    apply quiet_refl.
  - apply downloaded_modify; [apply quiet_log|].
    apply downloaded_modify; [by apply quiet_perform|]. apply IH. lia.
Qed.

(** [upload_file_to_ftp] returns, and returns [False] when FTP is not
    configured. *)
Lemma upload_file_to_ftp_returns cfg (remote_filename : str) (st : State) :
  ∃ up, (upload_file_to_ftp cfg remote_filename st).1 = Ok up ∧
        (ftp_unconfigured cfg → up = false).
Proof.
  unfold upload_file_to_ftp, upload_to_ftp, ftp_unconfigured.
  destruct (_ || _) eqn:E.
  - by exists false.
  - rewrite !orb_false_iff, !bool_decide_eq_false in E.
    destruct (ftp_server cfg (FTP_PATH cfg) remote_filename);
      [exists false|exists true]; (split; [done|]); tauto.
Qed.

Section RunRel.
Context (cfg : Config) (name_of : list str → option str).

(** From [st] to [st']: the files written are new and distinct, the disk
    grew by exactly these files, each of them was counted as downloaded
    and recorded for the SQL import under its name, no more uploads were
    counted than files written, the error flag was not cleared, and it is
    set if a file was written while FTP is not configured. *)
Definition run_rel (st st' : State) : Prop :=
  ∃ new recs,
    effects st' = effects st ++ new ∧
    statements st' = statements st ++ recs ∧
    Forall2 (λ r n, name_of r = Some n) recs (written new) ∧
    NoDup (written new) ∧
    (∀ n, n ∈ written new → n ∉ disk st) ∧
    disk st' = list_to_set (written new) ∪ disk st ∧
    files_downloaded (stats st')
      = (files_downloaded (stats st) + length (written new))%nat ∧
    (files_uploaded (stats st) ≤ files_uploaded (stats st'))%nat ∧
    (files_uploaded (stats st')
       ≤ files_uploaded (stats st) + length (written new))%nat ∧
    (HAS_ERROR st = true → HAS_ERROR st' = true) ∧
    (ftp_unconfigured cfg → written new ≠ [] → HAS_ERROR st' = true).

Definition respects {A} (m : M A) : Prop := ∀ st, run_rel st (m st).2.

Lemma quiet_run_rel (st st' : State) : quiet st st' → run_rel st st'.
Proof.
  intros (Hd & Hs & Hf & Hu & He & (new & Hn & Hw) & _).
  exists new, []. rewrite Hw, app_nil_r; simpl.
  repeat split; try done; try lia.
  - constructor.
  - set_solver.
  - set_solver.
Qed.

Lemma run_rel_refl (st : State) : run_rel st st.
Proof. apply quiet_run_rel, quiet_refl. Qed.

Lemma run_rel_trans (st1 st2 st3 : State) :
  run_rel st1 st2 → run_rel st2 st3 → run_rel st1 st3.
Proof.
  intros (new1 & recs1 & Hn1 & Hs1 & Hr1 & Hnd1 & Hfr1 & Hd1 & Hf1 & Hu1 &
          Hv1 & He1 & Hc1)
         (new2 & recs2 & Hn2 & Hs2 & Hr2 & Hnd2 & Hfr2 & Hd2 & Hf2 & Hu2 &
          Hv2 & He2 & Hc2).
  exists (new1 ++ new2), (recs1 ++ recs2).
  rewrite written_app, length_app.
  split; [by rewrite Hn2, Hn1, app_assoc|].
  split; [by rewrite Hs2, Hs1, app_assoc|].
  split; [by apply Forall2_app|].
  split.
  { apply NoDup_app. split; [done|]. split; [|done].
    intros n Hin1 Hin2. apply (Hfr2 n Hin2). rewrite Hd1. set_solver. }
  split.
  { intros n [Hin|Hin]%elem_of_app; [by apply Hfr1|].
    intros Hd. apply (Hfr2 n Hin). rewrite Hd1. set_solver. }
  split; [rewrite Hd2, Hd1, list_to_set_app_L; set_solver|].
  split; [lia|]. split; [lia|]. split; [lia|]. split; [tauto|].
  intros Hcfg Hne. destruct (written new2) as [|n2 w2] eqn:E2.
  - rewrite app_nil_r in Hne. apply He2, Hc1; done.
  - by apply Hc2.
Qed.

Lemma silent_respects {A} (m : M A) : silent m → respects m.
Proof. intros H st. apply quiet_run_rel, H. Qed.

Lemma respects_bind {A B} (m : M A) (k : A → M B) :
  respects m → (∀ a, respects (k a)) → respects (m ≫= k).
Proof.
  intros Hm Hk st. specialize (Hm st). unfold mbind, M_bind.
  destruct (m st) as [[a|e|] st']; simpl in *; [|done|done].
  eapply run_rel_trans; [exact Hm|apply Hk].
Qed.

Lemma run_rel_bind {A B} (m : M A) (k : A → M B) (st st1 : State) :
  run_rel st (m st1).2 → (∀ a, respects (k a)) →
  run_rel st ((m ≫= k) st1).2.
Proof.
  intros Hm Hk. unfold mbind, M_bind.
  destruct (m st1) as [[a|e|] st']; simpl in *; [|done|done].
  eapply run_rel_trans; [exact Hm|apply Hk].
Qed.

(** What the file loops do after [download_file] has returned [ok]. *)
Lemma file_tail_run_rel (ok : bool) (final_name : str) (record : list str)
    (m_ok m_ftp_ok m_ftp_err m_err : str) (st sB : State) :
  final_name ∉ disk st → name_of record = Some final_name →
  (if ok then wrote final_name st sB else quiet st sB) →
  run_rel st
    ((if ok then
        log m_ok INFO;;
        set_stats (λ s,
          {| pages_processed := pages_processed s;
             items_processed := items_processed s;
             files_downloaded := S (files_downloaded s);
             files_uploaded := files_uploaded s;
             files_failed := files_failed s |});;
        up ← upload_file_to_ftp cfg final_name;
        (if up : bool then
           log m_ftp_ok INFO;;
           set_stats (λ s,
             {| pages_processed := pages_processed s;
                items_processed := items_processed s;
                files_downloaded := files_downloaded s;
                files_uploaded := S (files_uploaded s);
                files_failed := files_failed s |})
         else log m_ftp_err ERROR);;
        add_file record
      else
        log m_err ERROR;;
        set_stats (λ s,
          {| pages_processed := pages_processed s;
             items_processed := items_processed s;
             files_downloaded := files_downloaded s;
             files_uploaded := files_uploaded s;
             files_failed := S (files_failed s) |})) sB).2.
Proof.
  intros Hfresh Hname H. destruct ok.
  - destruct H as (Hd & Hs & Hf & Hu & He & new & Hn & Hw).
    do 2 erewrite bind_ok by reflexivity.
    match goal with |- run_rel _ ((_ ≫= _) ?s).2 => set (sC := s) end.
    destruct (upload_file_to_ftp_returns cfg final_name sC) as (up & Hup & Hcfg).
    pose proof (silent_upload_file_to_ftp cfg final_name sC)
      as (Hd' & Hs' & Hf' & Hu' & He' & (new' & Hn' & Hw') & _).
    destruct (upload_file_to_ftp cfg final_name sC) as [o sD] eqn:E.
    simpl in Hup. subst o. rewrite (bind_ok _ _ _ _ _ E).
    subst sC. destruct up.
    all: unfold mbind, M_bind, log, set_stats, add_file, modify; simpl in *.
    + exists (new ++ [Print {| level := INFO; msg := m_ok |}] ++ new' ++
              [Print {| level := INFO; msg := m_ftp_ok |}]), [record].
      rewrite !written_app, Hw, Hw'. simpl.
      rewrite Hn', Hn, Hs', Hs, Hd', Hd, Hf', Hf, Hu', Hu.
      split; [by rewrite <- !app_assoc|]. split; [done|].
      split; [by repeat constructor|].
      split; [apply NoDup_singleton|].
      split; [by intros n ->%list_elem_of_singleton|].
      split; [set_solver|]. split; [lia|]. split; [lia|]. split; [lia|].
      split; [tauto|]. intros Hc. by specialize (Hcfg Hc).
    + exists (new ++ [Print {| level := INFO; msg := m_ok |}] ++ new' ++
              [Print {| level := ERROR; msg := m_ftp_err |}]), [record].
      rewrite !written_app, Hw, Hw'. simpl.
      rewrite Hn', Hn, Hs', Hs, Hd', Hd, Hf', Hf, Hu', Hu.
      split; [by rewrite <- !app_assoc|]. split; [done|].
      split; [by repeat constructor|].
      split; [apply NoDup_singleton|].
      split; [by intros n ->%list_elem_of_singleton|].
      split; [set_solver|]. split; [lia|]. split; [lia|]. split; [lia|].
      done.
  - apply quiet_run_rel. eapply quiet_trans; [exact H|].
    match goal with |- quiet _ (?m _).2 => assert (silent m) as Hm end.
    { silent_tac. }
    apply Hm.
Qed.
End RunRel.

Create HintDb resp.

(** Goes through a piece of the script that may download files: the
    leaves either write and count no file, or are file loops. *)
Ltac resp :=
  repeat first
    [ progress intros
    | match goal with
      | |- respects _ _ (_ ≫= _) => apply respects_bind
      | |- respects _ _ (match ?x with _ => _ end) => destruct x
      | |- respects _ _ (let _ := _ in _) => cbv zeta
      end
    | solve [eauto with resp]
    | solve [apply silent_respects; silent_tac] ].

(** The field of an SQL record that holds the file name: the first one in
    [edeska_jmk.py], the ninth one in [magistrat_mesta_brna.py]. *)
Definition JMK_record_name (record : list str) : option str := head record.
Definition Brno_record_name (record : list str) : option str :=
  record !! 8%nat.

Lemma respects_JMK_for_files ucd cfg w item nadpis files_ :
  respects cfg JMK_record_name (JMK.for_files ucd cfg w item nadpis files_).
Proof.
  induction files_ as [|file_info rest IH]; intros st.
  - apply run_rel_refl.
  - cbn [JMK.for_files].
    erewrite bind_ok by reflexivity.
    destruct (get_available_filename (stat_fails cfg) (disk st)
                (JMK.date_iso item ++ lit "_" ++
                 sanitize_filename ucd file_info.2))
      as [[final_name|candidate]|] eqn:Hname;
      [|apply run_rel_refl|apply run_rel_refl].
    apply get_available_filename_free in Hname as Hfresh.
    do 2 erewrite bind_ok by reflexivity.
    match goal with |- run_rel _ _ _ ((_ ≫= _) ?s).2 => set (sA := s) end.
    assert (quiet st sA) as HA by (by apply quiet_perform).
    pose proof (JMK_download_file_downloaded (JMK.files w file_info.1)
                  file_info.1 final_name 0 sA) as Hdl.
    destruct (JMK.download_file _ _ _ _ sA) as [o sB] eqn:E.
    apply (quiet_downloaded _ _ _ _ HA) in Hdl.
    destruct Hdl as [[Ho H]|[Ho H]]; simpl in Ho, H; subst o;
      rewrite (bind_ok _ _ _ _ _ E).
    + apply run_rel_bind; [|intros _; apply IH].
      by apply (file_tail_run_rel cfg JMK_record_name true).
    + apply run_rel_bind; [|intros _; apply IH].
      by apply (file_tail_run_rel cfg JMK_record_name false final_name
                   [final_name]).
Qed.
#[local] Hint Resolve respects_JMK_for_files : resp.

Lemma respects_JMK_handle_item ucd cfg w item :
  respects cfg JMK_record_name (JMK.handle_item ucd cfg w item).
Proof. unfold JMK.handle_item. resp. Qed.
#[local] Hint Resolve respects_JMK_handle_item : resp.

Lemma respects_JMK_for_items ucd cfg w items :
  respects cfg JMK_record_name (JMK.for_items ucd cfg w items).
Proof.
  induction items as [|item rest IH]; simpl; unfold JMK.parse_date_cz; resp.
Qed.
#[local] Hint Resolve respects_JMK_for_items : resp.

Lemma respects_JMK_main_loop ucd cfg w pages page :
  respects cfg JMK_record_name (JMK.main_loop ucd cfg w pages page).
Proof.
  revert page. induction pages as [|script later IH]; intros page; simpl; resp.
Qed.
#[local] Hint Resolve respects_JMK_main_loop : resp.

Lemma respects_JMK_main ucd cfg w :
  respects cfg JMK_record_name (JMK.main ucd cfg w).
Proof. unfold JMK.main, JMK.finish. resp. Qed.

Lemma respects_Brno_for_files ucd cfg w item files_ :
  respects cfg Brno_record_name (Brno.for_files ucd cfg w item files_).
Proof.
  induction files_ as [|file_info rest IH]; intros st.
  - apply run_rel_refl.
  - cbn [Brno.for_files].
    erewrite bind_ok by reflexivity.
    destruct (get_available_filename (stat_fails cfg) (disk st)
                (Brno.zverejnit_od_iso item ++ lit "_" ++
                 sanitize_filename ucd file_info.2))
      as [[final_name|candidate]|] eqn:Hname;
      [|apply run_rel_refl|apply run_rel_refl].
    apply get_available_filename_free in Hname as Hfresh.
    do 2 erewrite bind_ok by reflexivity.
    match goal with |- run_rel _ _ _ ((_ ≫= _) ?s).2 => set (sA := s) end.
    assert (quiet st sA) as HA by (by apply quiet_perform).
    pose proof (Brno_download_file_downloaded
                  (Brno.files w (Brno.DOWNLOAD_URL ++ file_info.1))
                  (Brno.DOWNLOAD_URL ++ file_info.1) final_name 0 sA) as Hdl.
    destruct (Brno.download_file _ _ _ _ sA) as [o sB] eqn:E.
    apply (quiet_downloaded _ _ _ _ HA) in Hdl.
    destruct Hdl as [[Ho H]|[Ho H]]; simpl in Ho, H; subst o;
      rewrite (bind_ok _ _ _ _ _ E).
    + apply run_rel_bind; [|intros _; apply IH].
      by apply (file_tail_run_rel cfg Brno_record_name true).
    + apply run_rel_bind; [|intros _; apply IH].
      by apply (file_tail_run_rel cfg Brno_record_name false final_name
                   (replicate 8 [] ++ [final_name])).
Qed.
#[local] Hint Resolve respects_Brno_for_files : resp.

Lemma respects_Brno_handle_item ucd cfg w item :
  respects cfg Brno_record_name (Brno.handle_item ucd cfg w item).
Proof. unfold Brno.handle_item. resp. Qed.
#[local] Hint Resolve respects_Brno_handle_item : resp.

Lemma respects_Brno_for_items ucd cfg w items :
  respects cfg Brno_record_name (Brno.for_items ucd cfg w items).
Proof.
  induction items as [|item rest IH]; simpl; unfold Brno.parse_date_cz; resp.
Qed.
#[local] Hint Resolve respects_Brno_for_items : resp.

Lemma respects_Brno_main_loop ucd cfg w pages first total_count :
  respects cfg Brno_record_name
    (Brno.main_loop ucd cfg w pages first total_count).
Proof.
  revert first total_count.
  induction pages as [|script later IH]; intros first total_count; simpl; resp.
Qed.
#[local] Hint Resolve respects_Brno_main_loop : resp.

Lemma respects_Brno_main ucd cfg w :
  respects cfg Brno_record_name (Brno.main ucd cfg w).
Proof. unfold Brno.main, Brno.finish. resp. Qed.

Lemma bind_Ok_inv {A B} (m : M A) (k : A → M B) (st st' : State) (b : B) :
  (m ≫= k) st = (Ok b, st') →
  ∃ a st1, m st = (Ok a, st1) ∧ k a st1 = (Ok b, st').
Proof.
  unfold mbind, M_bind. destruct (m st) as [[a|e|] st1]; [eauto|done|done].
Qed.

(** What [run_rel] says of a whole run, which starts with no effects, no
    records and the counters at 0. *)
Lemma run_rel_initial (cfg : Config) (name_of : list str → option str)
    (directory : gset str) (st' : State) :
  run_rel cfg name_of (initial_state directory) st' →
  NoDup (written (effects st')) ∧
  (∀ n, n ∈ written (effects st') → n ∉ directory) ∧
  disk st' = list_to_set (written (effects st')) ∪ directory ∧
  files_downloaded (stats st') = length (written (effects st')) ∧
  (files_uploaded (stats st') ≤ files_downloaded (stats st'))%nat ∧
  Forall2 (λ r n, name_of r = Some n) (statements st')
    (written (effects st')) ∧
  (ftp_unconfigured cfg → written (effects st') ≠ [] → HAS_ERROR st' = true).
Proof.
  intros (new & recs & Hn & Hs & Hr & Hnd & Hfr & Hd & Hf & Hu & Hv & He & Hc).
  simpl in *. rewrite Hn, Hs. repeat split; try done. lia.
Qed.


(** What [run_rel] says of the records of a whole run. *)
Lemma run_rel_records (cfg : Config) (name_of : list str → option str)
    (directory : gset str) (st' : State) :
  run_rel cfg name_of (initial_state directory) st' →
  length (statements st') = files_downloaded (stats st') ∧
  (files_uploaded (stats st') ≤ files_downloaded (stats st'))%nat ∧
  ∃ names,
    Forall2 (λ record n, name_of record = Some n) (statements st') names ∧
    NoDup names ∧
    ∀ n, n ∈ names → (n ∉ directory) ∧ n ∈ disk st'.
Proof.
  intros (Hnd & Hfr & Hd & Hf & Hu & Hr & _)%run_rel_initial.
  split; [by rewrite Hf, (Forall2_length _ _ _ Hr)|]. split; [done|].
  exists (written (effects st')). split; [done|]. split; [done|].
  intros n Hn. split; [by apply Hfr|]. rewrite Hd. set_solver.
Qed.


Lemma error_flag_exit_status (o : Outcome N) (st' : State) :
  log_inv st' → HAS_ERROR st' = true →
  (∀ code, o = Ok code →
     code = 0 ↔ Forall (λ l, level l ≠ ERROR) (LOG_LINES st')) →
  exit_status o ≠ Some 0.
Proof.
  intros Hinv Herr Hcode. destruct o as [code| |]; simpl; [|done|done].
  intros [= ->]. destruct (Hcode 0 eq_refl) as [Hall _].
  specialize (Hall eq_refl). apply Hinv in Herr.
  apply Exists_exists in Herr as (l & Hl & Hlvl).
  rewrite Forall_forall in Hall. by apply (Hall l Hl).
Qed.

(** X21. A run of [edeska_jmk.py] without FTP settings that downloads at
    least one file does not end with exit status 0: the skipped upload
    is logged as "FTP CHYBA" at level ERROR. *)
Theorem JMK_download_without_ftp_fails_the_run (ucd : UCD) (cfg : Config)
    (w : JMK.World) (directory : gset str) :
  ftp_unconfigured cfg →
  (0 < files_downloaded
         (stats (exec (JMK.main ucd cfg w) (initial_state directory))))%nat →
  exit_status (outcome (JMK.main ucd cfg w) (initial_state directory))
    ≠ Some 0.
Proof.
  intros Hcfg Hdl.
  destruct (run_rel_initial cfg JMK_record_name directory _
              (respects_JMK_main ucd cfg w (initial_state directory)))
    as (_ & _ & _ & Hf & _ & _ & Herr).
  unfold exec in *.
  apply (error_flag_exit_status _
           (JMK.main ucd cfg w (initial_state directory)).2).
  - apply preserves_JMK_main, log_inv_initial.
  - apply Herr; [done|]. intros Hnil. rewrite Hf, Hnil in Hdl. simpl in Hdl.
    lia.
  - intros code Ho. unfold outcome in Ho.
    destruct (JMK.main ucd cfg w (initial_state directory)) as [o st'] eqn:E.
    simpl in Ho. subst o.
    apply (JMK_main_exit_code _ _ _ _ _ _ (log_inv_initial directory) E).
Qed.

(** A list page with one notice of 2 May 2024, the detail page of the
    notice with one attachment, and a site that serves them and the
    attachment; the second list page is empty. *)
Definition one_file_page : JMK.Html :=
  {| JMK.text := lit "<html><table>...</table></html>";
     JMK.VIEWSTATE := None; JMK.VIEWSTATEGENERATOR := None;
     JMK.rows := [ JMK_row "02.05.2024" "Oznameni" ];
     JMK.soubor_odkaz := [] |}.

Definition one_file_detail : JMK.Html :=
  {| JMK.text := lit "<html><a class='soubor_odkaz'>...</a></html>";
     JMK.VIEWSTATE := None; JMK.VIEWSTATEGENERATOR := None;
     JMK.rows := [];
     JMK.soubor_odkaz := [ (lit "File.ashx?id=1", lit "Zadost o dotaci.pdf") ] |}.

Definition one_file_world : JMK.World :=
  {| JMK.list_pages := [ λ _, status_200 one_file_page;
                         λ _, status_200 JMK_page_without_rows ];
     JMK.detail_pages := λ _ _, status_200 one_file_detail;
     JMK.files := λ _ _, status_200 (lit "%PDF-1.4") |}.

(** X21 on [one_file_world]: one file is downloaded and the exit code
    is 1. *)
Lemma JMK_download_without_ftp_fails_the_run_witness :
  exit_status (outcome (JMK.main ucd_excerpt cfg_may_2 one_file_world)
                 (initial_state ∅)) ≠ Some 0.
Proof.
  apply (JMK_download_without_ftp_fails_the_run ucd_excerpt cfg_may_2
           one_file_world ∅).
  - left. reflexivity.
  - vm_compute. lia.
Defined.

(** X22. The same for [magistrat_mesta_brna.py]. *)
Theorem Brno_download_without_ftp_fails_the_run (ucd : UCD) (cfg : Config)
    (w : Brno.World) (directory : gset str) :
  ftp_unconfigured cfg →
  (0 < files_downloaded
         (stats (exec (Brno.main ucd cfg w) (initial_state directory))))%nat →
  exit_status (outcome (Brno.main ucd cfg w) (initial_state directory))
    ≠ Some 0.
Proof.
  intros Hcfg Hdl.
  destruct (run_rel_initial cfg Brno_record_name directory _
              (respects_Brno_main ucd cfg w (initial_state directory)))
    as (_ & _ & _ & Hf & _ & _ & Herr).
  unfold exec in *.
  apply (error_flag_exit_status _
           (Brno.main ucd cfg w (initial_state directory)).2).
  - apply preserves_Brno_main, log_inv_initial.
  - apply Herr; [done|]. intros Hnil. rewrite Hf, Hnil in Hdl. simpl in Hdl.
    lia.
  - intros code Ho. unfold outcome in Ho.
    destruct (Brno.main ucd cfg w (initial_state directory)) as [o st'] eqn:E.
    simpl in Ho. subst o.
    apply (Brno_main_exit_code _ _ _ _ _ _ (log_inv_initial directory) E).
Qed.

(** A Brno list of one notice of 2 May 2024 with one attachment. *)
Definition Brno_row_with_file : Brno.Row :=
  {| Brno.oblast := lit "Brno"; Brno.kategorie := lit "Oznameni";
     Brno.nazev := Some (7, lit "Verejna vyhlaska");
     Brno.cislo_jednaci := lit "MMB/1"; Brno.puvodce := lit "MMB";
     Brno.zverejnit := [lit "02.05.2024"; lit "17.05.2024"];
     Brno.dokument := [ (lit "4711", lit "Verejna vyhlaska.pdf") ] |}.

Definition Brno_one_file_world : Brno.World :=
  {| Brno.list_pages :=
       [ λ _, status_200
                {| Brno.text := lit "<html><table>...</table></html>";
                   Brno.total_count_match := Some 1%nat;
                   Brno.tbody := Some [Brno_row_with_file] |} ];
     Brno.files := λ _ _, status_200 (lit "%PDF-1.4") |}.

(** X22 on [Brno_one_file_world]. *)
Lemma Brno_download_without_ftp_fails_the_run_witness :
  exit_status (outcome (Brno.main ucd_excerpt cfg_may_2 Brno_one_file_world)
                 (initial_state ∅)) ≠ Some 0.
Proof.
  apply (Brno_download_without_ftp_fails_the_run ucd_excerpt cfg_may_2
           Brno_one_file_world ∅).
  - left. reflexivity.
  - vm_compute. lia.
Defined.


(** ** The summary at the end of a run *)

Definition downloaded_line (n : nat) : LogLine :=
  {| level := INFO; msg := lit "Stazeno souboru: " ++ str_of_nat n |}.
Definition uploaded_line (n : nat) : LogLine :=
  {| level := INFO; msg := lit "Nahrano na FTP: " ++ str_of_nat n |}.
Definition no_import_line : LogLine :=
  {| level := INFO;
     msg := lit "Zadne soubory ke stazeni, SQL import nevytvoren." |}.

Lemma silent_keeps_line {A} (m : M A) (st : State) (l : LogLine) :
  silent m → l ∈ LOG_LINES st → l ∈ LOG_LINES (m st).2.
Proof.
  intros Hm Hl. destruct (Hm st) as (_ & _ & _ & _ & _ & _ & lines & ->).
  set_solver.
Qed.

Lemma silent_keeps_effect {A} (m : M A) (st : State) (e : Effect) :
  silent m → e ∈ effects st → e ∈ effects (m st).2.
Proof.
  intros Hm He. destruct (Hm st) as (_ & _ & _ & _ & _ & (new & -> & _) & _).
  set_solver.
Qed.

Lemma effect_after_bind {A B} (m : M A) (k : A → M B) (st : State)
    (e : Effect) :
  (∀ a, silent (k a)) → e ∈ effects (m st).2 → e ∈ effects ((m ≫= k) st).2.
Proof.
  intros Hk. unfold mbind, M_bind.
  destruct (m st) as [[a|e'|] s1]; simpl; [|done|done].
  by apply silent_keeps_effect.
Qed.

(** One step of a run of binds, with the state kept in normal form. *)
Ltac step :=
  erewrite bind_ok by reflexivity;
  cbn [LOG_LINES HAS_ERROR effects disk stats statements viewstate
       viewstate_generator].

Lemma JMK_finish_summary cfg (import_name logy_name site : str) (sL : State) :
  let st' := (JMK.finish cfg import_name logy_name site sL).2 in
  quiet sL st' ∧
  downloaded_line (files_downloaded (stats sL)) ∈ LOG_LINES st' ∧
  uploaded_line (files_uploaded (stats sL)) ∈ LOG_LINES st' ∧
  (statements sL ≠ [] →
   WriteSql import_name (length (statements sL)) ∈ effects st') ∧
  (statements sL = [] → no_import_line ∈ LOG_LINES st').
Proof.
  cbv zeta. split.
  { assert (silent (JMK.finish cfg import_name logy_name site)) as H
      by (unfold JMK.finish; silent_tac).
    apply H. }
  unfold JMK.finish. do 8 step.
  split; [apply silent_keeps_line; [silent_tac|]|].
  { cbn [LOG_LINES]. unfold downloaded_line. set_solver. }
  split; [apply silent_keeps_line; [silent_tac|]|].
  { cbn [LOG_LINES]. unfold uploaded_line. set_solver. }
  split.
  - intros Hne. destruct (statements sL) as [|r rs] eqn:E; [done|].
    apply effect_after_bind; [silent_tac|].
    apply effect_after_bind; [silent_tac|].
    unfold sql_import_save. do 2 step.
    apply silent_keeps_effect; [silent_tac|]. cbn [effects]. set_solver.
  - intros ->. step.
    apply silent_keeps_line; [silent_tac|]. cbn [LOG_LINES].
    unfold no_import_line. set_solver.
Qed.

Lemma Brno_finish_summary cfg (import_name logy_name site : str) (sL : State) :
  let st' := (Brno.finish cfg import_name logy_name site sL).2 in
  quiet sL st' ∧
  downloaded_line (files_downloaded (stats sL)) ∈ LOG_LINES st' ∧
  uploaded_line (files_uploaded (stats sL)) ∈ LOG_LINES st' ∧
  (statements sL ≠ [] →
   WriteSql import_name (length (statements sL)) ∈ effects st') ∧
  (statements sL = [] → no_import_line ∈ LOG_LINES st').
Proof.
  cbv zeta. split.
  { assert (silent (Brno.finish cfg import_name logy_name site)) as H
      by (unfold Brno.finish; silent_tac).
    apply H. }
  unfold Brno.finish. do 8 step.
  split; [apply silent_keeps_line; [silent_tac|]|].
  { cbn [LOG_LINES]. unfold downloaded_line. set_solver. }
  split; [apply silent_keeps_line; [silent_tac|]|].
  { cbn [LOG_LINES]. unfold uploaded_line. set_solver. }
  split.
  - intros Hne. destruct (statements sL) as [|r rs] eqn:E; [done|].
    apply effect_after_bind; [silent_tac|].
    apply effect_after_bind; [silent_tac|].
    unfold sql_import_save. do 2 step.
    apply silent_keeps_effect; [silent_tac|]. cbn [effects]. set_solver.
  - intros ->. step.
    apply silent_keeps_line; [silent_tac|]. cbn [LOG_LINES].
    unfold no_import_line. set_solver.
Qed.

Lemma respects_step (cfg : Config) (name_of : list str → option str) {A}
    (m : M A) (st0 st st1 : State) (a : A) :
  respects cfg name_of m → run_rel cfg name_of st0 st →
  m st = (Ok a, st1) → run_rel cfg name_of st0 st1.
Proof.
  intros Hm H0 E. eapply run_rel_trans; [exact H0|].
  specialize (Hm st). by rewrite E in Hm.
Qed.



(** X24. The same for [magistrat_mesta_brna.py]. *)
Theorem Brno_summary_agrees_with_import (ucd : UCD) (cfg : Config)
    (w : Brno.World) (directory : gset str) (code : N) (st' : State) :
  Brno.main ucd cfg w (initial_state directory) = (Ok code, st') →
  downloaded_line (length (statements st')) ∈ LOG_LINES st' ∧
  (∃ m, (m ≤ length (statements st'))%nat ∧
        uploaded_line m ∈ LOG_LINES st') ∧
  (statements st' ≠ [] →
   WriteSql Brno.SQL_IMPORT_FILE (length (statements st')) ∈ effects st') ∧
  (statements st' = [] → no_import_line ∈ LOG_LINES st').
Proof.
  intros H. unfold Brno.main in H.
  apply bind_Ok_inv in H as (? & s1 & E1 & H).
  apply bind_Ok_inv in H as (? & s2 & E2 & H).
  apply bind_Ok_inv in H as (? & s3 & E3 & H).
  apply bind_Ok_inv in H as (? & sL & EL & H).
  assert (run_rel cfg Brno_record_name (initial_state directory) sL) as Hrel.
  { eapply respects_step; [apply respects_Brno_main_loop| |exact EL].
    eapply respects_step; [apply silent_respects, silent_log| |exact E3].
    eapply respects_step; [apply silent_respects, silent_log| |exact E2].
    eapply respects_step; [apply silent_respects, silent_log| |exact E1].
    apply run_rel_refl. }
  apply run_rel_records in Hrel as (Hlen & Hup & _).
  pose proof (Brno_finish_summary cfg Brno.SQL_IMPORT_FILE Brno.SQL_LOGY_FILE
                (lit "magistrat_mesta_brna") sL) as Hfin.
  rewrite H in Hfin. cbv zeta in Hfin. simpl in Hfin.
  destruct Hfin as ((_ & Hst & _) & Hd & Hu & Hsql & Hno).
  rewrite Hst, Hlen. split; [done|]. split; [eauto|].
  rewrite <- Hlen. done.
Qed.

(** X24 on [Brno_one_file_world]. *)
Lemma Brno_summary_agrees_with_import_witness :
  let st' := exec (Brno.main ucd_excerpt cfg_may_2 Brno_one_file_world)
               (initial_state ∅) in
  downloaded_line (length (statements st')) ∈ LOG_LINES st' ∧
  (∃ m, (m ≤ length (statements st'))%nat ∧
        uploaded_line m ∈ LOG_LINES st') ∧
  (statements st' ≠ [] →
   WriteSql Brno.SQL_IMPORT_FILE (length (statements st')) ∈ effects st') ∧
  (statements st' = [] → no_import_line ∈ LOG_LINES st').
Proof.
  apply (Brno_summary_agrees_with_import ucd_excerpt cfg_may_2
           Brno_one_file_world ∅ 1).
  unfold exec. vm_compute. reflexivity.
Defined.

